(** * dumpling/v4/export: the task writer and the consistency controllers

    A shallow embedding of [writer.go] (type [Writer], [outputFileNamer]) and
    of [consistency.go] (the [ConsistencyController] implementations), with
    the properties of their behaviour proved below.

    Conventions.
    - Go's [int] is the 64-bit two's complement integer; it is a [Z] and
      every arithmetic operation of the source wraps explicitly ([GoInt]).
    - Go's [error] is [option Error]: [None] is [nil].
    - A nil-able pointer [*sql.Conn] is [option ConnHandle].
    - Code outside the package (database/sql, text/template, the storage
      layer, the encoders, the callbacks handed to the writer) is reached
      through the class [Collaborators]: every such call is a transition on
      an abstract world [W], so a theorem quantified over the class holds
      for every behaviour of those collaborators.
    - Calls that matter to the properties are recorded, in order, in a
      trace of [Event]s kept next to the world. *)

From Stdlib Require Import ZArith NArith List String Ascii Bool Lia.
From Stdlib Require Import DecimalString DecimalN.
Import ListNotations.
Local Open Scope string_scope.
Local Open Scope Z_scope.

(** ** Go's [int] *)

Module GoInt.

Definition min_int : Z := - 2 ^ 63.
Definition max_int : Z := 2 ^ 63 - 1.

Definition in_range (z : Z) : Prop := min_int <= z <= max_int.

(** Two's complement wrap-around of a mathematical integer. *)
Definition wrap (z : Z) : Z := (z + 2 ^ 63) mod 2 ^ 64 - 2 ^ 63.

(** [a + b] on [int]. *)
Definition add (a b : Z) : Z := wrap (a + b).

(** [a == b] on [int]. *)
Definition eqb (a b : Z) : bool := Z.eqb a b.

End GoInt.

(** ** Errors: packages [errors] (pingcap/errors) *)

Inductive Error : Type :=
| ErrorString (msg : string)      (* an error carrying a message *)
| ErrorTraced (cause : Error).    (* an error annotated with a stack *)

Definition error : Type := option Error.

Module errors.

Definition New (msg : string) : error := Some (ErrorString msg).

(** [errors.Errorf(format + "%s", arg)]: the only shape used here. *)
Definition Errorf_s (prefix arg : string) : error :=
  Some (ErrorString (prefix ++ arg)).

(** [errors.Trace] keeps nil and annotates everything else. *)
Definition Trace (err : error) : error :=
  match err with
  | None => None
  | Some e => Some (ErrorTraced e)
  end.

End errors.

(** ** Package [fmt]: the fragment of [Sprintf] reached by the namer

    The model follows [doPrintf] of the printer [pp] for format strings made of literal
    bytes, [%%], and integer verbs [%d] with the [0] flag, a decimal width
    and an explicit argument index [[n]], applied to [int] arguments.
    Everything else (other flags, a starred width, precision, other verbs) is outside
    the fragment and gives [None]. *)

Module fmt.

Definition isDigit (c : ascii) : bool :=
  let n := nat_of_ascii c in (48 <=? n)%nat && (n <=? 57)%nat.

Definition digitVal (c : ascii) : nat := (nat_of_ascii c - 48)%nat.

(** [parsenum]: the longest decimal prefix; numbers above 1e6 are
    rejected by Go and left outside the fragment ([tooLarge]). *)
Fixpoint parsenum (s : string) (acc : option nat) : option nat * string :=
  match s with
  | String c s' =>
      if isDigit c
      then parsenum s'
             (Some (10 * match acc with Some n => n | None => 0 end
                    + digitVal c))%nat
      else (acc, s)
  | EmptyString => (acc, s)
  end.

Definition tooLarge (n : nat) : bool := (1000000 <? N.of_nat n)%N.

Fixpoint zeroPad (k : nat) (d : Decimal.uint) : Decimal.uint :=
  match k with
  | O => d
  | S k' => Decimal.D0 (zeroPad k' d)
  end.

Fixpoint spaces (k : nat) : string :=
  match k with
  | O => ""
  | S k' => String " " (spaces k')
  end.

(** [fmtInteger] for base 10 without precision: the digits of
    [|a|]; with the [0] flag and a width, zeros up to the width (one
    less when a sign is written); then the sign; then blanks on the
    left up to the width. *)
Definition fmtInteger (zero : bool) (wid : option nat) (a : Z) : string :=
  let negative := a <? 0 in
  let u := N.to_uint (Z.abs_N a) in
  let prec :=
    match wid with
    | Some w => if zero then (if negative then w - 1 else w)%nat else O
    | None => O
    end in
  let ds := zeroPad (prec - Decimal.nb_digits u) u in
  let body :=
    (if negative then "-" else "") ++ NilEmpty.string_of_uint ds in
  match wid with
  | Some w => spaces (w - String.length body) ++ body
  | None => body
  end.

(** [%v] on an [int], no flags. *)
Definition fmtV (a : Z) : string := fmtInteger false None a.

(** [parseArgNumber] on the bytes after the opening bracket: the
    zero-based index ([n - 1], so [-1] for [[0]]) and the bytes after
    the closing bracket. *)
Definition parseArgNumber (s : string) : option (Z * string) :=
  match parsenum s None with
  | (Some n, String "]" rest) =>
      if tooLarge n then None else Some (Z.of_nat n - 1, rest)
  | _ => None
  end.

(** The printer state of [doPrintf] that the fragment needs. *)
Record pp : Type := mkpp {
  buf : string;
  argNum : nat;
  reordered : bool;
  goodArgNum : bool
}.

Definition write (p : pp) (s : string) : pp :=
  mkpp (buf p ++ s) (argNum p) (reordered p) (goodArgNum p).

(** [argNumber]: the printer, the rest of the format and
    [found]; [None] on a bracket that does not hold a number. *)
Definition argNumber (p : pp) (s : string) (numArgs : nat)
  : option (pp * string * bool) :=
  match s with
  | String "[" s' =>
      match parseArgNumber s' with
      | Some (index, rest) =>
          if (0 <=? index) && (index <? Z.of_nat numArgs)
          then Some (mkpp (buf p) (Z.to_nat index) true (goodArgNum p),
                     rest, true)
          else Some (mkpp (buf p) (argNum p) true false, rest, true)
      | None => None
      end
  | _ => Some (p, s, false)
  end.

(** The flag loop: only [0] belongs to the fragment. *)
Fixpoint flags (s : string) (zero : bool) : option (bool * string) :=
  match s with
  | String "0" s' => flags s' true
  | String "#" _ | String "+" _ | String "-" _ | String " " _ => None
  | _ => Some (zero, s)
  end.

(** One verb, after its [%]: the printer and the rest of the format;
    the rest is [None] after [%!(NOVERB)], which ends the loop. *)
Definition doVerb (p : pp) (s : string) (a : list Z)
  : option (pp * option string) :=
  let p := mkpp (buf p) (argNum p) (reordered p) true in
  match flags s false with
  | None => None
  | Some (zero, s1) =>
  match argNumber p s1 (List.length a) with
  | None => None
  | Some (p1, s2, afterIndex) =>
  match s2 with
  | String "*" _ => None
  | _ =>
  let '(wid, s3) := parsenum s2 None in
  if match wid with Some n => tooLarge n | None => false end then None else
  let p2 :=
    if afterIndex && match wid with Some _ => true | None => false end
    then mkpp (buf p1) (argNum p1) (reordered p1) false else p1 in
  match s3 with
  | String "." _ => None
  | _ =>
  match (if afterIndex then Some (p2, s3, afterIndex)
         else argNumber p2 s3 (List.length a)) with
  | None => None
  | Some (p3, s4, _) =>
  match s4 with
  | EmptyString => Some (write p3 "%!(NOVERB)", None)
  | String "%" s5 => Some (write p3 "%", Some s5)
  | String "d" s5 =>
      if negb (goodArgNum p3) then Some (write p3 "%!d(BADINDEX)", Some s5)
      else
        match nth_error a (argNum p3) with
        | None => Some (write p3 "%!d(MISSING)", Some s5)
        | Some x =>
            Some (mkpp (buf p3 ++ fmtInteger zero wid x) (S (argNum p3))
                       (reordered p3) (goodArgNum p3), Some s5)
        end
  | _ => None
  end end end end end end.

(** The format loop of [doPrintf]. Every turn consumes at least one
    byte of the format; [fuel] bounds the number of turns. *)
Fixpoint doPrintf (fuel : nat) (p : pp) (format : string) (a : list Z)
  : option pp :=
  match fuel with
  | O => None
  | S fuel' =>
      match format with
      | EmptyString => Some p
      | String "%" rest =>
          match doVerb p rest a with
          | None => None
          | Some (p', None) => Some p'
          | Some (p', Some rest') => doPrintf fuel' p' rest' a
          end
      | String c rest => doPrintf fuel' (write p (String c "")) rest a
      end
  end.

(** The [%!(EXTRA type=value, ...)] suffix for the operands left over. *)
Fixpoint extraArgs (first : bool) (a : list Z) : string :=
  match a with
  | [] => ""
  | x :: a' =>
      (if first then "" else ", ") ++ "int=" ++ fmtV x ++ extraArgs false a'
  end.

Definition Sprintf (format : string) (a : list Z) : option string :=
  match doPrintf (S (String.length format)) (mkpp "" O false true) format a with
  | None => None
  | Some p =>
      if negb (reordered p) && (argNum p <? List.length a)%nat
      then Some (buf p ++ "%!(EXTRA " ++ extraArgs true (skipn (argNum p) a) ++ ")")
      else Some (buf p)
  end.

End fmt.

(** ** Values of the package and of its collaborators *)

(** References to objects that live outside the package (a pointer, a map,
    an interface value): only their identity is visible here. *)
Definition handle : Type := N.

Definition ConnHandle : Type := handle.
(** [*sql.Conn]; [None] is the nil pointer. *)
Definition sqlConn : Type := option ConnHandle.
Definition sqlDB : Type := handle.             (* *sql.DB *)
Definition Context : Type := handle.           (* context.Context *)
Definition Template : Type := handle.          (* *template.Template *)
Definition TableDataIR : Type := handle.       (* the row source *)
Definition ExternalStorage : Type := handle.   (* storage.ExternalStorage *)
Definition FileWriter : Type := handle.        (* storage.Writer *)
Definition Backoffer : Type := handle.         (* utils.Backoffer *)
Definition BlockList : Type := handle.         (* map[string]map[string]interface{} *)
Definition Labels : Type := handle.            (* prometheus.Labels *)
Definition DatabaseTables : Type := handle.    (* map of the tables to dump *)
Definition Duration : Type := Z.               (* time.Duration *)
Definition PanicValue : Type := string.

(** The interface [TableMeta], by the two getters the writer calls. *)
Module TableMeta.
Record t : Type := mk { DatabaseName : string; TableName : string }.
End TableMeta.

Module TaskDatabaseMeta.
Record t : Type := mk { DatabaseName : string; CreateDatabaseSQL : string }.
End TaskDatabaseMeta.

Module TaskTableMeta.
Record t : Type := mk {
  DatabaseName : string; TableName : string; CreateTableSQL : string }.
End TaskTableMeta.

Module TaskViewMeta.
Record t : Type := mk {
  DatabaseName : string; ViewName : string;
  CreateTableSQL : string; CreateViewSQL : string }.
End TaskViewMeta.

Module TaskTableData.
Record t : Type := mk {
  Meta : TableMeta.t; Data : TableDataIR;
  ChunkIndex : Z; TotalChunks : Z }.
End TaskTableData.

(** A value of the interface [Task], as the type switch of [handleTask]
    sees it: a (non-nil) pointer to one of the four task structs, or a
    value of any other dynamic type, known by the name [%T] prints. *)
Inductive Task : Type :=
| PtrTaskDatabaseMeta (t : TaskDatabaseMeta.t)
| PtrTaskTableMeta (t : TaskTableMeta.t)
| PtrTaskViewMeta (t : TaskViewMeta.t)
| PtrTaskTableData (t : TaskTableData.t)
| OtherTask (typeName : string).

Module metaData.
Record t : Type := mk {
  target : string; metaSQL : string; specCmts : list string }.
End metaData.

(** ** Output file namer *)

Module outputFileNamer.

Record t : Type := mk {
  ChunkIndex : Z;
  FileIndex : Z;
  DB : string;
  Table : string;
  format : string
}.

(** Package text/template and the names of the four sub-templates,
    which config.go declares. *)
Class Templates : Type := {
  (** [tmpl.ExecuteTemplate(&bf, name, namer)]: the bytes written to the
      buffer and the error. *)
  ExecuteTemplate : Template -> string -> t -> string * error;
  outputFileTemplateSchema : string;
  outputFileTemplateTable : string;
  outputFileTemplateView : string;
  outputFileTemplateData : string
}.

Definition setFileIndex (namer : t) (i : Z) : t :=
  mk (ChunkIndex namer) i (DB namer) (Table namer) (format namer).

(** [fmt.Sprintf(namer.format, namer.ChunkIndex, namer.FileIndex)];
    [None] when the format leaves the modelled fragment of [fmt]. *)
Definition Index (namer : t) : option string :=
  fmt.Sprintf (format namer) [ChunkIndex namer; FileIndex namer].

Section Methods.
Context {T : Templates}.

Definition render (namer : t) (tmpl : Template) (subName : string)
  : string * error :=
  let '(bf, err) := ExecuteTemplate tmpl subName namer in
  match err with
  | Some _ => ("", err)
  | None => (bf, None)
  end.

(** The receiver is a pointer: the updated namer is returned with the
    results. *)
Definition NextName (namer : t) (tmpl : Template) (fileType : string)
  : (string * error) * t :=
  let '(res, err) := render namer tmpl outputFileTemplateData in
  let namer := setFileIndex namer (GoInt.add (FileIndex namer) 1) in
  ((res ++ "." ++ fileType, err), namer).

End Methods.

End outputFileNamer.

Definition newOutputFileNamer (meta : TableMeta.t) (chunkIdx : Z)
  (rows fileSize : bool) : outputFileNamer.t :=
  let o_format :=
    if rows && fileSize then "%09d%04d"
    else if fileSize then "%09[2]d"
    else "%09[1]d" in
  outputFileNamer.mk chunkIdx 0
    (TableMeta.DatabaseName meta) (TableMeta.TableName meta) o_format.

(** ** Declarations of the package that live in its other files *)

Class Declarations : Type := {
  ServerType : Type;
  ServerType_eqb : ServerType -> ServerType -> bool;
  ServerType_eqb_eq : forall a b, ServerType_eqb a b = true <-> a = b;
  ServerTypeTiDB : ServerType;
  FileFormat : Type;
  FileFormatZero : FileFormat;        (* the zero value of the type *)
  FileFormatSQLText : FileFormat;
  FileFormatCSV : FileFormat;
  Extension : FileFormat -> string;
  CompressType : Type;
  UnspecifiedSize : Z;
  canRebuildConn : string -> bool -> bool;
  Templates_of_package :: outputFileNamer.Templates;
  (** [strings.ToLower]. *)
  ToLower : string -> string
}.

Module ServerInfo.
Section Struct.
Context {D : Declarations}.
Record t : Type := mk { ServerType : @ServerType D }.
End Struct.
End ServerInfo.

Module Config.
Section Struct.
Context {D : Declarations}.
Record t : Type := mk {
  Consistency : string;
  TransactionalConsistency : bool;
  ServerInfo : ServerInfo.t;
  Tables : DatabaseTables;
  FileType : string;
  OutputFileTemplate : Template;
  CompressType : @CompressType D;
  Rows : Z;
  FileSize : Z;
  Labels : Labels
}.
End Struct.
End Config.

(** ** The collaborators *)

(** What a call out of the package does: it returns or it panics. *)
Inductive Outcome (R : Type) : Type :=
| Returns (r : R)
| Panics (v : PanicValue).
Arguments Returns {R} r.
Arguments Panics {R} v.

Class Collaborators {D : Declarations} : Type := {
  (** Everything outside the package: the database server, the storage,
      the row sources, the metrics, the clock. *)
  W : Type;
  (* database/sql *)
  DB_Conn : sqlDB -> Context -> W -> Outcome (sqlConn * error) * W;
  Conn_Close : ConnHandle -> W -> Outcome error * W;
  Conn_PingContext : ConnHandle -> Context -> W -> Outcome error * W;
  Conn_ExecContext : ConnHandle -> Context -> string -> W -> Outcome error * W;
  (* sql.go *)
  FlushTableWithReadLock : Context -> sqlConn -> W -> Outcome error * W;
  UnlockTables : Context -> sqlConn -> W -> Outcome error * W;
  buildLockTablesSQL : DatabaseTables -> BlockList -> W -> Outcome string * W;
  (* retry.go and br/pkg/utils *)
  makeBlockList : W -> Outcome BlockList * W;
  newLockTablesBackoffer : BlockList -> W -> Outcome Backoffer * W;
  newDumpChunkBackoffer : bool -> W -> Outcome Backoffer * W;
  Backoffer_Attempt : Backoffer -> W -> Outcome Z * W;
  Backoffer_NextBackoff : Backoffer -> Error -> W -> Outcome Duration * W;
  (** Wait for the duration; [true] when the context is done first. *)
  sleepOrDone : Context -> Duration -> W -> Outcome bool * W;
  Context_Err : Context -> W -> Outcome error * W;
  (* the row source *)
  IR_Start : TableDataIR -> Context -> sqlConn -> W -> Outcome error * W;
  IR_Close : TableDataIR -> W -> Outcome error * W;
  (* writer_util.go: file writers and encoders *)
  buildFileWriter : Context -> ExternalStorage -> string -> @CompressType D ->
                    W -> Outcome (FileWriter * error) * W;
  buildInterceptFileWriter :
    ExternalStorage -> string -> @CompressType D -> W -> Outcome FileWriter * W;
  (** The [tearDown] closure returned with a file writer. *)
  tearDown : FileWriter -> Context -> W -> Outcome unit * W;
  (** [fileWriter.( *InterceptFileWriter)]: [Some b] when the assertion
      holds, with [b] the field [SomethingIsWritten]. *)
  asInterceptFileWriter : FileWriter -> W -> option bool;
  WriteMeta : Context -> metaData.t -> FileWriter -> W -> Outcome error * W;
  WriteInsert :
    FileFormat -> Context -> Config.t -> TableMeta.t -> TableDataIR ->
    FileWriter -> W -> Outcome error * W;
  (* metrics *)
  errorCount_Inc : Labels -> W -> Outcome unit * W
}.

(** ** Effects: world, trace, panics *)

(** The calls the properties below speak about, in the order they happen. *)
Inductive Event : Type :=
| EvLog (level msg : string)
| EvReceive (task : Task)                 (* a task taken from the channel *)
| EvFinishTaskCallBack (task : Task)      (* w.finishTaskCallBack(task) *)
| EvFinishTableCallBack (task : Task)     (* w.finishTableCallBack(task) *)
| EvRebuildConn (conn : sqlConn)          (* w.rebuildConnFn(conn) *)
| EvStart (ir : TableDataIR) (conn : sqlConn) (result : Outcome error)
| EvClose (ir : TableDataIR).             (* ir.Close() *)

Section Effects.
Context {D : Declarations} {C : Collaborators}.

Record State : Type := mkState { world : W; trace : list Event }.

(** How a computation of the package ends: it returns, it panics, or it
    has not returned when the model stops looking (a loop that outlives
    its fuel, a select that stays blocked). *)
Inductive Res (A : Type) : Type :=
| Done (a : A) (s : State)
| Panicking (v : PanicValue) (s : State)
| NoReturn.

Definition M (A : Type) : Type := State -> Res A.

Definition ret {A} (a : A) : M A := fun s => Done A a s.

Definition bind {A B} (m : M A) (k : A -> M B) : M B :=
  fun s =>
    match m s with
    | Done _ a s' => k a s'
    | Panicking _ v s' => Panicking B v s'
    | NoReturn _ => NoReturn B
    end.

Definition panic {A} (v : PanicValue) : M A := fun s => Panicking A v s.

Definition noReturn {A} : M A := fun _ => NoReturn A.

Definition emit (e : Event) : M unit :=
  fun s => Done unit tt (mkState (world s) (trace s ++ [e])).

(** Reading the world without changing it. *)
Definition inspect {R} (f : W -> R) : M R := fun s => Done R (f (world s)) s.

(** A call out of the package. *)
Definition call {R} (op : W -> Outcome R * W) : M R :=
  fun s =>
    let '(o, w') := op (world s) in
    match o with
    | Returns r => Done R r (mkState w' (trace s))
    | Panics v => Panicking R v (mkState w' (trace s))
    end.

(** A call out of the package whose outcome is recorded. *)
Definition callLogged {R} (op : W -> Outcome R * W) (ev : Outcome R -> Event)
  : M R :=
  fun s =>
    let '(o, w') := op (world s) in
    let s' := mkState w' (trace s ++ [ev o]) in
    match o with
    | Returns r => Done R r s'
    | Panics v => Panicking R v s'
    end.

(** [defer]: the deferred call runs when the body returns and when it
    panics; a panic of the deferred call replaces the one in flight. *)
Definition defer {A} (body : M A) (deferred : M unit) : M A :=
  fun s =>
    match body s with
    | Done _ a s' =>
        match deferred s' with
        | Done _ _ s'' => Done A a s''
        | Panicking _ v s'' => Panicking A v s''
        | NoReturn _ => NoReturn A
        end
    | Panicking _ v s' =>
        match deferred s' with
        | Done _ _ s'' => Panicking A v s''
        | Panicking _ v' s'' => Panicking A v' s''
        | NoReturn _ => NoReturn A
        end
    | NoReturn _ => NoReturn A
    end.

(** What follows a computation on each of its two ways out: after its
    return, and while its panic unwinds. *)
Definition unwinding {A B} (m : M A) (onReturn : A -> M B)
  (onPanic : PanicValue -> M B) : M B :=
  fun s =>
    match m s with
    | Done _ a s' => onReturn a s'
    | Panicking _ v s' => onPanic v s'
    | NoReturn _ => NoReturn B
    end.

(** A method of [*sql.Conn] called through a pointer that may be nil. *)
Definition onConn {R} (conn : sqlConn) (method : ConnHandle -> W -> Outcome R * W)
  : M R :=
  match conn with
  | None => panic "runtime error: invalid memory address or nil pointer dereference"
  | Some h => call (method h)
  end.

End Effects.

Arguments Done {D C A} a s.
Arguments Panicking {D C A} v s.
Arguments NoReturn {D C A}.

Declare Scope go_scope.
Delimit Scope go_scope with go.
Notation "x <- m ;; k" := (bind m (fun x => k))
  (at level 61, m at next level, right associativity) : go_scope.
Notation "' pat <- m ;; k" := (bind m (fun x => match x with pat => k end))
  (at level 61, pat pattern, m at next level, right associativity) : go_scope.
Notation "m ;;; k" := (bind m (fun _ => k))
  (at level 61, right associativity) : go_scope.
Local Open Scope go_scope.

(** ** Package [utils] of br: the retry loop *)

Module utils.
Section Retry.
Context {D : Declarations} {C : Collaborators}.

(** Modelled from the spec: [utils.WithRetry] is not part of this
    package. The attempt is called until it returns nil, until the
    backoff strategy reports exhaustion, or until the context is
    cancelled; between attempts the loop sleeps for the duration the
    strategy computes from the error; the error of a failed final
    attempt is returned as it is, and cancellation while sleeping
    returns the context's error. The variables the attempt closure
    captures are threaded as [st]; [fuel] bounds the attempts. *)
Fixpoint WithRetryFrom {S : Type} (fuel : nat) (ctx : Context)
  (retryableFunc : S -> M (error * S)) (backoffer : Backoffer)
  (st : S) (lastErr : error) : M error :=
  match fuel with
  | O => noReturn
  | Datatypes.S fuel' =>
      n <- call (Backoffer_Attempt backoffer) ;;
      if n <=? 0 then ret lastErr
      else
        ' (err, st') <- retryableFunc st ;;
        match err with
        | None => ret None
        | Some e =>
            d <- call (Backoffer_NextBackoff backoffer e) ;;
            cancelled <- call (sleepOrDone ctx d) ;;
            if cancelled : bool then call (Context_Err ctx)
            else WithRetryFrom fuel' ctx retryableFunc backoffer st' err
        end
  end.

Definition WithRetry {S : Type} (fuel : nat) (ctx : Context)
  (retryableFunc : S -> M (error * S)) (backoffer : Backoffer) (st : S)
  : M error :=
  WithRetryFrom fuel ctx retryableFunc backoffer st None.

End Retry.
End utils.

(** ** consistency.go *)

Definition consistencyTypeAuto : string := "auto".
Definition consistencyTypeFlush : string := "flush".
Definition consistencyTypeLock : string := "lock".
Definition consistencyTypeSnapshot : string := "snapshot".
Definition consistencyTypeNone : string := "none".

(** [ConsistencyNone] dumps without adding locks. *)
Module ConsistencyNone.
Section Methods.
Context {D : Declarations} {C : Collaborators}.

Record t : Type := mk { }.

Definition Setup (c : t) (_ : Context) : M error := ret None.
Definition TearDown (c : t) (_ : Context) : M (error * t) := ret (None, c).
Definition PingContext (c : t) (_ : Context) : M error := ret None.

End Methods.
End ConsistencyNone.

(** [ConsistencyFlushTableWithReadLock] uses FLUSH TABLES WITH READ LOCK
    before the dump. The receivers are pointers: a method that assigns a
    field returns the updated struct with its result. In [TearDown] the
    deferred closure closes the connection, drops the result of [Close]
    and sets the field to nil. *)
Module ConsistencyFlushTableWithReadLock.
Section Methods.
Context {D : Declarations} {C : Collaborators}.

Record t : Type := mk { serverType : ServerType; conn : sqlConn }.

Definition Setup (c : t) (ctx : Context) : M error :=
  if ServerType_eqb (serverType c) ServerTypeTiDB
  then ret (errors.New
    "'flush table with read lock' cannot be used to ensure the consistency in TiDB")
  else call (FlushTableWithReadLock ctx (conn c)).

Definition TearDown (c : t) (ctx : Context) : M (error * t) :=
  match conn c with
  | None => ret (None, c)
  | Some h =>
      err <- defer (call (UnlockTables ctx (Some h)))
                   (call (Conn_Close h) ;;; ret tt) ;;
      ret (err, mk (serverType c) None)
  end.

Definition PingContext (c : t) (ctx : Context) : M error :=
  match conn c with
  | None => ret (errors.New "consistency connection has already been closed")
  | Some h => call (Conn_PingContext h ctx)
  end.

End Methods.
End ConsistencyFlushTableWithReadLock.

(** [ConsistencyLockDumpingTables] executes LOCK TABLES ... READ on all
    tables before the dump. *)
Module ConsistencyLockDumpingTables.
Section Methods.
Context {D : Declarations} {C : Collaborators}.

Record t : Type := mk { conn : sqlConn; allTables : DatabaseTables }.

Definition Setup (fuel : nat) (c : t) (ctx : Context) : M error :=
  blockList <- call makeBlockList ;;
  backoffer <- call (newLockTablesBackoffer blockList) ;;
  utils.WithRetry fuel ctx
    (fun _ : unit =>
       lockTablesSQL <- call (buildLockTablesSQL (allTables c) blockList) ;;
       err <- onConn (conn c)
                (fun h => Conn_ExecContext h ctx lockTablesSQL) ;;
       ret (errors.Trace err, tt))
    backoffer tt.

Definition TearDown (c : t) (ctx : Context) : M (error * t) :=
  match conn c with
  | None => ret (None, c)
  | Some h =>
      err <- defer (call (UnlockTables ctx (Some h)))
                   (call (Conn_Close h) ;;; ret tt) ;;
      ret (err, mk None (allTables c))
  end.

Definition PingContext (c : t) (ctx : Context) : M error :=
  match conn c with
  | None => ret (errors.New "consistency connection has already been closed")
  | Some h => call (Conn_PingContext h ctx)
  end.

End Methods.
End ConsistencyLockDumpingTables.

Section Controller.
Context {D : Declarations} {C : Collaborators}.

(** A value of the interface [ConsistencyController]: a pointer to one of
    the three implementations. *)
Inductive ConsistencyController : Type :=
| PtrConsistencyNone (c : ConsistencyNone.t)
| PtrConsistencyFlushTableWithReadLock (c : ConsistencyFlushTableWithReadLock.t)
| PtrConsistencyLockDumpingTables (c : ConsistencyLockDumpingTables.t).

(** Dynamic dispatch of the three methods of the interface. *)
Definition Setup (fuel : nat) (c : ConsistencyController) (ctx : Context)
  : M error :=
  match c with
  | PtrConsistencyNone c => ConsistencyNone.Setup c ctx
  | PtrConsistencyFlushTableWithReadLock c =>
      ConsistencyFlushTableWithReadLock.Setup c ctx
  | PtrConsistencyLockDumpingTables c =>
      ConsistencyLockDumpingTables.Setup fuel c ctx
  end.

Definition TearDown (c : ConsistencyController) (ctx : Context)
  : M (error * ConsistencyController) :=
  match c with
  | PtrConsistencyNone c =>
      ' (err, c') <- ConsistencyNone.TearDown c ctx ;;
      ret (err, PtrConsistencyNone c')
  | PtrConsistencyFlushTableWithReadLock c =>
      ' (err, c') <- ConsistencyFlushTableWithReadLock.TearDown c ctx ;;
      ret (err, PtrConsistencyFlushTableWithReadLock c')
  | PtrConsistencyLockDumpingTables c =>
      ' (err, c') <- ConsistencyLockDumpingTables.TearDown c ctx ;;
      ret (err, PtrConsistencyLockDumpingTables c')
  end.

Definition PingContext (c : ConsistencyController) (ctx : Context)
  : M error :=
  match c with
  | PtrConsistencyNone c => ConsistencyNone.PingContext c ctx
  | PtrConsistencyFlushTableWithReadLock c =>
      ConsistencyFlushTableWithReadLock.PingContext c ctx
  | PtrConsistencyLockDumpingTables c =>
      ConsistencyLockDumpingTables.PingContext c ctx
  end.

(** [NewConsistencyController]: the controller ([None] is the nil
    interface) and the error. *)
Definition NewConsistencyController (ctx : Context) (conf : Config.t)
  (session : sqlDB) : M (option ConsistencyController * error) :=
  ' (conn, err) <- call (DB_Conn session ctx) ;;
  match err with
  | Some _ => ret (None, errors.Trace err)
  | None =>
      let consistency := Config.Consistency conf in
      if String.eqb consistency consistencyTypeFlush then
        ret (Some (PtrConsistencyFlushTableWithReadLock
                     (ConsistencyFlushTableWithReadLock.mk
                        (ServerInfo.ServerType (Config.ServerInfo conf))
                        conn)),
             None)
      else if String.eqb consistency consistencyTypeLock then
        ret (Some (PtrConsistencyLockDumpingTables
                     (ConsistencyLockDumpingTables.mk
                        conn (Config.Tables conf))),
             None)
      else if String.eqb consistency consistencyTypeSnapshot then
        if negb (ServerType_eqb
                   (ServerInfo.ServerType (Config.ServerInfo conf))
                   ServerTypeTiDB)
        then ret (None,
                  errors.New "snapshot consistency is not supported for this server")
        else ret (Some (PtrConsistencyNone ConsistencyNone.mk), None)
      else if String.eqb consistency consistencyTypeNone then
        ret (Some (PtrConsistencyNone ConsistencyNone.mk), None)
      else
        ret (None, errors.Errorf_s "invalid consistency option " consistency)
  end.

End Controller.

(** ** writer.go *)

Module Writer.
Section Methods.
Context {D : Declarations} {C : Collaborators}.

Record t : Type := mk {
  id : Z;
  ctx : Context;
  conf : Config.t;
  conn : sqlConn;
  extStorage : ExternalStorage;
  fileFmt : FileFormat;
  receivedTaskCount : Z;
  (** [None] is the nil func, which [NewWriter] leaves in the field. *)
  rebuildConnFn : option (sqlConn -> W -> Outcome (sqlConn * error) * W);
  finishTaskCallBack : Task -> W -> Outcome unit * W;
  finishTableCallBack : Task -> W -> Outcome unit * W
}.

(** The literal [func(Task) {}]. *)
Definition noopCallBack : Task -> W -> Outcome unit * W :=
  fun _ w => (Returns tt, w).

Definition NewWriter (id : Z) (ctx : Context) (config : Config.t)
  (conn : sqlConn) (externalStore : ExternalStorage) : t :=
  let sw fileFmt :=
    mk id ctx config conn externalStore fileFmt 0 None
       noopCallBack noopCallBack in
  let fileType := ToLower (Config.FileType config) in
  if String.eqb fileType "sql" then sw FileFormatSQLText
  else if String.eqb fileType "csv" then sw FileFormatCSV
  else sw FileFormatZero.

Definition setFinishTaskCallBack (w : t)
  (fn : Task -> W -> Outcome unit * W) : t :=
  mk (id w) (ctx w) (conf w) (conn w) (extStorage w) (fileFmt w)
     (receivedTaskCount w) (rebuildConnFn w)
     fn (finishTableCallBack w).

Definition setFinishTableCallBack (w : t)
  (fn : Task -> W -> Outcome unit * W) : t :=
  mk (id w) (ctx w) (conf w) (conn w) (extStorage w) (fileFmt w)
     (receivedTaskCount w) (rebuildConnFn w)
     fn (finishTableCallBack w).

(** [w.receivedTaskCount++] *)
Definition incReceivedTaskCount (w : t) : t :=
  mk (id w) (ctx w) (conf w) (conn w) (extStorage w) (fileFmt w)
     (GoInt.add (receivedTaskCount w) 1) (rebuildConnFn w)
     (finishTaskCallBack w) (finishTableCallBack w).

Definition writeMetaToFile (ctx : Context) (target metaSQL : string)
  (s : ExternalStorage) (path : string) (compressType : CompressType)
  : M error :=
  ' (fileWriter, err) <- call (buildFileWriter ctx s path compressType) ;;
  match err with
  | Some _ => ret err
  | None =>
      defer
        (call (WriteMeta ctx
                 (metaData.mk target metaSQL ["/*!40101 SET NAMES binary*/;"])
                 fileWriter))
        (call (tearDown fileWriter ctx))
  end.

Definition WriteDatabaseMeta (w : t) (db createSQL : string) : M error :=
  let '(ctx, conf) := (ctx w, conf w) in
  let '(fileName, err) :=
    outputFileNamer.render (outputFileNamer.mk 0 0 db "" "")
      (Config.OutputFileTemplate conf) outputFileNamer.outputFileTemplateSchema in
  match err with
  | Some _ => ret err
  | None =>
      writeMetaToFile ctx db createSQL (extStorage w) (fileName ++ ".sql")
        (Config.CompressType conf)
  end.

Definition WriteTableMeta (w : t) (db table createSQL : string) : M error :=
  let '(ctx, conf) := (ctx w, conf w) in
  let '(fileName, err) :=
    outputFileNamer.render (outputFileNamer.mk 0 0 db table "")
      (Config.OutputFileTemplate conf) outputFileNamer.outputFileTemplateTable in
  match err with
  | Some _ => ret err
  | None =>
      writeMetaToFile ctx db createSQL (extStorage w) (fileName ++ ".sql")
        (Config.CompressType conf)
  end.

Definition WriteViewMeta (w : t) (db view createTableSQL createViewSQL : string)
  : M error :=
  let '(ctx, conf) := (ctx w, conf w) in
  let '(fileNameTable, err) :=
    outputFileNamer.render (outputFileNamer.mk 0 0 db view "")
      (Config.OutputFileTemplate conf) outputFileNamer.outputFileTemplateTable in
  match err with
  | Some _ => ret err
  | None =>
      let '(fileNameView, err) :=
        outputFileNamer.render (outputFileNamer.mk 0 0 db view "")
          (Config.OutputFileTemplate conf) outputFileNamer.outputFileTemplateView in
      match err with
      | Some _ => ret err
      | None =>
          err <- writeMetaToFile ctx db createTableSQL (extStorage w)
                   (fileNameTable ++ ".sql") (Config.CompressType conf) ;;
          match err with
          | Some _ => ret err
          | None =>
              writeMetaToFile ctx db createViewSQL (extStorage w)
                (fileNameView ++ ".sql") (Config.CompressType conf)
          end
      end
  end.

(** The [for] loop of [writeTableData]; [fuel] bounds the number of
    files of one chunk. *)
Fixpoint writeTableDataLoop (fuel : nat) (w : t) (ctx : Context)
  (meta : TableMeta.t) (ir : TableDataIR) (namer : outputFileNamer.t)
  (fileName : string) : M error :=
  match fuel with
  | O => noReturn
  | S fuel' =>
      let '(conf, format) := (conf w, fileFmt w) in
      fileWriter <- call (buildInterceptFileWriter (extStorage w) fileName
                            (Config.CompressType conf)) ;;
      err <- call (WriteInsert format ctx conf meta ir fileWriter) ;;
      call (tearDown fileWriter ctx) ;;;
      match err with
      | Some _ => ret err
      | None =>
          written <- inspect (asInterceptFileWriter fileWriter) ;;
          match written with
          | Some false => ret None
          | _ =>
              if Config.FileSize conf =? UnspecifiedSize then ret None
              else
                let '((fileName, err), namer) :=
                  outputFileNamer.NextName namer
                    (Config.OutputFileTemplate conf) (Extension (fileFmt w)) in
                match err with
                | Some _ => ret err
                | None => writeTableDataLoop fuel' w ctx meta ir namer fileName
                end
          end
      end
  end.

Definition writeTableData (fuel : nat) (w : t) (ctx : Context)
  (meta : TableMeta.t) (ir : TableDataIR) (curChkIdx : Z) : M error :=
  let conf := conf w in
  let namer :=
    newOutputFileNamer meta curChkIdx
      (negb (Config.Rows conf =? UnspecifiedSize))
      (negb (Config.FileSize conf =? UnspecifiedSize)) in
  let '((fileName, err), namer) :=
    outputFileNamer.NextName namer
      (Config.OutputFileTemplate conf) (Extension (fileFmt w)) in
  match err with
  | Some _ => ret err
  | None => writeTableDataLoop fuel w ctx meta ir namer fileName
  end.

(** The variables of [WriteTableData] that its attempt closure
    captures and assigns. *)
Record attemptVars : Type := mkVars {
  retryTime : Z;
  lastErr : error;
  connVar : sqlConn
}.

(** The deferred [ir.Close()]; its result is dropped. *)
Definition closeIR (ir : TableDataIR) : M unit :=
  emit (EvClose ir) ;;; call (IR_Close ir) ;;; ret tt.

(** The second half of the first deferred function of the attempt
    closure, given the value of the named result [err]. *)
Definition countError (w : t) (err : error) : M unit :=
  match err with
  | Some _ => call (errorCount_Inc (Config.Labels (conf w)))
  | None => ret tt
  end.

(** The attempt closure of [WriteTableData]. Its first deferred
    function copies the named result [err] to [lastErr] and counts an
    error; [ir.Close()] is deferred once [Start] has returned nil and
    so runs before it. When the closure panics before its [return],
    [err] is still nil and the first deferred function has no
    effect. *)
Definition attempt (fuel : nat) (w : t) (meta : TableMeta.t)
  (ir : TableDataIR) (currentChunk : Z) (v : attemptVars)
  : M (error * attemptVars) :=
  let ctx := ctx w in
  let retryTime := GoInt.add (retryTime v) 1 in
  let returning (err : error) (conn : sqlConn) :=
    (err, mkVars retryTime err conn) in
  emit (EvLog "debug" "trying to dump table chunk") ;;;
  ' (conn, err) <-
      (if 1 <? retryTime
       then
         emit (EvRebuildConn (connVar v)) ;;;
         match rebuildConnFn w with
         | None => panic "runtime error: invalid memory address or nil pointer dereference"
         | Some fn => call (fn (connVar v))
         end
       else ret (connVar v, None)) ;;
  match err with
  | Some _ => countError w err ;;; ret (returning err conn)
  | None =>
      err <- callLogged (IR_Start ir ctx conn) (EvStart ir conn) ;;
      match err with
      | Some _ => countError w err ;;; ret (returning err conn)
      | None =>
          (* defer ir.Close(); return w.writeTableData(...) *)
          unwinding (writeTableData fuel w ctx meta ir currentChunk)
            (fun err =>
               defer (closeIR ir ;;; ret (returning err conn))
                     (countError w err))
            (fun p => defer (panic p) (closeIR ir))
      end
  end.

Definition WriteTableData (fuel : nat) (w : t) (meta : TableMeta.t)
  (ir : TableDataIR) (currentChunk : Z) : M error :=
  let '(ctx, conf, conn) := (ctx w, conf w, conn w) in
  backoffer <- call (newDumpChunkBackoffer
                       (canRebuildConn (Config.Consistency conf)
                          (Config.TransactionalConsistency conf))) ;;
  utils.WithRetry fuel ctx (attempt fuel w meta ir currentChunk)
    backoffer (mkVars 0 None conn).

Definition handleTask (fuel : nat) (w : t) (task : Task) : M error :=
  match task with
  | PtrTaskDatabaseMeta t =>
      WriteDatabaseMeta w (TaskDatabaseMeta.DatabaseName t)
        (TaskDatabaseMeta.CreateDatabaseSQL t)
  | PtrTaskTableMeta t =>
      WriteTableMeta w (TaskTableMeta.DatabaseName t)
        (TaskTableMeta.TableName t) (TaskTableMeta.CreateTableSQL t)
  | PtrTaskViewMeta t =>
      WriteViewMeta w (TaskViewMeta.DatabaseName t) (TaskViewMeta.ViewName t)
        (TaskViewMeta.CreateTableSQL t) (TaskViewMeta.CreateViewSQL t)
  | PtrTaskTableData t =>
      err <- WriteTableData fuel w (TaskTableData.Meta t)
               (TaskTableData.Data t) (TaskTableData.ChunkIndex t) ;;
      match err with
      | Some _ => ret err
      | None =>
          (if GoInt.eqb (GoInt.add (TaskTableData.ChunkIndex t) 1)
                (TaskTableData.TotalChunks t)
           then emit (EvFinishTableCallBack task) ;;;
                call (finishTableCallBack w task)
           else ret tt) ;;;
          ret None
      end
  | OtherTask typeName =>
      emit (EvLog "warn" "unsupported writer task type") ;;;
      ret None
  end.

(** What one [select] of [run] picks. *)
Inductive selected : Type :=
| CtxDone                  (* <-w.ctx.Done() *)
| Received (task : Task)   (* task, ok := <-taskStream with ok *)
| Closed.                  (* task, ok := <-taskStream with !ok *)

(** [run] against the sequence of choices its [select] makes; the
    choices not consumed are returned with the error and the writer.
    When the sequence ends before the loop has returned, the writer is
    still blocked in [select]. *)
Fixpoint run (fuel : nat) (w : t) (taskStream : list selected)
  : M (error * t * list selected) :=
  match taskStream with
  | [] => noReturn
  | CtxDone :: rest =>
      emit (EvLog "warn" "context has been done, the writer will exit") ;;;
      ret (None, w, rest)
  | Closed :: rest => ret (None, w, rest)
  | Received task :: rest =>
      emit (EvReceive task) ;;;
      let w := incReceivedTaskCount w in
      err <- handleTask fuel w task ;;
      match err with
      | Some _ => ret (err, w, rest)
      | None =>
          emit (EvFinishTaskCallBack task) ;;;
          call (finishTaskCallBack w task) ;;;
          run fuel w rest
      end
  end.

End Methods.
End Writer.

Section CountTotalTask.
Context {D : Declarations} {C : Collaborators}.

Definition countTotalTask (writers : list Writer.t) : Z :=
  fold_left (fun sum w => GoInt.add sum (Writer.receivedTaskCount w)) writers 0.

End CountTotalTask.

(** ** Calling [NextName] several times on one namer *)

Section NextNames.
Context {T : outputFileNamer.Templates}.

(** The results of [n] successive calls of [NextName] on the same namer,
    in call order, and the namer they leave. *)
Fixpoint nextNames (n : nat) (namer : outputFileNamer.t) (tmpl : Template)
  (fileType : string) : list (string * error) * outputFileNamer.t :=
  match n with
  | O => ([], namer)
  | S n' =>
      let '(r, namer1) := outputFileNamer.NextName namer tmpl fileType in
      let '(rs, namer2) := nextNames n' namer1 tmpl fileType in
      (r :: rs, namer2)
  end.

End NextNames.

(** ** A concrete environment, for examples *)

Module Sample.

(** Templates shaped like the defaults of the tool: the data file is
    named database.table.index. *)
Definition templates : outputFileNamer.Templates := {|
  outputFileNamer.ExecuteTemplate := fun _ subName namer =>
    let db := outputFileNamer.DB namer in
    let table := outputFileNamer.Table namer in
    if String.eqb subName "data" then
      match outputFileNamer.Index namer with
      | Some index => (db ++ "." ++ table ++ "." ++ index, None)
      | None => ("", Some (ErrorString "template: error calling Index"))
      end
    else if String.eqb subName "schema" then (db ++ "-schema-create", None)
    else if String.eqb subName "table" then (db ++ "." ++ table ++ "-schema", None)
    else if String.eqb subName "view" then (db ++ "." ++ table ++ "-schema-view", None)
    else ("", Some (ErrorString "template: no such template"));
  outputFileNamer.outputFileTemplateSchema := "schema";
  outputFileNamer.outputFileTemplateTable := "table";
  outputFileNamer.outputFileTemplateView := "view";
  outputFileNamer.outputFileTemplateData := "data"
|}.

(** Server types and file formats are numbered; TiDB is 3. The file type
    of the sample configuration is already in lower case. *)
Definition declarations : Declarations := {|
  ServerType := nat;
  ServerType_eqb := Nat.eqb;
  ServerType_eqb_eq := Nat.eqb_eq;
  ServerTypeTiDB := 3%nat;
  FileFormat := nat;
  FileFormatZero := 0%nat;
  FileFormatSQLText := 1%nat;
  FileFormatCSV := 2%nat;
  Extension := fun f =>
    match f with 1%nat => "sql" | 2%nat => "csv" | _ => "unknown_format" end;
  CompressType := nat;
  UnspecifiedSize := 0;
  canRebuildConn := fun _ _ => true;
  Templates_of_package := templates;
  ToLower := fun s => s
|}.

Definition startFailed : Error := ErrorString "start failed".
Definition encodeFailed : Error := ErrorString "encode failed".

(** The world is the number of backoffs taken so far; a backoffer allows
    three attempts. Row source 1 fails to start, row source 2 panics in
    [Start], row source 3 fails while it is encoded; the others work and
    encode nothing. *)
Definition collaborators : @Collaborators declarations := {|
  W := nat;
  DB_Conn := fun _ _ w => (Returns (Some 1%N, None), w);
  Conn_Close := fun _ w => (Returns None, w);
  Conn_PingContext := fun _ _ w => (Returns None, w);
  Conn_ExecContext := fun _ _ _ w => (Returns None, w);
  FlushTableWithReadLock := fun _ _ w => (Returns None, w);
  UnlockTables := fun _ _ w => (Returns None, w);
  buildLockTablesSQL := fun _ _ w => (Returns "LOCK TABLES", w);
  makeBlockList := fun w => (Returns 0%N, w);
  newLockTablesBackoffer := fun _ w => (Returns 0%N, w);
  newDumpChunkBackoffer := fun _ w => (Returns 0%N, w);
  Backoffer_Attempt := fun _ w => (Returns (3 - Z.of_nat w), w);
  Backoffer_NextBackoff := fun _ _ w => (Returns 0, S w);
  sleepOrDone := fun _ _ w => (Returns false, w);
  Context_Err := fun _ w => (Returns (Some (ErrorString "context canceled")), w);
  IR_Start := fun ir _ _ w =>
    if N.eqb ir 1 then (Returns (Some startFailed), w)
    else if N.eqb ir 2 then (Panics "start panicked", w)
    else (Returns None, w);
  IR_Close := fun _ w => (Returns None, w);
  buildFileWriter := fun _ _ _ _ w => (Returns (0%N, None), w);
  buildInterceptFileWriter := fun _ _ _ w => (Returns 0%N, w);
  tearDown := fun _ _ w => (Returns tt, w);
  asInterceptFileWriter := fun _ _ => Some false;
  WriteMeta := fun _ _ _ w => (Returns None, w);
  WriteInsert := fun _ _ _ _ ir _ w =>
    if N.eqb ir 3 then (Returns (Some encodeFailed), w) else (Returns None, w);
  errorCount_Inc := fun _ w => (Returns tt, w)
|}.

Definition config (consistency : string) (serverType : nat) (rows fileSize : Z)
  : @Config.t declarations :=
  @Config.mk declarations consistency false
    (@ServerInfo.mk declarations serverType) 0%N "sql" 0%N
    0%nat rows fileSize 0%N.

(** A writer as [NewWriter] builds it, then given a function that
    rebuilds the connection. *)
Definition writer : @Writer.t declarations collaborators :=
  let w := @Writer.NewWriter declarations collaborators
             7 0%N (config "none" 1%nat 0 0) (Some 1%N) 0%N in
  Writer.mk (Writer.id w) (Writer.ctx w) (Writer.conf w) (Writer.conn w)
    (Writer.extStorage w) (Writer.fileFmt w) (Writer.receivedTaskCount w)
    (Some (fun _ world => (Returns (Some 2%N, None), world)))
    (Writer.finishTaskCallBack w) (Writer.finishTableCallBack w).

Definition start : @State declarations collaborators :=
  @mkState declarations collaborators O [].

Definition meta : TableMeta.t := TableMeta.mk "db" "tbl".

(** A table-data task over row source [ir]. *)
Definition dataTask (ir : TableDataIR) (chunkIndex totalChunks : Z) : Task :=
  PtrTaskTableData (TaskTableData.mk meta ir chunkIndex totalChunks).

End Sample.
(** ** Vocabulary of the properties *)

Section NamerVocabulary.
Context {T : outputFileNamer.Templates}.

(** [k] times [FileIndex++]. *)
Definition incremented (k : nat) (i : Z) : Z :=
  Nat.iter k (fun i => GoInt.add i 1) i.

(** The index format holds the file index: the size limit is active. *)
Definition fileIndexed (namer : outputFileNamer.t) : Prop :=
  outputFileNamer.format namer = "%09d%04d"
  \/ outputFileNamer.format namer = "%09[2]d".

(** The data name the template renders for this namer determines the
    text of [Index], whatever the file index is. *)
Definition determinesIndex (namer : outputFileNamer.t) (tmpl : Template) : Prop :=
  forall i j : Z,
    fst (outputFileNamer.ExecuteTemplate tmpl outputFileNamer.outputFileTemplateData
           (outputFileNamer.setFileIndex namer i))
    = fst (outputFileNamer.ExecuteTemplate tmpl outputFileNamer.outputFileTemplateData
             (outputFileNamer.setFileIndex namer j)) ->
    outputFileNamer.Index (outputFileNamer.setFileIndex namer i)
    = outputFileNamer.Index (outputFileNamer.setFileIndex namer j).

Definition succeeded (r : string * error) : Prop := snd r = None.

End NamerVocabulary.

Section TraceVocabulary.
Context {D : Declarations} {C : Collaborators}.

(** The state in which a computation ends, by a return or by a panic. *)
Definition ended {A} (r : Res A) : option State :=
  match r with
  | Done _ s => Some s
  | Panicking _ s => Some s
  | NoReturn => None
  end.

(** A computation that, when it ends, has added to the trace only
    events that satisfy [P]. *)
Definition emitsOnly (P : Event -> Prop) {A} (m : M A) : Prop :=
  forall s s', ended (m s) = Some s' ->
    exists evs, trace s' = (trace s ++ evs)%list /\ Forall P evs.

(** What a computation returns, when it returns. *)
Definition returned {A} (r : Res A) : option A :=
  match r with
  | Done a _ => Some a
  | _ => None
  end.

Definition returnedNil (r : Res error) : bool :=
  match r with
  | Done None _ => true
  | _ => false
  end.

Definition isFinishTableCallBack (e : Event) : bool :=
  match e with
  | EvFinishTableCallBack _ => true
  | _ => false
  end.

(** How many times the table-completion callback has been invoked. *)
Definition tableCallBacks (tr : list Event) : nat :=
  List.length (filter isFinishTableCallBack tr).

(** The events of one attempt to write a chunk. *)
Definition attemptEvent (e : Event) : Prop :=
  match e with
  | EvLog _ _ | EvRebuildConn _ | EvStart _ _ _ | EvClose _ => True
  | _ => False
  end.

(** The events of an attempt before it starts the row source. *)
Definition prologueEvent (e : Event) : Prop :=
  match e with
  | EvLog _ _ | EvRebuildConn _ => True
  | _ => False
  end.

(** The events of the handling of one task. *)
Definition handlingEvent (e : Event) : Prop :=
  match e with
  | EvReceive _ | EvFinishTaskCallBack _ => False
  | _ => True
  end.

(** The events of the task loop itself. *)
Definition isLoopEvent (e : Event) : bool :=
  match e with
  | EvReceive _ | EvFinishTaskCallBack _ => true
  | _ => false
  end.

(** The events of the task loop in a stretch of trace. *)
Definition loopEvents (evs : list Event) : list Event :=
  filter isLoopEvent evs.

(** The loop events of tasks handled with success, one after the
    other: each is received, then reported to the task-completion
    callback. *)
Definition handled (tasks : list Task) : list Event :=
  flat_map (fun task => [EvReceive task; EvFinishTaskCallBack task]) tasks.

End TraceVocabulary.

(** ** Vocabulary of the further properties *)

Section ControllerVocabulary.
Context {D : Declarations} {C : Collaborators}.

(** The connection a controller holds; [ConsistencyNone] holds none. *)
Definition heldConn (c : ConsistencyController) : sqlConn :=
  match c with
  | PtrConsistencyNone _ => None
  | PtrConsistencyFlushTableWithReadLock c => ConsistencyFlushTableWithReadLock.conn c
  | PtrConsistencyLockDumpingTables c => ConsistencyLockDumpingTables.conn c
  end.

(** The same controller with its connection field set to nil. *)
Definition dropConn (c : ConsistencyController) : ConsistencyController :=
  match c with
  | PtrConsistencyNone c => PtrConsistencyNone c
  | PtrConsistencyFlushTableWithReadLock c =>
      PtrConsistencyFlushTableWithReadLock
        (ConsistencyFlushTableWithReadLock.mk
           (ConsistencyFlushTableWithReadLock.serverType c) None)
  | PtrConsistencyLockDumpingTables c =>
      PtrConsistencyLockDumpingTables
        (ConsistencyLockDumpingTables.mk None
           (ConsistencyLockDumpingTables.allTables c))
  end.

(** The sum, as an integer, of the task counters of some writers. *)
Definition sumReceived (writers : list Writer.t) : Z :=
  fold_right (fun w acc => Writer.receivedTaskCount w + acc) 0 writers.

End ControllerVocabulary.

(** Whether a task is a table-data task. *)
Definition isTableData (task : Task) : bool :=
  match task with
  | PtrTaskTableData _ => true
  | _ => false
  end.

(** How many choices of a [select] sequence are received tasks. *)
Definition receivedTasks (taskStream : list Writer.selected) : nat :=
  List.length
    (filter (fun c => match c with Writer.Received _ => true | _ => false end)
       taskStream).

(** Templates without the data sub-template: executing it fails, as
    text/template does for a name it does not know. *)
Definition templatesWithoutData : outputFileNamer.Templates := {|
  outputFileNamer.ExecuteTemplate := fun _ subName namer =>
    if String.eqb subName "data"
    then ("", Some (ErrorString "template: no template data"))
    else (outputFileNamer.DB namer, None);
  outputFileNamer.outputFileTemplateSchema := "schema";
  outputFileNamer.outputFileTemplateTable := "table";
  outputFileNamer.outputFileTemplateView := "view";
  outputFileNamer.outputFileTemplateData := "data"
|}.

Section BalanceVocabulary.
Context {D : Declarations} {C : Collaborators}.

(** A [Start] of a row source that returned nil. *)
Definition isStarted (e : Event) : bool :=
  match e with
  | EvStart _ _ (Returns None) => true
  | _ => false
  end.

Definition isClosed (e : Event) : bool :=
  match e with
  | EvClose _ => true
  | _ => false
  end.

(** As many closes as successful starts. *)
Definition balanced (evs : list Event) : Prop :=
  List.length (filter isStarted evs) = List.length (filter isClosed evs).

(** A computation that, when it ends, has added a balanced stretch to the
    trace. *)
Definition addsBalanced {A} (m : M A) : Prop :=
  forall s s', ended (m s) = Some s' ->
    exists evs, trace s' = (trace s ++ evs)%list /\ balanced evs.

End BalanceVocabulary.

(** ** Vocabulary of the calls *)

(** A text that is a number zero-padded to [width]: decimal digits only,
    which read back as the number, and [width] of them, or as many as
    the number has when that is more. *)
Definition zeroPaddedTo (width : nat) (n : Z) (text : string) : Prop :=
  option_map N.of_uint (NilEmpty.uint_of_string text) = Some (Z.to_N n)
  /\ String.length text
     = Nat.max width (Decimal.nb_digits (N.to_uint (Z.to_N n))).

Section CallVocabulary.
Context {D : Declarations} {C : Collaborators}.

(** The writer with [fn] in its field [finishTableCallBack]. No function
    of the package makes this assignment. *)
Definition assignFinishTableCallBack (w : Writer.t)
  (fn : Task -> W -> Outcome unit * W) : Writer.t :=
  Writer.mk (Writer.id w) (Writer.ctx w) (Writer.conf w) (Writer.conn w)
    (Writer.extStorage w) (Writer.fileFmt w) (Writer.receivedTaskCount w)
    (Writer.rebuildConnFn w) (Writer.finishTaskCallBack w) fn.

(** The writer with [n] as its task counter. *)
Definition withReceivedTaskCount (w : Writer.t) (n : Z) : Writer.t :=
  Writer.mk (Writer.id w) (Writer.ctx w) (Writer.conf w) (Writer.conn w)
    (Writer.extStorage w) (Writer.fileFmt w) n
    (Writer.rebuildConnFn w) (Writer.finishTaskCallBack w)
    (Writer.finishTableCallBack w).

(** An attempt begun in state [s] with the variables [v] gets to its
    call of [Start] in state [s0], with [conn] to pass: on a first attempt
    that is the connection it was given, on a later one the connection
    that [rebuildConnFn] returned without an error. *)
Definition reachesStart (w : Writer.t) (v : Writer.attemptVars) (s : State)
  (conn : sqlConn) (s0 : State) : Prop :=
  let logged := (trace s ++ [EvLog "debug" "trying to dump table chunk"])%list in
  if 1 <? GoInt.add (Writer.retryTime v) 1
  then exists fn w0,
         Writer.rebuildConnFn w = Some fn
         /\ fn (Writer.connVar v) (world s) = (Returns (conn, None), w0)
         /\ s0 = mkState w0 (logged ++ [EvRebuildConn (Writer.connVar v)])
  else conn = Writer.connVar v /\ s0 = mkState (world s) logged.

End CallVocabulary.

(** The sample writer with a table-completion callback that leaves a
    mark in the world: it adds 100 to it. *)
Definition notifyingWriter : @Writer.t Sample.declarations Sample.collaborators :=
  @assignFinishTableCallBack Sample.declarations Sample.collaborators
    Sample.writer (fun _ world => (Returns tt, (world + 100)%nat)).

(** ** Counting the calls to the row source *)

(** How many times [Start] has returned nil, and how many times [Close]
    has been called. *)
Record Calls : Type := mkCalls { startsOk : nat; closes : nat }.

Section Counting.
Context {D : Declarations} (C : @Collaborators D).

(** A call that is not counted: it does to the world of [C] what it does
    there, and leaves the counters as they are. *)
Definition uncounted {R} (op : @W D C -> Outcome R * @W D C)
  : @W D C * Calls -> Outcome R * (@W D C * Calls) :=
  fun x => let '(o, w') := op (fst x) in (o, (w', snd x)).

(** A call of [Start]: counted when it returns nil. *)
Definition countedStart (op : @W D C -> Outcome error * @W D C)
  : @W D C * Calls -> Outcome error * (@W D C * Calls) :=
  fun x =>
    let '(o, w') := op (fst x) in
    (o, (w', match o with
             | Returns None => mkCalls (S (startsOk (snd x))) (closes (snd x))
             | _ => snd x
             end)).

(** A call of [Close]: counted whatever comes of it. *)
Definition countedClose (op : @W D C -> Outcome error * @W D C)
  : @W D C * Calls -> Outcome error * (@W D C * Calls) :=
  fun x =>
    let '(o, w') := op (fst x) in
    (o, (w', mkCalls (startsOk (snd x)) (S (closes (snd x))))).

(** The collaborators [C] in a world that also counts the calls to the
    row source. *)
Definition Counting : @Collaborators D := {|
  W := @W D C * Calls;
  DB_Conn := fun db ctx => uncounted (DB_Conn db ctx);
  Conn_Close := fun h => uncounted (Conn_Close h);
  Conn_PingContext := fun h ctx => uncounted (Conn_PingContext h ctx);
  Conn_ExecContext := fun h ctx query => uncounted (Conn_ExecContext h ctx query);
  FlushTableWithReadLock := fun ctx conn => uncounted (FlushTableWithReadLock ctx conn);
  UnlockTables := fun ctx conn => uncounted (UnlockTables ctx conn);
  buildLockTablesSQL := fun tables blockList =>
    uncounted (buildLockTablesSQL tables blockList);
  makeBlockList := uncounted makeBlockList;
  newLockTablesBackoffer := fun blockList => uncounted (newLockTablesBackoffer blockList);
  newDumpChunkBackoffer := fun canRebuild => uncounted (newDumpChunkBackoffer canRebuild);
  Backoffer_Attempt := fun b => uncounted (Backoffer_Attempt b);
  Backoffer_NextBackoff := fun b e => uncounted (Backoffer_NextBackoff b e);
  sleepOrDone := fun ctx d => uncounted (sleepOrDone ctx d);
  Context_Err := fun ctx => uncounted (Context_Err ctx);
  IR_Start := fun ir ctx conn => countedStart (IR_Start ir ctx conn);
  IR_Close := fun ir => countedClose (IR_Close ir);
  buildFileWriter := fun ctx store path compressType =>
    uncounted (buildFileWriter ctx store path compressType);
  buildInterceptFileWriter := fun store path compressType =>
    uncounted (buildInterceptFileWriter store path compressType);
  tearDown := fun fileWriter ctx => uncounted (tearDown fileWriter ctx);
  asInterceptFileWriter := fun fileWriter x => asInterceptFileWriter fileWriter (fst x);
  WriteMeta := fun ctx meta fileWriter => uncounted (WriteMeta ctx meta fileWriter);
  WriteInsert := fun format ctx conf meta ir fileWriter =>
    uncounted (WriteInsert format ctx conf meta ir fileWriter);
  errorCount_Inc := fun labels => uncounted (errorCount_Inc labels)
|}.

(** The writer [w] in the counting world: its functions are not
    counted. *)
Definition countingWriter (w : @Writer.t D C) : @Writer.t D Counting :=
  @Writer.mk D Counting (Writer.id w) (Writer.ctx w) (Writer.conf w)
    (Writer.conn w) (Writer.extStorage w) (Writer.fileFmt w)
    (Writer.receivedTaskCount w)
    (option_map (fun fn conn => uncounted (fn conn)) (Writer.rebuildConnFn w))
    (fun task => uncounted (Writer.finishTaskCallBack w task))
    (fun task => uncounted (Writer.finishTableCallBack w task)).

(** The counters of a state of the counting world. *)
Definition calls (s : @State D Counting) : Calls := snd (world s).

(** A computation that, when it ends, has left the counters as they
    were. *)
Definition keepsCalls {A} (m : @M D Counting A) : Prop :=
  forall s s', ended (m s) = Some s' -> calls s' = calls s.

(** A computation that, when it ends, has added as many calls of [Close]
    as calls of [Start] that returned nil. *)
Definition closesWhatItStarts {A} (m : @M D Counting A) : Prop :=
  forall s s', ended (m s) = Some s' ->
    (startsOk (calls s') + closes (calls s)
     = startsOk (calls s) + closes (calls s'))%nat.

End Counting.

Arguments calls {D C} s.
Arguments keepsCalls {D C A} m.
Arguments closesWhatItStarts {D C A} m.

(** The sample world, counting, with nothing counted yet. *)
Definition countingStart
  : @State Sample.declarations (Counting Sample.collaborators) :=
  @mkState Sample.declarations (Counting Sample.collaborators)
    (O, mkCalls 0 0) [].

(** * Properties *)

(** ** [fmt]: the formats of the namer *)

Example Sprintf_both : fmt.Sprintf "%09d%04d" [12; 3] = Some "0000000120003".
Proof. reflexivity. Qed.
Example Sprintf_file : fmt.Sprintf "%09[2]d" [12; 3] = Some "000000003".
Proof. reflexivity. Qed.
Example Sprintf_chunk : fmt.Sprintf "%09[1]d" [12; 3] = Some "000000012".
Proof. reflexivity. Qed.
Example Sprintf_neg : fmt.Sprintf "%09[1]d" [-12; 3] = Some "-00000012".
Proof. reflexivity. Qed.
Example Sprintf_wide : fmt.Sprintf "%09d%04d" [1234567890; 12345] = Some "123456789012345".
Proof. reflexivity. Qed.
Example Sprintf_empty : fmt.Sprintf "" [0; 0] = Some "%!(EXTRA int=0, int=0)".
Proof. reflexivity. Qed.
Example Sprintf_missing : fmt.Sprintf "a%d%d%d" [1; 2] = Some "a12%!d(MISSING)".
Proof. reflexivity. Qed.

Example sample_handleTask_last_chunk :
  Writer.handleTask 5 Sample.writer (Sample.dataTask 0%N 4 5) Sample.start
  = Done None
      (@mkState Sample.declarations Sample.collaborators O
         [EvLog "debug" "trying to dump table chunk";
          EvStart 0%N (Some 1%N) (Returns None);
          EvClose 0%N;
          EvFinishTableCallBack (Sample.dataTask 0%N 4 5)]).
Proof. reflexivity. Qed.

Example sample_handleTask_retries :
  Writer.handleTask 5 Sample.writer (Sample.dataTask 1%N 4 5) Sample.start
  = Done (Some Sample.startFailed)
      (@mkState Sample.declarations Sample.collaborators 3%nat
         [EvLog "debug" "trying to dump table chunk";
          EvStart 1%N (Some 1%N) (Returns (Some Sample.startFailed));
          EvLog "debug" "trying to dump table chunk";
          EvRebuildConn (Some 1%N);
          EvStart 1%N (Some 2%N) (Returns (Some Sample.startFailed));
          EvLog "debug" "trying to dump table chunk";
          EvRebuildConn (Some 2%N);
          EvStart 1%N (Some 2%N) (Returns (Some Sample.startFailed))]).
Proof. reflexivity. Qed.

(** ** Strings *)

Section StringFacts.

Lemma length_append (a b : string) :
  String.length (a ++ b) = (String.length a + String.length b)%nat.
Proof. induction a as [|c a IH]; simpl; [reflexivity | now rewrite IH]. Qed.

Lemma append_inv_head (a b c : string) : a ++ b = a ++ c -> b = c.
Proof.
  induction a as [|x a IH]; simpl; intros H; [exact H|].
  injection H as H. now apply IH.
Qed.

Lemma append_inv_tail (a b c : string) : a ++ c = b ++ c -> a = b.
Proof.
  revert b. induction a as [|x a IH]; intros [|y b] H; simpl in H.
  - reflexivity.
  - apply (f_equal String.length) in H. simpl in H.
    rewrite length_append in H. lia.
  - apply (f_equal String.length) in H. simpl in H.
    rewrite length_append in H. lia.
  - injection H as -> H. f_equal. now apply IH.
Qed.

End StringFacts.

(** ** The integer verb *)

Section FmtInteger.

Lemma of_uint_zeroPad (k : nat) (d : Decimal.uint) :
  N.of_uint (fmt.zeroPad k d) = N.of_uint d.
Proof. induction k as [|k IH]; simpl; [reflexivity | exact IH]. Qed.

Lemma string_of_uint_inj (d d' : Decimal.uint) :
  NilEmpty.string_of_uint d = NilEmpty.string_of_uint d' -> d = d'.
Proof.
  intros H. apply (f_equal NilEmpty.uint_of_string) in H.
  rewrite !NilEmpty.usu in H. now injection H.
Qed.

Lemma nb_digits_zeroPad (k : nat) (d : Decimal.uint) :
  Decimal.nb_digits (fmt.zeroPad k d) = (k + Decimal.nb_digits d)%nat.
Proof. induction k as [|k IH]; simpl; [reflexivity | now rewrite IH]. Qed.

Lemma length_string_of_uint (d : Decimal.uint) :
  String.length (NilEmpty.string_of_uint d) = Decimal.nb_digits d.
Proof. induction d; simpl; congruence. Qed.

(** With the [0] flag the width is reached by zeros, so no blank is
    written. *)
Lemma fmtInteger_zero (w : nat) (a : Z) :
  fmt.fmtInteger true (Some w) a =
    (if a <? 0 then "-" else "") ++
    NilEmpty.string_of_uint
      (fmt.zeroPad ((if a <? 0 then w - 1 else w)
                    - Decimal.nb_digits (N.to_uint (Z.abs_N a)))
                   (N.to_uint (Z.abs_N a))).
Proof.
  unfold fmt.fmtInteger.
  set (u := N.to_uint (Z.abs_N a)).
  set (body := (_ ++ NilEmpty.string_of_uint _)).
  assert (Hlen : (w - String.length body = 0)%nat).
  { subst body. rewrite length_append, length_string_of_uint, nb_digits_zeroPad.
    destruct (a <? 0); simpl; lia. }
  rewrite Hlen. reflexivity.
Qed.

Lemma string_of_uint_not_minus (d : Decimal.uint) (s : string) :
  NilEmpty.string_of_uint d <> String "-" s.
Proof. destruct d; simpl; congruence. Qed.

(** [%0wd] tells two integers apart. *)
Lemma fmtInteger_zero_inj (w : nat) (a b : Z) :
  fmt.fmtInteger true (Some w) a = fmt.fmtInteger true (Some w) b -> a = b.
Proof.
  rewrite !fmtInteger_zero.
  destruct (Z.ltb_spec a 0) as [Ha|Ha], (Z.ltb_spec b 0) as [Hb|Hb];
    simpl; intros H.
  - injection H as H. apply string_of_uint_inj in H.
    apply (f_equal N.of_uint) in H.
    rewrite !of_uint_zeroPad, !DecimalN.Unsigned.of_to in H. lia.
  - symmetry in H. now apply string_of_uint_not_minus in H.
  - now apply string_of_uint_not_minus in H.
  - apply string_of_uint_inj in H.
    apply (f_equal N.of_uint) in H.
    rewrite !of_uint_zeroPad, !DecimalN.Unsigned.of_to in H. lia.
Qed.

(** A number of at most [w] digits takes exactly [w] bytes. *)
Lemma fmtInteger_zero_length (w : nat) (a : Z) :
  (Decimal.nb_digits (N.to_uint (Z.abs_N a)) + (if (a <? 0)%Z then 1 else 0) <= w)%nat ->
  String.length (fmt.fmtInteger true (Some w) a) = w.
Proof.
  intros H. rewrite fmtInteger_zero, length_append, length_string_of_uint,
    nb_digits_zeroPad.
  destruct (a <? 0); simpl in *; lia.
Qed.

End FmtInteger.

(** ** The index of a namer *)

Section NamerIndex.

Lemma Index_both (c f : Z) (db table : string) :
  outputFileNamer.Index (outputFileNamer.mk c f db table "%09d%04d")
  = Some (fmt.fmtInteger true (Some 9%nat) c ++ fmt.fmtInteger true (Some 4%nat) f).
Proof. reflexivity. Qed.

Lemma Index_file (c f : Z) (db table : string) :
  outputFileNamer.Index (outputFileNamer.mk c f db table "%09[2]d")
  = Some (fmt.fmtInteger true (Some 9%nat) f).
Proof. reflexivity. Qed.

Lemma Index_chunk (c f : Z) (db table : string) :
  outputFileNamer.Index (outputFileNamer.mk c f db table "%09[1]d")
  = Some (fmt.fmtInteger true (Some 9%nat) c).
Proof. reflexivity. Qed.

End NamerIndex.

(** ** How many digits an index takes *)

Section DigitCount.

Lemma of_uint_acc_lower (d : Decimal.uint) (acc : positive) :
  (N.pos acc * 10 ^ N.of_nat (Decimal.nb_digits d)
   <= N.pos (Pos.of_uint_acc d acc))%N.
Proof.
  revert acc. induction d; intros acc; cbn [Decimal.nb_digits Pos.of_uint_acc];
    try (rewrite Nat2N.inj_succ, N.pow_succ_r';
         eapply N.le_trans; [|apply IHd];
         set (t := (10 ^ N.of_nat (Decimal.nb_digits d))%N);
         nia).
  simpl. lia.
Qed.

Lemma to_uint_head_nonzero (p : positive) (l : Decimal.uint) :
  Pos.to_uint p <> Decimal.D0 l.
Proof.
  intros H.
  pose proof (DecimalPos.Unsigned.to_of (Pos.to_uint p)) as Hn.
  rewrite DecimalPos.Unsigned.of_to in Hn. cbn [N.to_uint] in Hn.
  rewrite H in Hn. unfold Decimal.unorm in Hn. cbn [Decimal.nzhead] in Hn.
  pose proof (DecimalFacts.nb_digits_nzhead l) as Hl.
  destruct (Decimal.nzhead l) eqn:E; try discriminate.
  - injection Hn as Hn. subst l.
    apply (DecimalPos.Unsigned.to_uint_nonzero p). exact H.
  - injection Hn as Hn. rewrite <- Hn in Hl. cbn [Decimal.nb_digits] in Hl. lia.
Qed.

(** A number below [10 ^ k] has at most [k] digits. *)
Lemma nb_digits_to_uint (n : N) (k : nat) :
  (1 <= k)%nat -> (n < 10 ^ N.of_nat k)%N ->
  (Decimal.nb_digits (N.to_uint n) <= k)%nat.
Proof.
  intros Hk Hn. destruct n as [|p]; [simpl; lia|].
  cbn [N.to_uint].
  pose proof (DecimalPos.Unsigned.of_to p) as Hof.
  pose proof (to_uint_head_nonzero p) as Hhead.
  pose proof (DecimalPos.Unsigned.to_uint_nonnil p) as Hnil.
  destruct (Pos.to_uint p) as [|l|l|l|l|l|l|l|l|l|l] eqn:E;
    try congruence; try (exfalso; eapply Hhead; reflexivity);
    cbn [Pos.of_uint] in Hof; injection Hof as Hof;
    cbn [Decimal.nb_digits];
    match type of Hof with
    | Pos.of_uint_acc l ?a = p =>
        pose proof (of_uint_acc_lower l a) as Hlow
    end;
    rewrite Hof in Hlow;
    assert (Hlt : (10 ^ N.of_nat (Decimal.nb_digits l) < 10 ^ N.of_nat k)%N)
      by (eapply N.le_lt_trans; [|exact Hn];
          eapply N.le_trans; [|exact Hlow]; nia);
    apply N.pow_lt_mono_r_iff in Hlt; lia.
Qed.

End DigitCount.

(** ** Zero padding *)

Section ZeroPadding.

(** What [%0wd] writes for a non-negative number is that number
    zero-padded to [w]. *)
Lemma fmtInteger_zeroPaddedTo (w : nat) (a : Z) :
  0 <= a -> zeroPaddedTo w a (fmt.fmtInteger true (Some w) a).
Proof.
  intros Ha.
  assert (Habs : Z.abs_N a = Z.to_N a) by lia.
  rewrite fmtInteger_zero. destruct (Z.ltb_spec a 0); [lia|].
  rewrite Habs. cbn [String.append]. split.
  - rewrite NilEmpty.usu. cbn [option_map].
    now rewrite of_uint_zeroPad, DecimalN.Unsigned.of_to.
  - rewrite length_string_of_uint, nb_digits_zeroPad. lia.
Qed.

(** A number below [10 ^ w], zero-padded to [w], takes [w] digits. *)
Lemma zeroPaddedTo_length (w : nat) (a : Z) (text : string) :
  (1 <= w)%nat -> 0 <= a < 10 ^ Z.of_nat w ->
  zeroPaddedTo w a text -> String.length text = w.
Proof.
  intros Hw Ha [_ Hlen]. rewrite Hlen. apply Nat.max_l.
  apply nb_digits_to_uint; [exact Hw|].
  apply N2Z.inj_lt. rewrite Z2N.id by lia.
  rewrite N2Z.inj_pow, nat_N_Z. apply Ha.
Qed.

End ZeroPadding.

(** C3. The index format of a namer is chosen once, by
    [newOutputFileNamer], from the two switches: with the row limit and the
    size limit both active the index is the chunk index zero-padded to 9
    followed by the file index zero-padded to 4; with the size limit only it
    is the file index zero-padded to 9; with the row limit only, and with
    neither, it is the chunk index zero-padded to 9. This holds whatever
    the file index has become, and [NextName] never changes the format.
    For the non-negative indexes the tool produces, zero-padded to [w]
    is: decimal digits that read back as the index, [w] of them when the
    index is below [10 ^ w] and as many as the index has otherwise; for
    every index it is what [%0wd] writes. *)
Theorem newOutputFileNamer_index_format
  {T : outputFileNamer.Templates} (meta : TableMeta.t) (chunkIdx fileIdx : Z)
  (rows fileSize : bool) (tmpl : Template) (fileType : string) :
  let namer :=
    outputFileNamer.setFileIndex (newOutputFileNamer meta chunkIdx rows fileSize)
      fileIdx in
  let fileWidth := if rows && fileSize then 4%nat else 9%nat in
  outputFileNamer.Index namer
  = Some (match rows, fileSize with
          | true, true =>
              fmt.fmtInteger true (Some 9%nat) chunkIdx
              ++ fmt.fmtInteger true (Some 4%nat) fileIdx
          | false, true => fmt.fmtInteger true (Some 9%nat) fileIdx
          | true, false => fmt.fmtInteger true (Some 9%nat) chunkIdx
          | false, false => fmt.fmtInteger true (Some 9%nat) chunkIdx
          end)
  /\ outputFileNamer.format (snd (outputFileNamer.NextName namer tmpl fileType))
     = outputFileNamer.format (newOutputFileNamer meta chunkIdx rows fileSize)
  /\ outputFileNamer.ChunkIndex (newOutputFileNamer meta chunkIdx rows fileSize)
     = chunkIdx
  /\ outputFileNamer.FileIndex (newOutputFileNamer meta chunkIdx rows fileSize)
     = 0
  /\ (0 <= chunkIdx -> 0 <= fileIdx ->
      exists chunkText fileText : string,
        zeroPaddedTo 9 chunkIdx chunkText
        /\ zeroPaddedTo fileWidth fileIdx fileText
        /\ (chunkIdx < 10 ^ 9 -> String.length chunkText = 9%nat)
        /\ (fileIdx < 10 ^ Z.of_nat fileWidth ->
            String.length fileText = fileWidth)
        /\ outputFileNamer.Index namer
           = Some (match rows, fileSize with
                   | true, true => chunkText ++ fileText
                   | false, true => fileText
                   | true, false => chunkText
                   | false, false => chunkText
                   end)).
Proof.
  intros namer fileWidth. repeat split.
  - destruct rows, fileSize; reflexivity.
  - unfold outputFileNamer.NextName.
    destruct (outputFileNamer.render _ _ _) as [res err]. reflexivity.
  - intros Hc Hf.
    exists (fmt.fmtInteger true (Some 9%nat) chunkIdx),
      (fmt.fmtInteger true (Some fileWidth) fileIdx).
    split; [now apply fmtInteger_zeroPaddedTo|].
    split; [now apply fmtInteger_zeroPaddedTo|].
    split; [|split].
    + intros Hlt. apply (zeroPaddedTo_length 9 chunkIdx); [lia| |].
      * split; [exact Hc|exact Hlt].
      * now apply fmtInteger_zeroPaddedTo.
    + intros Hlt. apply (zeroPaddedTo_length fileWidth fileIdx).
      * subst fileWidth. destruct (rows && fileSize); lia.
      * split; [exact Hf|exact Hlt].
      * now apply fmtInteger_zeroPaddedTo.
    + subst namer fileWidth. destruct rows, fileSize; reflexivity.
Qed.

(** Chunk 12 and file 3 under both limits: nine digits, then four. *)
Lemma newOutputFileNamer_index_format_witness :
  exists chunkText fileText : string,
    zeroPaddedTo 9 12 chunkText
    /\ zeroPaddedTo 4 3 fileText
    /\ (12 < 10 ^ 9 -> String.length chunkText = 9%nat)
    /\ (3 < 10 ^ Z.of_nat 4 -> String.length fileText = 4%nat)
    /\ outputFileNamer.Index
         (outputFileNamer.setFileIndex
            (newOutputFileNamer Sample.meta 12 true true) 3)
       = Some (chunkText ++ fileText).
Proof.
  apply (proj2 (proj2 (proj2 (proj2
           (@newOutputFileNamer_index_format Sample.templates Sample.meta
              12 3 true true 0%N "sql"))))); lia.
Defined.

(** Read the other way: the one text of nine digits that reads back as
    12. *)
Example zeroPaddedTo_9_12 : zeroPaddedTo 9 12 "000000012".
Proof. split; reflexivity. Qed.

Example index_both_12_3 :
  outputFileNamer.Index
    (outputFileNamer.setFileIndex (newOutputFileNamer Sample.meta 12 true true) 3)
  = Some "0000000120003".
Proof. reflexivity. Qed.

(** ** [NextName], called again and again *)

Section NextNameSequence.
Context {T : outputFileNamer.Templates}.

Lemma wrap_in_range (z : Z) : GoInt.in_range z -> GoInt.wrap z = z.
Proof.
  unfold GoInt.in_range, GoInt.min_int, GoInt.max_int, GoInt.wrap.
  intros H. rewrite Z.mod_small; lia.
Qed.

Lemma incremented_no_overflow (k : nat) (i : Z) :
  GoInt.in_range i -> i + Z.of_nat k <= GoInt.max_int ->
  incremented k i = i + Z.of_nat k.
Proof.
  unfold incremented. intros Hi. induction k as [|k IH]; intros Hk.
  - simpl. lia.
  - rewrite Nat.iter_succ, IH by lia.
    unfold GoInt.add. rewrite wrap_in_range.
    + lia.
    + unfold GoInt.in_range, GoInt.min_int, GoInt.max_int in *. lia.
Qed.

Lemma setFileIndex_same (namer : outputFileNamer.t) :
  outputFileNamer.setFileIndex namer (outputFileNamer.FileIndex namer) = namer.
Proof. now destruct namer. Qed.

Lemma NextName_namer (namer : outputFileNamer.t) tmpl fileType :
  snd (outputFileNamer.NextName namer tmpl fileType)
  = outputFileNamer.setFileIndex namer
      (GoInt.add (outputFileNamer.FileIndex namer) 1).
Proof.
  unfold outputFileNamer.NextName.
  now destruct (outputFileNamer.render _ _ _).
Qed.

(** The [k]-th call sees the namer with its file index incremented [k]
    times and nothing else changed. *)
Lemma nextNames_unfold (n : nat) (namer : outputFileNamer.t) tmpl fileType :
  nextNames n namer tmpl fileType
  = (map (fun k =>
            fst (outputFileNamer.NextName
                   (outputFileNamer.setFileIndex namer
                      (incremented k (outputFileNamer.FileIndex namer)))
                   tmpl fileType))
         (seq 0 n),
     outputFileNamer.setFileIndex namer
       (incremented n (outputFileNamer.FileIndex namer))).
Proof.
  revert namer. induction n as [|n IH]; intros namer.
  - simpl. now rewrite setFileIndex_same.
  - cbn [nextNames].
    pose proof (NextName_namer namer tmpl fileType) as Hn.
    destruct (outputFileNamer.NextName namer tmpl fileType) as [r namer1] eqn:E.
    simpl in Hn. subst namer1. rewrite IH.
    cbn [seq map]. rewrite <- seq_shift, map_map.
    f_equal.
    + f_equal.
      * simpl. now rewrite setFileIndex_same, E.
      * apply map_ext. intros k. unfold incremented.
        now rewrite Nat.iter_succ_r.
    + unfold incremented. now rewrite Nat.iter_succ_r.
Qed.

End NextNameSequence.

Section NextNameDistinct.
Context {T : outputFileNamer.Templates}.

Lemma fileIndexed_Index_inj (namer : outputFileNamer.t) (i j : Z) :
  fileIndexed namer ->
  outputFileNamer.Index (outputFileNamer.setFileIndex namer i)
  = outputFileNamer.Index (outputFileNamer.setFileIndex namer j) ->
  i = j.
Proof.
  destruct namer as [c f db table fm]. unfold fileIndexed. simpl.
  unfold outputFileNamer.setFileIndex. simpl.
  assert (Some_inj : forall a b : string, Some a = Some b -> a = b)
    by (intros a b H; congruence).
  intros [-> | ->].
  - rewrite !Index_both. intros H. apply Some_inj in H.
    apply append_inv_head in H. now apply fmtInteger_zero_inj in H.
  - rewrite !Index_file. intros H. apply Some_inj in H.
    now apply fmtInteger_zero_inj in H.
Qed.

Lemma NextName_success_name (namer : outputFileNamer.t) tmpl fileType :
  succeeded (fst (outputFileNamer.NextName namer tmpl fileType)) ->
  fst (fst (outputFileNamer.NextName namer tmpl fileType))
  = fst (outputFileNamer.ExecuteTemplate tmpl
           outputFileNamer.outputFileTemplateData namer)
    ++ "." ++ fileType.
Proof.
  unfold succeeded, outputFileNamer.NextName, outputFileNamer.render.
  destruct (outputFileNamer.ExecuteTemplate _ _ _) as [bf [e|]]; simpl.
  - discriminate.
  - reflexivity.
Qed.

Lemma Forall_map_seq {A} (P : A -> Prop) (f : nat -> A) (n : nat) :
  Forall P (map f (seq 0 n)) -> forall k, (k < n)%nat -> P (f k).
Proof.
  rewrite Forall_forall. intros H k Hk. apply H, in_map, in_seq. lia.
Qed.

End NextNameDistinct.

(** C2 (amended). [N >= 1] calls of [NextName] on one namer, with one
    template and extension, as long as the counter does not overflow: the
    [k]-th call (counting from 0) renders the namer with its file index
    advanced by exactly [k] and nothing else changed, whether or not the
    earlier calls succeeded; the chunk index and the format of the namer
    are the same after the calls. The [N] names are pairwise distinct when
    the index format holds the file index (size limit active), the template
    lets the data name determine the index, and all calls succeed. *)
Theorem NextName_N_times
  {T : outputFileNamer.Templates} (namer : outputFileNamer.t)
  (tmpl : Template) (fileType : string) (N : nat) :
  (1 <= N)%nat ->
  GoInt.in_range (outputFileNamer.FileIndex namer) ->
  outputFileNamer.FileIndex namer + Z.of_nat N - 1 <= GoInt.max_int ->
  let results := fst (nextNames N namer tmpl fileType) in
  let namer' := snd (nextNames N namer tmpl fileType) in
  List.length results = N
  /\ (forall k, (k < N)%nat ->
        nth_error results k
        = Some (fst (outputFileNamer.NextName
                       (outputFileNamer.setFileIndex namer
                          (outputFileNamer.FileIndex namer + Z.of_nat k))
                       tmpl fileType)))
  /\ outputFileNamer.ChunkIndex namer' = outputFileNamer.ChunkIndex namer
  /\ outputFileNamer.format namer' = outputFileNamer.format namer
  /\ (fileIndexed namer -> determinesIndex namer tmpl ->
      Forall succeeded results -> NoDup (map fst results)).
Proof.
  intros HN Hr Hmax results namer'. subst results namer'.
  rewrite nextNames_unfold. cbn [fst snd].
  assert (Hinc : forall k, (k < N)%nat ->
            incremented k (outputFileNamer.FileIndex namer)
            = outputFileNamer.FileIndex namer + Z.of_nat k).
  { intros k Hk. apply incremented_no_overflow; [assumption | lia]. }
  repeat split.
  - now rewrite length_map, length_seq.
  - intros k Hk.
    rewrite nth_error_map, nth_error_seq.
    destruct (Nat.ltb_spec k N) as [_|]; [|lia].
    simpl. now rewrite Hinc.
  - intros Hfmt Hdet Hok.
    rewrite map_map.
    apply NoDup_map_NoDup_ForallPairs; [|apply seq_NoDup].
    intros i j Hi Hj Heq. apply in_seq in Hi, Hj.
    pose proof (Forall_map_seq _ _ _ Hok i ltac:(lia)) as Hi'.
    pose proof (Forall_map_seq _ _ _ Hok j ltac:(lia)) as Hj'.
    cbv beta in Hi', Hj'.
    rewrite (NextName_success_name _ _ _ Hi'),
            (NextName_success_name _ _ _ Hj') in Heq.
    apply append_inv_tail, Hdet, fileIndexed_Index_inj in Heq; [|assumption].
    rewrite !Hinc in Heq by lia. lia.
Qed.

Lemma sample_determinesIndex (namer : outputFileNamer.t) (tmpl : Template) :
  fileIndexed namer -> @determinesIndex Sample.templates namer tmpl.
Proof.
  destruct namer as [c f db table fm]. unfold fileIndexed, determinesIndex.
  cbn [outputFileNamer.format]. intros Hfm i j.
  unfold outputFileNamer.setFileIndex.
  cbn [outputFileNamer.ChunkIndex outputFileNamer.DB outputFileNamer.Table
       outputFileNamer.format].
  destruct Hfm as [-> | ->];
    cbn [outputFileNamer.ExecuteTemplate Sample.templates
         outputFileNamer.outputFileTemplateData String.eqb Ascii.eqb Bool.eqb
         outputFileNamer.DB outputFileNamer.Table];
    rewrite ?Index_both, ?Index_file; cbn [fst]; intros H;
    do 4 apply append_inv_head in H; now rewrite H.
Qed.

(** Three names of a namer built with both limits active. *)
Lemma NextName_N_times_witness :
  map fst (fst (@nextNames Sample.templates 3
                  (newOutputFileNamer Sample.meta 7 true true) 0%N "sql"))
  = ["db.tbl.0000000070000.sql"; "db.tbl.0000000070001.sql";
     "db.tbl.0000000070002.sql"]
  /\ NoDup (map fst (fst (@nextNames Sample.templates 3
                            (newOutputFileNamer Sample.meta 7 true true) 0%N "sql"))).
Proof.
  split; [reflexivity|].
  apply (@NextName_N_times Sample.templates
           (newOutputFileNamer Sample.meta 7 true true) 0%N "sql" 3%nat).
  - lia.
  - unfold GoInt.in_range, GoInt.min_int, GoInt.max_int; simpl; lia.
  - unfold GoInt.max_int; simpl; lia.
  - left; reflexivity.
  - apply sample_determinesIndex; left; reflexivity.
  - repeat constructor.
Defined.

(** C2, as stated, fails: with the row limit on and the size limit off the
    index format holds the chunk index only, and two successful calls of
    [NextName] give the same name. *)
Lemma NextName_names_coincide :
  let results :=
    fst (@nextNames Sample.templates 2
           (newOutputFileNamer Sample.meta 7 true false) 0%N "sql") in
  (1 <= 2)%nat
  /\ Forall succeeded results
  /\ map fst results = ["db.tbl.000000007.sql"; "db.tbl.000000007.sql"]
  /\ ~ NoDup (map fst results).
Proof.
  cbv zeta. repeat split.
  - lia.
  - repeat constructor.
  - intros H. vm_compute in H. inversion H as [|x l Hin _]; subst.
    apply Hin. now left.
Qed.

(** ** The consistency controllers *)

(** Unfolding the operations of the effect monad. *)
Ltac unfold_effects :=
  unfold bind, ret, call, callLogged, emit, defer, unwinding, panic, noReturn,
    inspect, onConn in *.

(** Case analysis on the outcome of the next call out of the package. *)
Ltac next_call :=
  match goal with
  | |- context [let '(_, _) := ?op in _] =>
      let o := fresh "o" in let w := fresh "w" in let r := fresh "r" in
      let p := fresh "p" in
      destruct op as [[r|p] w]; cbn beta iota
  | H : context [let '(_, _) := ?op in _] |- _ =>
      let o := fresh "o" in let w := fresh "w" in let r := fresh "r" in
      let p := fresh "p" in
      destruct op as [[r|p] w]; cbn beta iota in H
  end.

Section ConsistencyFacts.
Context {D : Declarations} {C : Collaborators}.

Lemma Flush_TearDown_conn (c c' : ConsistencyFlushTableWithReadLock.t)
  (ctx : Context) (s s' : State) (err : error) :
  ConsistencyFlushTableWithReadLock.TearDown c ctx s = Done (err, c') s' ->
  ConsistencyFlushTableWithReadLock.conn c' = None.
Proof.
  unfold ConsistencyFlushTableWithReadLock.TearDown.
  destruct (ConsistencyFlushTableWithReadLock.conn c) as [h|] eqn:Hc.
  - unfold_effects. repeat next_call; intros H; try discriminate;
      injection H as _ <- _; reflexivity.
  - unfold_effects. intros H. injection H as _ <- _. exact Hc.
Qed.

Lemma Lock_TearDown_conn (c c' : ConsistencyLockDumpingTables.t)
  (ctx : Context) (s s' : State) (err : error) :
  ConsistencyLockDumpingTables.TearDown c ctx s = Done (err, c') s' ->
  ConsistencyLockDumpingTables.conn c' = None.
Proof.
  unfold ConsistencyLockDumpingTables.TearDown.
  destruct (ConsistencyLockDumpingTables.conn c) as [h|] eqn:Hc.
  - unfold_effects. repeat next_call; intros H; try discriminate;
      injection H as _ <- _; reflexivity.
  - unfold_effects. intros H. injection H as _ <- _. exact Hc.
Qed.

End ConsistencyFacts.

(** C4. Once [TearDown] has returned, on a
    [ConsistencyFlushTableWithReadLock] and on a
    [ConsistencyLockDumpingTables] alike, every later [PingContext], in
    whatever state of the world, returns the error "consistency connection
    has already been closed", which is not nil, and touches nothing. *)
Theorem PingContext_after_TearDown {D : Declarations} {C : Collaborators} :
  (forall (c c' : ConsistencyFlushTableWithReadLock.t) (ctx : Context)
          (s s' : State) (err : error),
      ConsistencyFlushTableWithReadLock.TearDown c ctx s = Done (err, c') s' ->
      forall (ctx' : Context) (s'' : State),
        ConsistencyFlushTableWithReadLock.PingContext c' ctx' s''
        = Done (Some (ErrorString "consistency connection has already been closed"))
               s'')
  /\
  (forall (c c' : ConsistencyLockDumpingTables.t) (ctx : Context)
          (s s' : State) (err : error),
      ConsistencyLockDumpingTables.TearDown c ctx s = Done (err, c') s' ->
      forall (ctx' : Context) (s'' : State),
        ConsistencyLockDumpingTables.PingContext c' ctx' s''
        = Done (Some (ErrorString "consistency connection has already been closed"))
               s'').
Proof.
  split; intros c c' ctx s s' err H ctx' s''.
  - apply Flush_TearDown_conn in H.
    unfold ConsistencyFlushTableWithReadLock.PingContext. now rewrite H.
  - apply Lock_TearDown_conn in H.
    unfold ConsistencyLockDumpingTables.PingContext. now rewrite H.
Qed.

(** Both controllers, torn down and then pinged, in the sample world. *)
Lemma PingContext_after_TearDown_witness :
  (let c := @ConsistencyFlushTableWithReadLock.mk Sample.declarations 1%nat (Some 1%N) in
   exists c',
     ConsistencyFlushTableWithReadLock.TearDown c 0%N Sample.start
     = Done (None, c') Sample.start
     /\ ConsistencyFlushTableWithReadLock.PingContext c' 0%N Sample.start
        = Done (Some (ErrorString "consistency connection has already been closed"))
               Sample.start)
  /\
  (let c := ConsistencyLockDumpingTables.mk (Some 1%N) 0%N in
   exists c',
     @ConsistencyLockDumpingTables.TearDown Sample.declarations Sample.collaborators
       c 0%N Sample.start
     = Done (None, c') Sample.start
     /\ @ConsistencyLockDumpingTables.PingContext
          Sample.declarations Sample.collaborators c' 0%N Sample.start
        = Done (Some (ErrorString "consistency connection has already been closed"))
               Sample.start).
Proof.
  split.
  - exists (@ConsistencyFlushTableWithReadLock.mk Sample.declarations 1%nat None).
    split; [reflexivity|].
    apply (proj1 (@PingContext_after_TearDown
                    Sample.declarations Sample.collaborators)
             (@ConsistencyFlushTableWithReadLock.mk Sample.declarations
                1%nat (Some 1%N))
             _ 0%N Sample.start Sample.start None).
    reflexivity.
  - exists (ConsistencyLockDumpingTables.mk None 0%N).
    split; [reflexivity|].
    apply (proj2 (@PingContext_after_TearDown
                    Sample.declarations Sample.collaborators)
             (ConsistencyLockDumpingTables.mk (Some 1%N) 0%N)
             _ 0%N Sample.start Sample.start None).
    reflexivity.
Defined.

(** C5. [Setup] of a [ConsistencyFlushTableWithReadLock] whose server is
    TiDB returns its explicit error, which is not nil, and does nothing
    else: no call leaves the package, so no statement reaches the
    connection, and the world and the trace are as before. *)
Theorem Flush_Setup_TiDB {D : Declarations} {C : Collaborators}
  (c : ConsistencyFlushTableWithReadLock.t) (ctx : Context) (s : State) :
  ConsistencyFlushTableWithReadLock.serverType c = ServerTypeTiDB ->
  ConsistencyFlushTableWithReadLock.Setup c ctx s
  = Done (Some (ErrorString
       "'flush table with read lock' cannot be used to ensure the consistency in TiDB"))
         s.
Proof.
  intros H. unfold ConsistencyFlushTableWithReadLock.Setup.
  apply ServerType_eqb_eq in H. rewrite H. reflexivity.
Qed.

(** The flush controller of a TiDB server (number 3 in the sample). *)
Lemma Flush_Setup_TiDB_witness :
  ConsistencyFlushTableWithReadLock.Setup
    (@ConsistencyFlushTableWithReadLock.mk Sample.declarations 3%nat (Some 1%N))
    0%N Sample.start
  = Done (Some (ErrorString
       "'flush table with read lock' cannot be used to ensure the consistency in TiDB"))
         Sample.start.
Proof.
  apply (@Flush_Setup_TiDB Sample.declarations Sample.collaborators).
  reflexivity.
Defined.

(** On any other server [Setup] hands the connection to
    [FlushTableWithReadLock]. *)
Lemma Flush_Setup_other {D : Declarations} {C : Collaborators}
  (c : ConsistencyFlushTableWithReadLock.t) (ctx : Context) :
  ConsistencyFlushTableWithReadLock.serverType c <> ServerTypeTiDB ->
  ConsistencyFlushTableWithReadLock.Setup c ctx
  = call (FlushTableWithReadLock ctx (ConsistencyFlushTableWithReadLock.conn c)).
Proof.
  intros H. unfold ConsistencyFlushTableWithReadLock.Setup.
  destruct (ServerType_eqb _ _) eqn:E; [|reflexivity].
  apply ServerType_eqb_eq in E. contradiction.
Qed.

(** C6. [NewConsistencyController] returns no controller and an error that
    is not nil, as soon as the connection has been obtained and so before
    any [Setup], when the consistency option is "snapshot" and the server
    is not TiDB, and when the option is none of "none", "flush", "lock",
    "snapshot". (When obtaining the connection fails, that error is the
    one returned.) Nothing else happens: the only call out of the package
    is the one that obtains the connection. *)
Theorem NewConsistencyController_config_error
  {D : Declarations} {C : Collaborators}
  (ctx : Context) (conf : Config.t) (session : sqlDB) (s : State)
  (r : sqlConn * error) (w' : W) :
  (Config.Consistency conf = consistencyTypeSnapshot
   /\ ServerInfo.ServerType (Config.ServerInfo conf) <> ServerTypeTiDB)
  \/ ~ In (Config.Consistency conf)
         [consistencyTypeNone; consistencyTypeFlush;
          consistencyTypeLock; consistencyTypeSnapshot] ->
  DB_Conn session ctx (world s) = (Returns r, w') ->
  NewConsistencyController ctx conf session s
  = Done (None,
          Some (match snd r with
                | Some e => ErrorTraced e
                | None =>
                    ErrorString
                      (if String.eqb (Config.Consistency conf) consistencyTypeSnapshot
                       then "snapshot consistency is not supported for this server"
                       else "invalid consistency option " ++ Config.Consistency conf)
                end))
         (mkState w' (trace s)).
Proof.
  intros Hconf Hconn. unfold NewConsistencyController. unfold_effects.
  rewrite Hconn. destruct r as [conn [e|]]; cbn [snd]; [reflexivity|].
  destruct Hconf as [[Hsnap Hserver] | Hnone].
  - rewrite Hsnap. cbn [String.eqb consistencyTypeSnapshot consistencyTypeFlush
                        consistencyTypeLock Ascii.eqb Bool.eqb andb].
    destruct (ServerType_eqb _ _) eqn:E.
    + apply ServerType_eqb_eq in E. contradiction.
    + reflexivity.
  - cbn [In] in Hnone.
    assert (Hne : forall k, k = consistencyTypeNone \/ k = consistencyTypeFlush
                            \/ k = consistencyTypeLock \/ k = consistencyTypeSnapshot ->
                  String.eqb (Config.Consistency conf) k = false).
    { intros k Hk. apply String.eqb_neq. intros Heq. apply Hnone.
      rewrite Heq. destruct Hk as [->|[->|[->| ->]]]; auto. }
    rewrite !Hne by auto. reflexivity.
Qed.

(** The option snapshot on a server that is not TiDB, and the unknown
    option auto. *)
Lemma NewConsistencyController_config_error_witness :
  @NewConsistencyController Sample.declarations Sample.collaborators
    0%N (Sample.config "snapshot" 1%nat 0 0) 0%N Sample.start
  = Done (None,
          Some (ErrorString "snapshot consistency is not supported for this server"))
         Sample.start
  /\ @NewConsistencyController Sample.declarations Sample.collaborators
       0%N (Sample.config "auto" 3%nat 0 0) 0%N Sample.start
     = Done (None, Some (ErrorString "invalid consistency option auto"))
            Sample.start.
Proof.
  split.
  - apply (@NewConsistencyController_config_error
             Sample.declarations Sample.collaborators
             0%N (Sample.config "snapshot" 1%nat 0 0) 0%N Sample.start
             (Some 1%N, None) O).
    + left. split; [reflexivity | discriminate].
    + reflexivity.
  - apply (@NewConsistencyController_config_error
             Sample.declarations Sample.collaborators
             0%N (Sample.config "auto" 3%nat 0 0) 0%N Sample.start
             (Some 1%N, None) O).
    + right. simpl. intros [H|[H|[H|[H|[]]]]]; discriminate.
    + reflexivity.
Defined.

(** The four accepted options do give a controller. *)
Example NewConsistencyController_snapshot_TiDB :
  @NewConsistencyController Sample.declarations Sample.collaborators
    0%N (Sample.config "snapshot" 3%nat 0 0) 0%N Sample.start
  = Done (Some (PtrConsistencyNone ConsistencyNone.mk), None) Sample.start.
Proof. reflexivity. Qed.

(** ** Traces *)

Section TraceFacts.
Context {D : Declarations} {C : Collaborators}.

Lemma emitsOnly_ret (P : Event -> Prop) {A} (a : A) : emitsOnly P (ret a).
Proof.
  intros s s' [= <-]. exists []. now rewrite app_nil_r.
Qed.

Lemma emitsOnly_panic (P : Event -> Prop) {A} (v : PanicValue) :
  emitsOnly P (@panic D C A v).
Proof.
  intros s s' [= <-]. exists []. now rewrite app_nil_r.
Qed.

Lemma emitsOnly_noReturn (P : Event -> Prop) {A} : emitsOnly P (@noReturn D C A).
Proof. intros s s' [=]. Qed.

Lemma emitsOnly_inspect (P : Event -> Prop) {R} (f : W -> R) :
  emitsOnly P (inspect f).
Proof.
  intros s s' [= <-]. exists []. now rewrite app_nil_r.
Qed.

Lemma emitsOnly_call (P : Event -> Prop) {R} (op : W -> Outcome R * W) :
  emitsOnly P (call op).
Proof.
  intros s s'. unfold call. destruct (op (world s)) as [[r|p] w'];
    intros [= <-]; exists []; simpl; now rewrite app_nil_r.
Qed.

Lemma emitsOnly_emit (P : Event -> Prop) (e : Event) :
  P e -> emitsOnly P (emit e).
Proof.
  intros He s s' [= <-]. exists [e]. simpl. auto.
Qed.

Lemma emitsOnly_callLogged (P : Event -> Prop) {R}
  (op : W -> Outcome R * W) (ev : Outcome R -> Event) :
  (forall o, P (ev o)) -> emitsOnly P (callLogged op ev).
Proof.
  intros He s s'. unfold callLogged.
  destruct (op (world s)) as [[r|p] w']; intros [= <-];
    eexists [_]; simpl; auto.
Qed.

Lemma emitsOnly_bind (P : Event -> Prop) {A B} (m : M A) (k : A -> M B) :
  emitsOnly P m -> (forall a, emitsOnly P (k a)) -> emitsOnly P (bind m k).
Proof.
  intros Hm Hk s s'. unfold bind.
  destruct (m s) as [a s1|v s1|] eqn:Em; intros Hend.
  - destruct (Hm s s1) as (evs1 & E1 & F1); [now rewrite Em|].
    destruct (Hk a s1 s' Hend) as (evs2 & E2 & F2).
    exists (evs1 ++ evs2)%list. split.
    + now rewrite E2, E1, app_assoc.
    + now apply Forall_app.
  - injection Hend as <-. apply (Hm s s1). now rewrite Em.
  - discriminate.
Qed.

Lemma emitsOnly_defer (P : Event -> Prop) {A} (body : M A) (deferred : M unit) :
  emitsOnly P body -> emitsOnly P deferred -> emitsOnly P (defer body deferred).
Proof.
  intros Hb Hd s s'. unfold defer.
  assert (Hseq : forall s1, ended (body s) = Some s1 ->
                 ended (deferred s1) = Some s' ->
                 exists evs, trace s' = (trace s ++ evs)%list /\ Forall P evs).
  { intros s1 E1 E2.
    destruct (Hb s s1 E1) as (evs1 & T1 & F1).
    destruct (Hd s1 s' E2) as (evs2 & T2 & F2).
    exists (evs1 ++ evs2)%list. split.
    - now rewrite T2, T1, app_assoc.
    - now apply Forall_app. }
  destruct (body s) as [a s1|v s1|] eqn:Eb; [| |discriminate];
    destruct (deferred s1) as [u s2|v' s2|] eqn:Ed; try discriminate;
    intros [= <-]; apply (Hseq s1); try reflexivity; now rewrite Ed.
Qed.

Lemma emitsOnly_unwinding (P : Event -> Prop) {A B} (m : M A)
  (onReturn : A -> M B) (onPanic : PanicValue -> M B) :
  emitsOnly P m -> (forall a, emitsOnly P (onReturn a)) ->
  (forall v, emitsOnly P (onPanic v)) ->
  emitsOnly P (unwinding m onReturn onPanic).
Proof.
  intros Hm Hr Hp s s'. unfold unwinding.
  destruct (m s) as [a s1|v s1|] eqn:Em; intros Hend; [| |discriminate].
  - destruct (Hm s s1) as (evs1 & E1 & F1); [now rewrite Em|].
    destruct (Hr a s1 s' Hend) as (evs2 & E2 & F2).
    exists (evs1 ++ evs2)%list. split.
    + now rewrite E2, E1, app_assoc.
    + now apply Forall_app.
  - destruct (Hm s s1) as (evs1 & E1 & F1); [now rewrite Em|].
    destruct (Hp v s1 s' Hend) as (evs2 & E2 & F2).
    exists (evs1 ++ evs2)%list. split.
    + now rewrite E2, E1, app_assoc.
    + now apply Forall_app.
Qed.

Lemma emitsOnly_weaken (P Q : Event -> Prop) {A} (m : M A) :
  (forall e, P e -> Q e) -> emitsOnly P m -> emitsOnly Q m.
Proof.
  intros HPQ Hm s s' Hend. destruct (Hm s s' Hend) as (evs & E & F).
  exists evs. split; [assumption|]. eapply Forall_impl; eauto.
Qed.

(** A computation that adds nothing to the trace. *)
Lemma emitsOnly_nothing {A} (m : M A) (s s' : State) :
  emitsOnly (fun _ => False) m -> ended (m s) = Some s' -> trace s' = trace s.
Proof.
  intros Hm Hend. destruct (Hm s s' Hend) as (evs & E & F).
  destruct evs as [|e evs]; [now rewrite app_nil_r in E|].
  now inversion F.
Qed.

End TraceFacts.

(** Running the model: the left-hand side of an equation is replaced by
    its value. *)
Ltac eval_lhs :=
  cbv zeta;
  match goal with
  | |- ?l = _ => let v := eval vm_compute in l in change l with v
  end.

(** Decomposing a computation along its binds, calls and branches. *)
Ltac emits :=
  repeat first
    [ apply emitsOnly_ret
    | apply emitsOnly_panic
    | apply emitsOnly_noReturn
    | apply emitsOnly_inspect
    | apply emitsOnly_call
    | apply emitsOnly_emit; exact I
    | apply emitsOnly_callLogged; intros; exact I
    | apply emitsOnly_bind; [| intros ?]
    | apply emitsOnly_defer
    | apply emitsOnly_unwinding; [| intros ? | intros ?]
    | match goal with
      | |- emitsOnly _ (match ?x with _ => _ end) => destruct x
      end ].

Section WriterTraces.
Context {D : Declarations} {C : Collaborators}.

Lemma writeMetaToFile_silent ctx target metaSQL s path compressType :
  emitsOnly (fun _ => False)
    (Writer.writeMetaToFile ctx target metaSQL s path compressType).
Proof. unfold Writer.writeMetaToFile. emits. Qed.

Lemma WriteDatabaseMeta_silent w db createSQL :
  emitsOnly (fun _ => False) (Writer.WriteDatabaseMeta w db createSQL).
Proof.
  unfold Writer.WriteDatabaseMeta. cbv zeta. emits.
Qed.

Lemma WriteTableMeta_silent w db table createSQL :
  emitsOnly (fun _ => False) (Writer.WriteTableMeta w db table createSQL).
Proof.
  unfold Writer.WriteTableMeta. cbv zeta. emits.
Qed.

Lemma WriteViewMeta_silent w db view createTableSQL createViewSQL :
  emitsOnly (fun _ => False)
    (Writer.WriteViewMeta w db view createTableSQL createViewSQL).
Proof.
  unfold Writer.WriteViewMeta. cbv zeta. emits.
Qed.

Lemma writeTableDataLoop_silent fuel w ctx meta ir namer fileName :
  emitsOnly (fun _ => False)
    (Writer.writeTableDataLoop fuel w ctx meta ir namer fileName).
Proof.
  revert namer fileName. induction fuel as [|fuel IH]; intros namer fileName.
  - apply emitsOnly_noReturn.
  - cbn [Writer.writeTableDataLoop]. emits; apply IH.
Qed.

Lemma writeTableData_silent fuel w ctx meta ir curChkIdx :
  emitsOnly (fun _ => False) (Writer.writeTableData fuel w ctx meta ir curChkIdx).
Proof.
  unfold Writer.writeTableData. cbv zeta. emits.
  apply writeTableDataLoop_silent.
Qed.

End WriterTraces.

Section ChunkTraces.
Context {D : Declarations} {C : Collaborators}.

Lemma closeIR_events ir : emitsOnly attemptEvent (Writer.closeIR ir).
Proof. unfold Writer.closeIR. emits. Qed.

Lemma countError_silent (P : Event -> Prop) w err :
  emitsOnly P (Writer.countError w err).
Proof. unfold Writer.countError. emits. Qed.

Lemma attempt_events fuel w meta ir currentChunk v :
  emitsOnly attemptEvent (Writer.attempt fuel w meta ir currentChunk v).
Proof.
  unfold Writer.attempt. cbv zeta. emits;
    try apply countError_silent; try apply closeIR_events.
  eapply emitsOnly_weaken; [|apply writeTableData_silent]. contradiction.
Qed.

Lemma WithRetryFrom_events (P : Event -> Prop) {S : Type} fuel ctx
  (retryableFunc : S -> M (error * S)) backoffer st lastErr :
  (forall st, emitsOnly P (retryableFunc st)) ->
  emitsOnly P (utils.WithRetryFrom fuel ctx retryableFunc backoffer st lastErr).
Proof.
  intros Hf. revert st lastErr.
  induction fuel as [|fuel IH]; intros st lastErr.
  - apply emitsOnly_noReturn.
  - cbn [utils.WithRetryFrom]. emits; try apply Hf; try apply IH.
Qed.

Lemma WriteTableData_events fuel w meta ir currentChunk :
  emitsOnly attemptEvent (Writer.WriteTableData fuel w meta ir currentChunk).
Proof.
  unfold Writer.WriteTableData, utils.WithRetry. cbv zeta. emits.
  apply WithRetryFrom_events. intros st. apply attempt_events.
Qed.

Lemma handleTask_events fuel w task :
  emitsOnly handlingEvent (Writer.handleTask fuel w task).
Proof.
  destruct task as [t|t|t|t|typeName]; cbn [Writer.handleTask].
  - eapply emitsOnly_weaken; [|apply WriteDatabaseMeta_silent]. contradiction.
  - eapply emitsOnly_weaken; [|apply WriteTableMeta_silent]. contradiction.
  - eapply emitsOnly_weaken; [|apply WriteViewMeta_silent]. contradiction.
  - apply emitsOnly_bind.
    + eapply emitsOnly_weaken; [|apply WriteTableData_events].
      now intros [].
    + intros err. emits.
  - emits.
Qed.

End ChunkTraces.

(** ** The two setters *)

Lemma writeTableDataLoop_setFinishTableCallBack
  {D : Declarations} {C : Collaborators}
  (fuel : nat) (w : Writer.t) (fn : Task -> W -> Outcome unit * W) :
  Writer.writeTableDataLoop fuel (Writer.setFinishTableCallBack w fn)
  = Writer.writeTableDataLoop fuel w.
Proof.
  induction fuel as [|fuel IH]; [reflexivity|].
  enough (H : (fun ctx meta ir namer fileName =>
                 Writer.writeTableDataLoop (S fuel)
                   (Writer.setFinishTableCallBack w fn) ctx meta ir namer fileName)
              = (fun ctx meta ir namer fileName =>
                   Writer.writeTableDataLoop (S fuel) w ctx meta ir namer fileName))
    by exact H.
  cbn [Writer.writeTableDataLoop]. rewrite IH. destruct w. reflexivity.
Qed.

(** C8. [Writer] has one field for each of the two callbacks and one
    setter named after each, but [setFinishTableCallBack fn] stores [fn]
    in the field [finishTaskCallBack] and leaves [finishTableCallBack] as
    it was: it does exactly what [setFinishTaskCallBack fn] does. The
    handling of a task, which is where table completion is signalled, is
    therefore the same before and after the call: [fn] is never what runs
    on table completion. *)
Theorem setFinishTableCallBack_sets_finishTaskCallBack
  {D : Declarations} {C : Collaborators}
  (w : Writer.t) (fn : Task -> W -> Outcome unit * W) :
  Writer.finishTaskCallBack (Writer.setFinishTableCallBack w fn) = fn
  /\ Writer.finishTableCallBack (Writer.setFinishTableCallBack w fn)
     = Writer.finishTableCallBack w
  /\ Writer.setFinishTableCallBack w fn = Writer.setFinishTaskCallBack w fn
  /\ (forall (fuel : nat) (task : Task),
        Writer.handleTask fuel (Writer.setFinishTableCallBack w fn) task
        = Writer.handleTask fuel w task).
Proof.
  repeat split. intros fuel task.
  destruct task as [t|t|t|t|typeName]; try (destruct w; reflexivity).
  unfold Writer.handleTask, Writer.WriteTableData, Writer.attempt,
    Writer.writeTableData.
  rewrite writeTableDataLoop_setFinishTableCallBack.
  destruct w. reflexivity.
Qed.

(** X20. A writer that only ever goes through [NewWriter] and the two
    setters keeps the no-op as its table callback. *)
Lemma NewWriter_setters_table_callback
  {D : Declarations} {C : Collaborators}
  (id : Z) (ctx : Context) (config : Config.t) (conn : sqlConn)
  (externalStore : ExternalStorage) (fns : list (bool * (Task -> W -> Outcome unit * W))) :
  Writer.finishTableCallBack
    (fold_left
       (fun w '(table, fn) =>
          if table : bool then Writer.setFinishTableCallBack w fn
          else Writer.setFinishTaskCallBack w fn)
       fns (Writer.NewWriter id ctx config conn externalStore))
  = Writer.noopCallBack.
Proof.
  assert (H0 : Writer.finishTableCallBack
                 (Writer.NewWriter id ctx config conn externalStore)
               = Writer.noopCallBack).
  { unfold Writer.NewWriter. cbv zeta.
    destruct (String.eqb _ _); [reflexivity|].
    destruct (String.eqb _ _); reflexivity. }
  revert H0. generalize (Writer.NewWriter id ctx config conn externalStore).
  induction fns as [|[[|] fn] fns IH]; intros w Hw; simpl.
  - exact Hw.
  - apply IH. exact Hw.
  - apply IH. exact Hw.
Qed.

(** ** Unknown tasks *)

(** C10. A task that is none of the four known variants makes
    [handleTask] log a warning and return nil, without any call out of the
    package; so in [run] such a task is followed by the task-completion
    callback and by the rest of the loop, as a task handled with success. *)
Theorem handleTask_unknown_task {D : Declarations} {C : Collaborators}
  (fuel : nat) (w : Writer.t) (typeName : string) (s : State)
  (rest : list Writer.selected) :
  let task := OtherTask typeName in
  let w' := Writer.incReceivedTaskCount w in
  Writer.handleTask fuel w task s
  = Done None
      (mkState (world s)
         (trace s ++ [EvLog "warn" "unsupported writer task type"]))
  /\ Writer.run fuel w (Writer.Received task :: rest) s
     = (call (Writer.finishTaskCallBack w' task) ;;; Writer.run fuel w' rest)
         (mkState (world s)
            (trace s ++ [EvReceive task;
                         EvLog "warn" "unsupported writer task type";
                         EvFinishTaskCallBack task])).
Proof.
  split.
  - reflexivity.
  - cbn [Writer.run Writer.handleTask]. unfold_effects. cbn [world trace].
    now rewrite <- !app_assoc.
Qed.

(** ** Table completion *)

Section TableCompletion.
Context {D : Declarations} {C : Collaborators}.

Lemma tableCallBacks_app (a b : list Event) :
  tableCallBacks (a ++ b) = (tableCallBacks a + tableCallBacks b)%nat.
Proof. unfold tableCallBacks. now rewrite filter_app, length_app. Qed.

Lemma tableCallBacks_attempt (evs : list Event) :
  Forall attemptEvent evs -> tableCallBacks evs = O.
Proof.
  induction 1 as [|e evs He _ IH]; [reflexivity|].
  change (e :: evs) with ([e] ++ evs)%list.
  rewrite tableCallBacks_app, IH. now destruct e.
Qed.

Lemma WriteTableData_tableCallBacks fuel w meta ir currentChunk (s s' : State) :
  ended (Writer.WriteTableData fuel w meta ir currentChunk s) = Some s' ->
  tableCallBacks (trace s') = tableCallBacks (trace s).
Proof.
  intros H. destruct (WriteTableData_events _ _ _ _ _ _ _ H) as (evs & E & F).
  rewrite E, tableCallBacks_app, (tableCallBacks_attempt _ F). lia.
Qed.

End TableCompletion.

(** The writing of a chunk reads three fields of the writer in its loop;
    two writers that agree on them loop alike. *)
Lemma writeTableDataLoop_fields {D : Declarations} {C : Collaborators}
  (fuel : nat) (w1 w2 : Writer.t) :
  Writer.conf w1 = Writer.conf w2 ->
  Writer.extStorage w1 = Writer.extStorage w2 ->
  Writer.fileFmt w1 = Writer.fileFmt w2 ->
  Writer.writeTableDataLoop fuel w1 = Writer.writeTableDataLoop fuel w2.
Proof.
  intros Hconf Hstore Hfmt. induction fuel as [|fuel IH]; [reflexivity|].
  enough (H : (fun ctx meta ir namer fileName =>
                 Writer.writeTableDataLoop (S fuel) w1 ctx meta ir namer fileName)
              = (fun ctx meta ir namer fileName =>
                   Writer.writeTableDataLoop (S fuel) w2 ctx meta ir namer fileName))
    by exact H.
  cbn [Writer.writeTableDataLoop]. rewrite IH, Hconf, Hstore, Hfmt. reflexivity.
Qed.

(** The writing of a chunk does not depend on the table-completion
    callback of the writer. *)
Lemma WriteTableData_assignFinishTableCallBack
  {D : Declarations} {C : Collaborators}
  (fuel : nat) (w : Writer.t) (fn : Task -> W -> Outcome unit * W) :
  Writer.WriteTableData fuel (assignFinishTableCallBack w fn)
  = Writer.WriteTableData fuel w.
Proof.
  enough (H : (fun meta ir currentChunk =>
                 Writer.WriteTableData fuel (assignFinishTableCallBack w fn)
                   meta ir currentChunk)
              = (fun meta ir currentChunk =>
                   Writer.WriteTableData fuel w meta ir currentChunk))
    by exact H.
  unfold Writer.WriteTableData, Writer.attempt, Writer.writeTableData.
  rewrite (writeTableDataLoop_fields fuel (assignFinishTableCallBack w fn) w
             eq_refl eq_refl eq_refl).
  destruct w. reflexivity.
Qed.

(** C1. The handling of a [TableData] task calls the table-completion
    callback of the writer exactly once, on the task itself and as the
    last thing it does, when the chunk write has returned nil and
    [ChunkIndex + 1 == TotalChunks] (the comparison being the one of Go's
    [int]); in every other case, and so for every task with
    [ChunkIndex + 1 != TotalChunks], it does not call it at all. The
    chunk write is the same computation whatever the callback is, so it
    never calls it; the handling is the chunk write followed, in the one
    case, by one application of the callback to the world the chunk write
    left, and the result of the handling is what that application leaves.
    When the chunk write returns nil the handling does end. *)
Theorem handleTask_table_callback {D : Declarations} {C : Collaborators}
  (fuel : nat) (w : Writer.t) (t : TaskTableData.t) (s : State) :
  let task := PtrTaskTableData t in
  let write :=
    Writer.WriteTableData fuel w (TaskTableData.Meta t) (TaskTableData.Data t)
      (TaskTableData.ChunkIndex t) s in
  let last :=
    GoInt.eqb (GoInt.add (TaskTableData.ChunkIndex t) 1)
      (TaskTableData.TotalChunks t) in
  (returnedNil write = true ->
   exists s', ended (Writer.handleTask fuel w task s) = Some s')
  /\ (forall s', ended (Writer.handleTask fuel w task s) = Some s' ->
        tableCallBacks (trace s')
        = (tableCallBacks (trace s)
           + (if returnedNil write && last then 1 else 0))%nat
        /\ (returnedNil write && last = true ->
            exists tr, trace s' = (tr ++ [EvFinishTableCallBack task])%list
                       /\ tableCallBacks tr = tableCallBacks (trace s)))
  /\ (forall fn : Task -> W -> Outcome unit * W,
        Writer.WriteTableData fuel (assignFinishTableCallBack w fn)
          (TaskTableData.Meta t) (TaskTableData.Data t)
          (TaskTableData.ChunkIndex t) s
        = write)
  /\ Writer.handleTask fuel w task s
     = match write with
       | Done (Some e) s1 => Done (Some e) s1
       | Done None s1 =>
           if last
           then
             match Writer.finishTableCallBack w task (world s1) with
             | (Returns _, w1) =>
                 Done None
                   (mkState w1 (trace s1 ++ [EvFinishTableCallBack task]))
             | (Panics p, w1) =>
                 Panicking p
                   (mkState w1 (trace s1 ++ [EvFinishTableCallBack task]))
             end
           else Done None s1
       | Panicking v s1 => Panicking v s1
       | NoReturn => NoReturn
       end.
Proof.
  intros task write last.
  pose proof (WriteTableData_tableCallBacks fuel w (TaskTableData.Meta t)
                (TaskTableData.Data t) (TaskTableData.ChunkIndex t) s) as Hw.
  fold write in Hw.
  assert (Hh : Writer.handleTask fuel w task s
               = match write with
                 | Done (Some e) s1 => Done (Some e) s1
                 | Done None s1 =>
                     if last
                     then
                       match Writer.finishTableCallBack w task (world s1) with
                       | (Returns _, w1) =>
                           Done None
                             (mkState w1 (trace s1 ++ [EvFinishTableCallBack task]))
                       | (Panics p, w1) =>
                           Panicking p
                             (mkState w1 (trace s1 ++ [EvFinishTableCallBack task]))
                       end
                     else Done None s1
                 | Panicking v s1 => Panicking v s1
                 | NoReturn => NoReturn
                 end).
  { subst task. cbn [Writer.handleTask]. fold write last. unfold bind at 1.
    fold write. destruct write as [[e|] s1|v s1|]; try reflexivity.
    destruct last; [|reflexivity]. unfold_effects. cbn [world trace].
    destruct (Writer.finishTableCallBack w _ (world s1)) as [[[]|p] w1];
      reflexivity. }
  assert (Hfn : forall fn : Task -> W -> Outcome unit * W,
             Writer.WriteTableData fuel (assignFinishTableCallBack w fn)
               (TaskTableData.Meta t) (TaskTableData.Data t)
               (TaskTableData.ChunkIndex t) s
             = write).
  { intros fn. subst write.
    now rewrite WriteTableData_assignFinishTableCallBack. }
  enough (Hcount :
      (returnedNil write = true ->
       exists s', ended (Writer.handleTask fuel w task s) = Some s')
      /\ (forall s', ended (Writer.handleTask fuel w task s) = Some s' ->
            tableCallBacks (trace s')
            = (tableCallBacks (trace s)
               + (if returnedNil write && last then 1 else 0))%nat
            /\ (returnedNil write && last = true ->
                exists tr, trace s' = (tr ++ [EvFinishTableCallBack task])%list
                           /\ tableCallBacks tr = tableCallBacks (trace s))))
    by (destruct Hcount as [H1 H2]; repeat split;
        [exact H1 | apply H2; assumption | apply H2; assumption
        | exact Hfn | exact Hh]).
  clear Hfn. rewrite Hh. clear Hh.
  destruct write as [[e|] s1|v s1|]; cbn [returnedNil andb ended] in *.
  - split; [discriminate|]. intros s' [= <-]. split; [|discriminate].
    rewrite (Hw s1 eq_refl). lia.
  - specialize (Hw s1 eq_refl). destruct last.
    + destruct (Writer.finishTableCallBack w task (world s1)) as [[u|p] w1];
        cbn [ended]; (split; [intros _; eexists; reflexivity|]);
        intros s' [= <-]; cbn [trace];
        rewrite tableCallBacks_app, Hw;
        (split; [reflexivity | intros _; eexists; split; [reflexivity|exact Hw]]).
    + split; [intros _; eexists; reflexivity|].
      intros s' [= <-]. split; [|discriminate]. lia.
  - split; [discriminate|]. intros s' [= <-]. split; [|discriminate].
    rewrite (Hw s1 eq_refl). lia.
  - split; discriminate.
Qed.

(** The last chunk of a table, written with success in the sample world
    by the writer whose callback adds 100 to the world: the handling ends
    with the world at 100, the callback having run once. *)
Lemma handleTask_table_callback_witness :
  let task := Sample.dataTask 0%N 4 5 in
  (exists s',
     ended (Writer.handleTask 5 notifyingWriter task Sample.start) = Some s'
     /\ tableCallBacks (trace s') = 1%nat)
  /\ Writer.handleTask 5 notifyingWriter task Sample.start
     = Done None
         (@mkState Sample.declarations Sample.collaborators 100%nat
            [EvLog "debug" "trying to dump table chunk";
             EvStart 0%N (Some 1%N) (Returns None); EvClose 0%N;
             EvFinishTableCallBack task]).
Proof.
  intros task. split.
  - destruct (@handleTask_table_callback Sample.declarations Sample.collaborators
                5%nat notifyingWriter (TaskTableData.mk Sample.meta 0%N 4 5)
                Sample.start) as (Hends & Hcount & _).
    destruct (Hends eq_refl) as [s' Hs'].
    exists s'. split; [exact Hs'|].
    destruct (Hcount s' Hs') as [Hn _]. exact Hn.
  - etransitivity;
      [exact (proj2 (proj2 (proj2
                (@handleTask_table_callback Sample.declarations
                   Sample.collaborators 5%nat notifyingWriter
                   (TaskTableData.mk Sample.meta 0%N 4 5) Sample.start))))|].
    eval_lhs. reflexivity.
Defined.

(** Without overflow the comparison of the source is the one of the
    integers. *)
Lemma last_chunk_no_overflow (chunkIndex totalChunks : Z) :
  GoInt.in_range chunkIndex -> chunkIndex < GoInt.max_int ->
  GoInt.eqb (GoInt.add chunkIndex 1) totalChunks = true
  <-> chunkIndex + 1 = totalChunks.
Proof.
  intros Hr Hm. unfold GoInt.eqb, GoInt.add.
  rewrite wrap_in_range, Z.eqb_eq; [reflexivity|].
  unfold GoInt.in_range, GoInt.min_int, GoInt.max_int in *. lia.
Qed.

(** ** The task loop *)

Section TaskLoop.
Context {D : Declarations} {C : Collaborators}.

Lemma loopEvents_handling (evs : list Event) :
  Forall handlingEvent evs -> loopEvents evs = [].
Proof.
  induction 1 as [|e evs He _ IH]; [reflexivity|].
  unfold loopEvents in *. simpl. rewrite IH. now destruct e.
Qed.

Lemma loopEvents_app (a b : list Event) :
  loopEvents (a ++ b) = (loopEvents a ++ loopEvents b)%list.
Proof. apply filter_app. Qed.

(** One turn of the loop on a received task. *)
Lemma run_Received fuel w task rest s :
  let w1 := Writer.incReceivedTaskCount w in
  Writer.run fuel w (Writer.Received task :: rest) s
  = match Writer.handleTask fuel w1 task
            (mkState (world s) (trace s ++ [EvReceive task])) with
    | Done (Some e) s1 => Done (Some e, w1, rest) s1
    | Done None s1 =>
        match Writer.finishTaskCallBack w1 task (world s1) with
        | (Returns _, w2) =>
            Writer.run fuel w1 rest
              (mkState w2 (trace s1 ++ [EvFinishTaskCallBack task]))
        | (Panics p, w2) =>
            Panicking p (mkState w2 (trace s1 ++ [EvFinishTaskCallBack task]))
        end
    | Panicking v s1 => Panicking v s1
    | NoReturn => NoReturn
    end.
Proof.
  intros w1. cbn [Writer.run]. fold w1.
  unfold bind at 1. unfold emit at 1. unfold bind at 1.
  destruct (Writer.handleTask fuel w1 task _) as [[e|] s1|v s1|];
    try reflexivity.
  unfold bind, emit, call. cbn [world trace].
  destruct (Writer.finishTaskCallBack w1 task (world s1)) as [[[]|p] w2];
    reflexivity.
Qed.

(** Every return of [run], read off the choices of its [select]. *)
Lemma run_returns fuel (taskStream : list Writer.selected) :
  forall w s err w' rest s',
  Writer.run fuel w taskStream s = Done (err, w', rest) s' ->
  exists tasks evs,
    trace s' = (trace s ++ evs)%list
    /\ match err with
       | None =>
           (taskStream = (map Writer.Received tasks ++ Writer.CtxDone :: rest)%list
            \/ taskStream = (map Writer.Received tasks ++ Writer.Closed :: rest)%list)
           /\ loopEvents evs = handled tasks
       | Some _ =>
           exists task,
             taskStream = (map Writer.Received tasks ++ Writer.Received task :: rest)%list
             /\ loopEvents evs = (handled tasks ++ [EvReceive task])%list
       end.
Proof.
  induction taskStream as [|[|task|] stream IH]; intros w s err w' rest s' H.
  - discriminate.
  - cbn [Writer.run] in H. unfold_effects. injection H as <- <- <- <-.
    exists [], [EvLog "warn" "context has been done, the writer will exit"].
    cbn [trace]. split; [reflexivity|]. split; [now left | reflexivity].
  - rewrite run_Received in H. cbv zeta in H.
    destruct (Writer.handleTask fuel _ task _) as [[e|] s1|v s1|] eqn:Eh;
      try discriminate.
    + injection H as <- <- <- <-.
      destruct (handleTask_events _ _ _ _ s1 ltac:(now rewrite Eh))
        as (hevs & Et & Fh).
      cbn [trace] in Et.
      exists [], (EvReceive task :: hevs). split.
      * now rewrite Et, <- app_assoc.
      * exists task. split; [reflexivity|].
        change (EvReceive task :: hevs) with ([EvReceive task] ++ hevs)%list.
        now rewrite loopEvents_app, (loopEvents_handling _ Fh).
    + destruct (handleTask_events _ _ _ _ s1 ltac:(now rewrite Eh))
        as (hevs & Et & Fh).
      cbn [trace] in Et.
      destruct (Writer.finishTaskCallBack _ task (world s1)) as [[u|p] w2];
        try discriminate.
      destruct (IH _ _ _ _ _ _ H) as (tasks & evs & Et' & Hrest).
      cbn [trace] in Et'.
      exists (task :: tasks),
        ([EvReceive task] ++ hevs ++ [EvFinishTaskCallBack task] ++ evs)%list.
      split.
      * rewrite Et', Et, <- !app_assoc. reflexivity.
      * assert (Hl : loopEvents
                       ([EvReceive task] ++ hevs ++ [EvFinishTaskCallBack task] ++ evs)
                     = (EvReceive task :: EvFinishTaskCallBack task :: loopEvents evs)).
        { rewrite !loopEvents_app, (loopEvents_handling _ Fh). reflexivity. }
        rewrite Hl. destruct err as [e|].
        -- destruct Hrest as (last & -> & ->). exists last.
           split; reflexivity.
        -- destruct Hrest as ([-> | ->] & ->); split; auto.
  - cbn [Writer.run] in H. unfold_effects. injection H as <- <- <- <-.
    exists [], []. split; [now rewrite app_nil_r|].
    split; [now right | reflexivity].
Qed.

End TaskLoop.

(** C9. [run] returns nil at once when its [select] takes the
    cancellation case, and when it finds the task channel closed; when
    [handleTask] returns an error for a task, [run] returns that error at
    once, leaving every later choice untouched; after a task handled with
    success, of whatever variant, the task-completion callback is invoked
    with that task, and only then does the loop go on. Whenever [run]
    returns, the tasks it received form a prefix of the channel, each one
    but the failing one is followed by its callback before the next is
    received, and the return is nil exactly when the loop stopped on
    cancellation or on the closed channel. *)
Theorem run_task_loop {D : Declarations} {C : Collaborators}
  (fuel : nat) (w : Writer.t) (s : State) (rest : list Writer.selected)
  (task : Task) :
  let w1 := Writer.incReceivedTaskCount w in
  let s0 := mkState (world s) (trace s ++ [EvReceive task]) in
  Writer.run fuel w (Writer.CtxDone :: rest) s
  = Done (None, w, rest)
      (mkState (world s)
         (trace s ++ [EvLog "warn" "context has been done, the writer will exit"]))
  /\ Writer.run fuel w (Writer.Closed :: rest) s = Done (None, w, rest) s
  /\ (forall e s1,
        Writer.handleTask fuel w1 task s0 = Done (Some e) s1 ->
        Writer.run fuel w (Writer.Received task :: rest) s
        = Done (Some e, w1, rest) s1)
  /\ (forall s1,
        Writer.handleTask fuel w1 task s0 = Done None s1 ->
        Writer.run fuel w (Writer.Received task :: rest) s
        = (emit (EvFinishTaskCallBack task) ;;;
           call (Writer.finishTaskCallBack w1 task) ;;;
           Writer.run fuel w1 rest) s1)
  /\ (forall taskStream err w' rest' s',
        Writer.run fuel w taskStream s = Done (err, w', rest') s' ->
        exists tasks evs,
          trace s' = (trace s ++ evs)%list
          /\ match err with
             | None =>
                 (taskStream
                  = (map Writer.Received tasks ++ Writer.CtxDone :: rest')%list
                  \/ taskStream
                     = (map Writer.Received tasks ++ Writer.Closed :: rest')%list)
                 /\ loopEvents evs = handled tasks
             | Some _ =>
                 exists failing,
                   taskStream
                   = (map Writer.Received tasks
                      ++ Writer.Received failing :: rest')%list
                   /\ loopEvents evs = (handled tasks ++ [EvReceive failing])%list
             end).
Proof.
  intros w1 s0. repeat split.
  - intros e s1 H. rewrite run_Received. cbv zeta. fold w1 s0. now rewrite H.
  - intros s1 H. rewrite run_Received. cbv zeta. fold w1 s0. rewrite H.
    unfold bind, emit, call. cbn [world trace].
    destruct (Writer.finishTaskCallBack w1 task (world s1)) as [[[]|p] w2];
      reflexivity.
  - intros taskStream err w' rest' s'. apply run_returns.
Qed.

(** A task whose rows fail to encode stops the loop; the two later
    choices are left. *)
Lemma run_task_loop_witness :
  let failing := Sample.dataTask 3%N 0 1 in
  let other := Sample.dataTask 0%N 0 1 in
  exists s1,
    Writer.run 5 Sample.writer
      [Writer.Received failing; Writer.Received other; Writer.CtxDone]
      Sample.start
    = Done (Some Sample.encodeFailed,
            Writer.incReceivedTaskCount Sample.writer,
            [Writer.Received other; Writer.CtxDone]) s1.
Proof.
  intros failing other.
  assert (Hh : exists s1,
             Writer.handleTask 5 (Writer.incReceivedTaskCount Sample.writer) failing
               (mkState (world Sample.start)
                  (trace Sample.start ++ [EvReceive failing]))
             = Done (Some Sample.encodeFailed) s1)
    by (eexists; eval_lhs; reflexivity).
  destruct Hh as [s1 Hh]. exists s1.
  exact (proj1 (proj2 (proj2
           (@run_task_loop Sample.declarations Sample.collaborators
              5%nat Sample.writer Sample.start
              [Writer.Received other; Writer.CtxDone] failing)))
           Sample.encodeFailed s1 Hh).
Defined.

Example sample_run :
  let tasks :=
    [PtrTaskDatabaseMeta (TaskDatabaseMeta.mk "db" "CREATE DATABASE db");
     OtherTask "*export.TaskFuture";
     Sample.dataTask 0%N 0 1] in
  let left := [Writer.Received (Sample.dataTask 0%N 0 1)] in
  let r :=
    Writer.run 5 Sample.writer
      (map Writer.Received tasks ++ Writer.Closed :: left) Sample.start in
  option_map (fun '(err, w', rest) => (err, Writer.receivedTaskCount w', rest))
    (returned r)
  = Some (None, 3, left)
  /\ option_map (fun s' => loopEvents (trace s')) (ended r) = Some (handled tasks).
Proof. split; eval_lhs; reflexivity. Qed.

(** ** Start and Close in one attempt *)

(** Choosing which of the four shapes the trace of an attempt has. *)
Ltac attempt_shape :=
  solve
    [ left; reflexivity
    | right; left; do 2 eexists; reflexivity
    | right; right; left; do 2 eexists; reflexivity
    | right; right; right; eexists; reflexivity ].

Section AttemptTrace.
Context {D : Declarations} {C : Collaborators}.

Lemma writeTableData_trace fuel w ctx meta ir curChkIdx (s : State) :
  match Writer.writeTableData fuel w ctx meta ir curChkIdx s with
  | Done _ s' => trace s' = trace s
  | Panicking _ s' => trace s' = trace s
  | NoReturn => True
  end.
Proof.
  pose proof (fun s' => emitsOnly_nothing _ s s'
                (writeTableData_silent fuel w ctx meta ir curChkIdx)) as H.
  destruct (Writer.writeTableData _ _ _ _ _ _ s); auto.
Qed.

End AttemptTrace.

(** C7 (amended). An attempt of [WriteTableData] that ends, by a return
  or by a panic, has one of four traces after its prologue (the debug
  log and, from the second attempt on, the rebuilding of the
  connection): [Start] was not invoked; [Start] returned an error and
  [Close] was not invoked; [Start] panicked and [Close] was not
  invoked; [Start] returned nil and [Close] was invoked exactly once,
  after it and before the attempt ended, whether the writing of the
  chunk returned nil, returned an error or panicked. And the calls
  themselves: from the state in which [Start] is called, an attempt is
  that call of [Start] and then, when it returned nil, the writing of the
  chunk followed on each of its ways out, return and panic, by one call
  of [Close] on the world the writing left, whose result is dropped and
  whose panic replaces the one in flight; when [Start] returned an
  error the error is counted and returned on the world [Start] left,
  and when it panicked the attempt panics there: no call of [Close]. *)
Theorem attempt_Start_Close {D : Declarations} {C : Collaborators}
(fuel : nat) (w : Writer.t) (meta : TableMeta.t) (ir : TableDataIR)
(currentChunk : Z) (v : Writer.attemptVars) (s : State) :
  (forall s' : State,
     ended (Writer.attempt fuel w meta ir currentChunk v s) = Some s' ->
     exists pre,
       Forall prologueEvent pre
       /\ (trace s' = (trace s ++ pre)%list
           \/ (exists conn e,
                 trace s' = (trace s ++ pre ++ [EvStart ir conn (Returns (Some e))])%list)
           \/ (exists conn p,
                 trace s' = (trace s ++ pre ++ [EvStart ir conn (Panics p)])%list)
           \/ (exists conn,
                 trace s' = (trace s ++ pre
                             ++ [EvStart ir conn (Returns None); EvClose ir])%list)))
  /\ (forall (conn : sqlConn) (s0 : State) (started : Outcome error) (w1 : W),
        reachesStart w v s conn s0 ->
        IR_Start ir (Writer.ctx w) conn (world s0) = (started, w1) ->
        let s1 := mkState w1 (trace s0 ++ [EvStart ir conn started]) in
        let vars err :=
          Writer.mkVars (GoInt.add (Writer.retryTime v) 1) err conn in
        Writer.attempt fuel w meta ir currentChunk v s
        = match started with
          | Panics p => Panicking p s1
          | Returns (Some e) =>
              (Writer.countError w (Some e) ;;; ret (Some e, vars (Some e))) s1
          | Returns None =>
              match Writer.writeTableData fuel w (Writer.ctx w) meta ir
                      currentChunk s1 with
              | Done err s2 =>
                  let '(closed, w3) := IR_Close ir (world s2) in
                  let s3 := mkState w3 (trace s2 ++ [EvClose ir]) in
                  match closed with
                  | Returns _ =>
                      (Writer.countError w err ;;; ret (err, vars err)) s3
                  | Panics p => (Writer.countError w err ;;; panic p) s3
                  end
              | Panicking p s2 =>
                  let '(closed, w3) := IR_Close ir (world s2) in
                  let s3 := mkState w3 (trace s2 ++ [EvClose ir]) in
                  match closed with
                  | Returns _ => Panicking p s3
                  | Panics p' => Panicking p' s3
                  end
              | NoReturn => NoReturn
              end
          end).
Proof.
  split.
  - intros s'.
    unfold Writer.attempt, Writer.closeIR, Writer.countError. cbv zeta.
    unfold_effects. cbn [world trace].
    repeat
      (match goal with
       | |- context [Writer.writeTableData ?f ?w0 ?c ?m ?i ?k ?st] =>
           let H := fresh "Hsilent" in
           pose proof (writeTableData_trace f w0 c m i k st) as H;
           destruct (Writer.writeTableData f w0 c m i k st) as [[?|] ?|? ?|]
       | |- context [match ?x with (_, _) => _ end] =>
           destruct x as [[[? [?|]]|?] ?]
       | |- context [match ?x with (_, _) => _ end] =>
           destruct x as [[[?|]|?] ?]
       | |- context [match ?x with (_, _) => _ end] =>
           destruct x as [[?|?] ?]
       | |- context [match ?x with Some _ => _ | None => _ end] => destruct x
       | |- context [if ?b then _ else _] => destruct b
       end; cbn [world trace ended]).
    all: intros H; try discriminate; injection H as <-; cbn [trace];
      repeat match goal with
             | Hs : trace _ = _ |- _ => cbn [trace] in Hs; rewrite Hs; clear Hs
             end;
      rewrite <- ?app_assoc.
    all:
      solve
        [ exists [EvLog "debug" "trying to dump table chunk"];
          (split; [repeat constructor|]); attempt_shape
        | exists [EvLog "debug" "trying to dump table chunk";
                  EvRebuildConn (Writer.connVar v)];
          (split; [repeat constructor|]); attempt_shape ].
  - intros conn s0 started w1 Hreach Hstart.
    unfold reachesStart in Hreach. cbv zeta in Hreach.
    unfold Writer.attempt, Writer.closeIR, Writer.countError. cbv zeta.
    unfold_effects. cbn [world trace].
    destruct (1 <? GoInt.add (Writer.retryTime v) 1).
    + destruct Hreach as (fn & w0 & Hfn & Hcall & ->).
      rewrite Hfn. cbn [world trace]. rewrite Hcall. cbn [world trace] in *.
      rewrite Hstart.
      destruct started as [[e|]|p]; cbn [world trace]; try reflexivity.
      destruct (Writer.writeTableData _ _ _ _ _ _ _) as [[e|] s2|p s2|];
        try reflexivity;
        destruct (IR_Close ir (world s2)) as [[closed|p'] w3];
        cbn [world trace]; try reflexivity;
        destruct (errorCount_Inc _ _) as [[[]|p''] w4]; reflexivity.
    + destruct Hreach as [-> ->]. cbn [world trace] in *.
      rewrite Hstart.
      destruct started as [[e|]|p]; cbn [world trace]; try reflexivity.
      destruct (Writer.writeTableData _ _ _ _ _ _ _) as [[e|] s2|p s2|];
        try reflexivity;
        destruct (IR_Close ir (world s2)) as [[closed|p'] w3];
        cbn [world trace]; try reflexivity;
        destruct (errorCount_Inc _ _) as [[[]|p''] w4]; reflexivity.
Qed.

(** A first attempt, in the counting sample world, on a row source that
    starts: [Start], then [Close], each called once. *)
Lemma attempt_Start_Close_witness :
  let w := countingWriter Sample.collaborators Sample.writer in
  let events :=
    [EvLog "debug" "trying to dump table chunk";
     EvStart 0%N (Some 1%N) (Returns None); EvClose 0%N] in
  (exists pre,
     Forall prologueEvent pre
     /\ (events = ([] ++ pre)%list
         \/ (exists conn e,
               events = ([] ++ pre ++ [EvStart 0%N conn (Returns (Some e))])%list)
         \/ (exists conn p,
               events = ([] ++ pre ++ [EvStart 0%N conn (Panics p)])%list)
         \/ (exists conn,
               events
               = ([] ++ pre ++ [EvStart 0%N conn (Returns None); EvClose 0%N])%list)))
  /\ Writer.attempt 5 w Sample.meta 0%N 0 (Writer.mkVars 0 None (Some 1%N))
       countingStart
     = Done (None, Writer.mkVars 1 None (Some 1%N))
         (@mkState Sample.declarations (Counting Sample.collaborators)
            (O, mkCalls 1 1) events).
Proof.
  intros w events. split.
  - apply (proj1 (@attempt_Start_Close Sample.declarations
                    (Counting Sample.collaborators)
                    5%nat w Sample.meta 0%N 0
                    (Writer.mkVars 0 None (Some 1%N)) countingStart)
             (@mkState Sample.declarations (Counting Sample.collaborators)
                (O, mkCalls 1 1) events)).
    eval_lhs. reflexivity.
  - etransitivity;
      [exact (proj2 (@attempt_Start_Close Sample.declarations
                       (Counting Sample.collaborators)
                       5%nat w Sample.meta 0%N 0
                       (Writer.mkVars 0 None (Some 1%N)) countingStart)
                (Some 1%N)
                (@mkState Sample.declarations (Counting Sample.collaborators)
                   (O, mkCalls 0 0)
                   [EvLog "debug" "trying to dump table chunk"])
                (Returns None) (O, mkCalls 1 0)
                (conj eq_refl eq_refl) eq_refl)|].
    eval_lhs. reflexivity.
Defined.

(** C7, as stated, fails on the path where [Start] returns an error: the
    attempt returns that error, [Start] has been invoked and [Close] has
    not. *)
Lemma attempt_Start_error_no_Close :
  let r :=
    Writer.attempt 5 Sample.writer Sample.meta 1%N 0
      (Writer.mkVars 0 None (Some 1%N)) Sample.start in
  option_map fst (returned r) = Some (Some Sample.startFailed)
  /\ option_map trace (ended r)
     = Some [EvLog "debug" "trying to dump table chunk";
             EvStart 1%N (Some 1%N) (Returns (Some Sample.startFailed))]
  /\ In (EvStart 1%N (Some 1%N) (Returns (Some Sample.startFailed)))
        [EvLog "debug" "trying to dump table chunk";
         EvStart 1%N (Some 1%N) (Returns (Some Sample.startFailed))]
  /\ ~ In (EvClose 1%N)
         [EvLog "debug" "trying to dump table chunk";
          EvStart 1%N (Some 1%N) (Returns (Some Sample.startFailed))].
Proof.
  cbv zeta. split; [eval_lhs; reflexivity|].
  split; [eval_lhs; reflexivity|].
  split; [right; left; reflexivity|].
  intros [H|[H|[]]]; discriminate.
Qed.

(** The same attempt on a row source whose [Start] panics, and on one
    whose rows fail to encode. *)
Example attempt_Start_panics :
  option_map trace
    (ended (Writer.attempt 5 Sample.writer Sample.meta 2%N 0
              (Writer.mkVars 0 None (Some 1%N)) Sample.start))
  = Some [EvLog "debug" "trying to dump table chunk";
          EvStart 2%N (Some 1%N) (Panics "start panicked")].
Proof. eval_lhs. reflexivity. Qed.

Example attempt_encode_fails :
  let r :=
    Writer.attempt 5 Sample.writer Sample.meta 3%N 0
      (Writer.mkVars 1 (Some Sample.encodeFailed) (Some 1%N)) Sample.start in
  option_map fst (returned r) = Some (Some Sample.encodeFailed)
  /\ option_map trace (ended r)
     = Some [EvLog "debug" "trying to dump table chunk";
             EvRebuildConn (Some 1%N);
             EvStart 3%N (Some 2%N) (Returns None); EvClose 3%N].
Proof. cbv zeta. split; eval_lhs; reflexivity. Qed.

(** In the counting sample world, the attempt on the row source that
    fails to start returns with no call of [Close] counted. *)
Example attempt_Start_error_counts :
  option_map calls
    (ended (Writer.attempt 5 (countingWriter Sample.collaborators Sample.writer)
              Sample.meta 1%N 0 (Writer.mkVars 0 None (Some 1%N)) countingStart))
  = Some (mkCalls 0 0).
Proof. eval_lhs. reflexivity. Qed.

(** * Further properties *)

(** ** Which indexes tell files apart *)

Section IndexSeparation.

Lemma append_split_length (a a' b b' : string) :
  String.length a = String.length a' -> a ++ b = a' ++ b' -> a = a' /\ b = b'.
Proof.
  revert a'. induction a as [|x a IH]; intros [|y a'] Hl H; simpl in *;
    try discriminate.
  - auto.
  - injection H as -> H. injection Hl as Hl.
    destruct (IH a' Hl H) as [-> ->]. auto.
Qed.

Lemma fmtInteger_nine_length (c : Z) :
  0 <= c < 10 ^ 9 ->
  String.length (fmt.fmtInteger true (Some 9%nat) c) = 9%nat.
Proof.
  intros Hc. apply fmtInteger_zero_length.
  destruct (Z.ltb_spec c 0); [lia|].
  rewrite Nat.add_0_r. apply nb_digits_to_uint; [lia|].
  change (10 ^ N.of_nat 9)%N with 1000000000%N.
  change (10 ^ 9) with 1000000000 in Hc. lia.
Qed.

End IndexSeparation.

(** X1. For chunk indexes from 0 up to 10^9 - 1, two namers of one table
    built with the same switches have the same index text exactly when
    they agree on what the format shows: on the chunk index and the file
    index with both limits, on the file index with the size limit only,
    on the chunk index without the size limit. *)
Theorem Index_tells_apart (meta : TableMeta.t) (rows fileSize : bool)
  (c c' f f' : Z) :
  0 <= c < 10 ^ 9 -> 0 <= c' < 10 ^ 9 ->
  outputFileNamer.Index
    (outputFileNamer.setFileIndex (newOutputFileNamer meta c rows fileSize) f)
  = outputFileNamer.Index
      (outputFileNamer.setFileIndex (newOutputFileNamer meta c' rows fileSize) f')
  <-> match rows, fileSize with
      | true, true => c = c' /\ f = f'
      | false, true => f = f'
      | _, false => c = c'
      end.
Proof.
  intros Hc Hc'.
  assert (Some_inj : forall a b : string, Some a = Some b -> a = b)
    by (intros a b H; congruence).
  unfold newOutputFileNamer, outputFileNamer.setFileIndex.
  cbn [outputFileNamer.ChunkIndex outputFileNamer.DB outputFileNamer.Table
       outputFileNamer.format].
  destruct rows, fileSize; cbn [andb];
    rewrite ?Index_both, ?Index_file, ?Index_chunk; split.
  - intros H. apply Some_inj in H.
    apply append_split_length in H.
    + destruct H as [H1 H2].
      apply fmtInteger_zero_inj in H1, H2. auto.
    + now rewrite !fmtInteger_nine_length.
  - now intros [-> ->].
  - intros H. apply Some_inj in H. now apply fmtInteger_zero_inj in H.
  - now intros ->.
  - intros H. apply Some_inj in H. now apply fmtInteger_zero_inj in H.
  - now intros ->.
  - intros H. apply Some_inj in H. now apply fmtInteger_zero_inj in H.
  - now intros ->.
Qed.

(** Chunk 12 and chunk 13 of a table, both limits active. *)
Lemma Index_tells_apart_witness :
  outputFileNamer.Index
    (outputFileNamer.setFileIndex (newOutputFileNamer Sample.meta 12 true true) 3)
  <> outputFileNamer.Index
       (outputFileNamer.setFileIndex (newOutputFileNamer Sample.meta 13 true true) 3).
Proof.
  intros H.
  apply (Index_tells_apart Sample.meta true true 12 13 3 3) in H.
  - destruct H as [H _]. discriminate H.
  - simpl; lia.
  - simpl; lia.
Defined.

(** Beyond nine digits of chunk index the two parts of the index run into
    each other. *)
Example Index_collision :
  outputFileNamer.Index
    (outputFileNamer.setFileIndex
       (newOutputFileNamer Sample.meta 1234567891 true true) 2345)
  = outputFileNamer.Index
      (outputFileNamer.setFileIndex
         (newOutputFileNamer Sample.meta 123456789 true true) 12345).
Proof. reflexivity. Qed.

(** X2. When the template fails, [NextName] still returns a name, the bare
    extension after a dot, together with the template's error, and still
    advances the file index. *)
Theorem NextName_render_error {T : outputFileNamer.Templates}
  (namer : outputFileNamer.t) (tmpl : Template) (fileType bf : string)
  (e : Error) :
  outputFileNamer.ExecuteTemplate tmpl outputFileNamer.outputFileTemplateData namer
  = (bf, Some e) ->
  outputFileNamer.NextName namer tmpl fileType
  = (("." ++ fileType, Some e),
     outputFileNamer.setFileIndex namer
       (GoInt.add (outputFileNamer.FileIndex namer) 1)).
Proof.
  intros H. unfold outputFileNamer.NextName, outputFileNamer.render.
  now rewrite H.
Qed.

(** The third file of chunk 4, with templates that lack the data
    sub-template. *)
Lemma NextName_render_error_witness :
  @outputFileNamer.NextName templatesWithoutData
    (outputFileNamer.setFileIndex (newOutputFileNamer Sample.meta 4 true true) 2)
    0%N "sql"
  = ((".sql", Some (ErrorString "template: no template data")),
     outputFileNamer.setFileIndex (newOutputFileNamer Sample.meta 4 true true) 3).
Proof.
  apply (@NextName_render_error templatesWithoutData
           (outputFileNamer.setFileIndex
              (newOutputFileNamer Sample.meta 4 true true) 2)
           0%N "sql" "").
  reflexivity.
Defined.

(** ** The life of a consistency controller *)

(** X3. [TearDown] of a controller that holds a connection unlocks the
    tables on it and then closes it, in that order; it returns what
    [UnlockTables] returned, whatever [Close] returns, and leaves the
    controller without connection. When [UnlockTables] panics the
    connection is closed all the same before the panic goes on. *)
Theorem TearDown_unlocks_then_closes {D : Declarations} {C : Collaborators}
  (c : ConsistencyController) (ctx : Context) (s : State) (h : ConnHandle)
  (unlocked : Outcome error) (closed : error) (w1 w2 : W) :
  heldConn c = Some h ->
  UnlockTables ctx (Some h) (world s) = (unlocked, w1) ->
  Conn_Close h w1 = (Returns closed, w2) ->
  TearDown c ctx s
  = match unlocked with
    | Returns err => Done (err, dropConn c) (mkState w2 (trace s))
    | Panics v => Panicking v (mkState w2 (trace s))
    end.
Proof.
  intros Hc Hu Hx.
  destruct c as [c|c|c]; cbn [heldConn] in Hc; [discriminate| |];
    cbn [TearDown dropConn];
    unfold ConsistencyFlushTableWithReadLock.TearDown,
      ConsistencyLockDumpingTables.TearDown;
    rewrite Hc; unfold_effects; rewrite Hu; destruct unlocked as [err|v];
    cbn [world trace]; rewrite Hx; reflexivity.
Qed.

(** The lock controller of the sample world, torn down. *)
Lemma TearDown_unlocks_then_closes_witness :
  @TearDown Sample.declarations Sample.collaborators
    (PtrConsistencyLockDumpingTables
       (ConsistencyLockDumpingTables.mk (Some 1%N) 0%N)) 0%N Sample.start
  = Done (None,
          PtrConsistencyLockDumpingTables
            (ConsistencyLockDumpingTables.mk None 0%N))
         Sample.start.
Proof.
  apply (@TearDown_unlocks_then_closes Sample.declarations Sample.collaborators
           (PtrConsistencyLockDumpingTables
              (ConsistencyLockDumpingTables.mk (Some 1%N) 0%N))
           0%N Sample.start 1%N (Returns None) None O O);
    reflexivity.
Defined.

(** X4. Once [TearDown] has returned, on any controller, another
    [TearDown] returns nil and does nothing, so the connection is unlocked
    and closed at most once; and [PingContext] returns nil on a
    [ConsistencyNone] and the closed-connection error on the two
    others. *)
Theorem after_TearDown {D : Declarations} {C : Collaborators}
  (c c' : ConsistencyController) (ctx : Context) (s s' : State) (err : error) :
  TearDown c ctx s = Done (err, c') s' ->
  forall (ctx' : Context) (s'' : State),
    TearDown c' ctx' s'' = Done (None, c') s''
    /\ PingContext c' ctx' s''
       = Done (match c with
               | PtrConsistencyNone _ => None
               | _ => Some (ErrorString
                              "consistency connection has already been closed")
               end) s''.
Proof.
  intros H ctx' s''.
  destruct c as [c|c|c]; cbn [TearDown] in H; unfold bind in H.
  - cbn in H. injection H as _ <- _. split; reflexivity.
  - destruct (ConsistencyFlushTableWithReadLock.TearDown c ctx s)
      as [[e c1] s1|v s1|] eqn:E; try discriminate.
    apply Flush_TearDown_conn in E.
    unfold ret in H. injection H as _ <- _.
    cbn [TearDown PingContext].
    unfold ConsistencyFlushTableWithReadLock.TearDown,
      ConsistencyFlushTableWithReadLock.PingContext.
    rewrite E. split; reflexivity.
  - destruct (ConsistencyLockDumpingTables.TearDown c ctx s)
      as [[e c1] s1|v s1|] eqn:E; try discriminate.
    apply Lock_TearDown_conn in E.
    unfold ret in H. injection H as _ <- _.
    cbn [TearDown PingContext].
    unfold ConsistencyLockDumpingTables.TearDown,
      ConsistencyLockDumpingTables.PingContext.
    rewrite E. split; reflexivity.
Qed.

(** The flush controller of the sample world, torn down twice. *)
Lemma after_TearDown_witness :
  let c' := PtrConsistencyFlushTableWithReadLock
              (@ConsistencyFlushTableWithReadLock.mk Sample.declarations
                 1%nat None) in
  @TearDown Sample.declarations Sample.collaborators c' 0%N Sample.start
  = Done (None, c') Sample.start.
Proof.
  intros c'.
  apply (@after_TearDown Sample.declarations Sample.collaborators
           (PtrConsistencyFlushTableWithReadLock
              (@ConsistencyFlushTableWithReadLock.mk Sample.declarations
                 1%nat (Some 1%N)))
           c' 0%N Sample.start Sample.start None).
  reflexivity.
Defined.

(** X5. With the option "none", and with "snapshot" on TiDB, the
    controller built is a [ConsistencyNone] that does not hold the
    connection the constructor has just obtained: the constructor makes no
    other call, and [Setup], [PingContext] and [TearDown] of the result
    return nil without any call out of the package, so that connection is
    never used and never closed. *)
Theorem NewConsistencyController_none_drops_connection
  {D : Declarations} {C : Collaborators}
  (ctx : Context) (conf : Config.t) (session : sqlDB) (s : State)
  (conn : sqlConn) (w' : W) :
  Config.Consistency conf = consistencyTypeNone
  \/ (Config.Consistency conf = consistencyTypeSnapshot
      /\ ServerInfo.ServerType (Config.ServerInfo conf) = ServerTypeTiDB) ->
  DB_Conn session ctx (world s) = (Returns (conn, None), w') ->
  let controller := PtrConsistencyNone ConsistencyNone.mk in
  NewConsistencyController ctx conf session s
  = Done (Some controller, None) (mkState w' (trace s))
  /\ forall (fuel : nat) (ctx' : Context) (s' : State),
       Setup fuel controller ctx' s' = Done None s'
       /\ PingContext controller ctx' s' = Done None s'
       /\ TearDown controller ctx' s' = Done (None, controller) s'.
Proof.
  intros Hconf Hconn controller. split.
  - unfold NewConsistencyController. unfold_effects. rewrite Hconn.
    destruct Hconf as [-> | [-> Hserver]].
    + reflexivity.
    + cbn [String.eqb consistencyTypeSnapshot consistencyTypeFlush
                        consistencyTypeLock Ascii.eqb Bool.eqb andb].
      apply ServerType_eqb_eq in Hserver. rewrite Hserver. reflexivity.
  - intros fuel ctx' s'. repeat split.
Qed.

(** "snapshot" on the TiDB server of the sample world. *)
Lemma NewConsistencyController_none_drops_connection_witness :
  @NewConsistencyController Sample.declarations Sample.collaborators
    0%N (Sample.config "snapshot" 3%nat 0 0) 0%N Sample.start
  = Done (Some (PtrConsistencyNone ConsistencyNone.mk), None) Sample.start.
Proof.
  apply (@NewConsistencyController_none_drops_connection
           Sample.declarations Sample.collaborators
           0%N (Sample.config "snapshot" 3%nat 0 0) 0%N Sample.start
           (Some 1%N) O).
  - right. split; reflexivity.
  - reflexivity.
Defined.

(** X6. The option "flush" is accepted for every server type: the
    constructor returns a [ConsistencyFlushTableWithReadLock] that holds
    the connection obtained and the server type of the configuration.
    For TiDB the refusal comes only from [Setup] of that controller. *)
Theorem NewConsistencyController_flush {D : Declarations} {C : Collaborators}
  (ctx : Context) (conf : Config.t) (session : sqlDB) (s : State)
  (conn : sqlConn) (w' : W) :
  Config.Consistency conf = consistencyTypeFlush ->
  DB_Conn session ctx (world s) = (Returns (conn, None), w') ->
  let controller :=
    PtrConsistencyFlushTableWithReadLock
      (ConsistencyFlushTableWithReadLock.mk
         (ServerInfo.ServerType (Config.ServerInfo conf)) conn) in
  NewConsistencyController ctx conf session s
  = Done (Some controller, None) (mkState w' (trace s))
  /\ (ServerInfo.ServerType (Config.ServerInfo conf) = ServerTypeTiDB ->
      forall (fuel : nat) (ctx' : Context) (s' : State),
        Setup fuel controller ctx' s'
        = Done (Some (ErrorString
             "'flush table with read lock' cannot be used to ensure the consistency in TiDB"))
               s').
Proof.
  intros Hconf Hconn controller. split.
  - unfold NewConsistencyController. unfold_effects. rewrite Hconn, Hconf.
    reflexivity.
  - intros Hserver fuel ctx' s'. subst controller. cbn [Setup].
    unfold ConsistencyFlushTableWithReadLock.Setup.
    cbn [ConsistencyFlushTableWithReadLock.serverType].
    apply ServerType_eqb_eq in Hserver. rewrite Hserver. reflexivity.
Qed.

(** "flush" on the TiDB server of the sample world: built, then refused. *)
Lemma NewConsistencyController_flush_witness :
  let controller :=
    PtrConsistencyFlushTableWithReadLock
      (@ConsistencyFlushTableWithReadLock.mk Sample.declarations
         3%nat (Some 1%N)) in
  @NewConsistencyController Sample.declarations Sample.collaborators
    0%N (Sample.config "flush" 3%nat 0 0) 0%N Sample.start
  = Done (Some controller, None) Sample.start
  /\ @Setup Sample.declarations Sample.collaborators 1%nat controller 0%N
       Sample.start
     = Done (Some (ErrorString
          "'flush table with read lock' cannot be used to ensure the consistency in TiDB"))
            Sample.start.
Proof.
  intros controller.
  destruct (@NewConsistencyController_flush
              Sample.declarations Sample.collaborators
              0%N (Sample.config "flush" 3%nat 0 0) 0%N Sample.start
              (Some 1%N) O eq_refl eq_refl) as [Hnew Hsetup].
  split; [exact Hnew|]. apply Hsetup. reflexivity.
Defined.

(** X7. Whenever the session hands out a connection or an error,
    [NewConsistencyController] returns, after that single call, either a
    controller and a nil error or no controller and an error: never both,
    never neither. *)
Theorem NewConsistencyController_controller_or_error
  {D : Declarations} {C : Collaborators}
  (ctx : Context) (conf : Config.t) (session : sqlDB) (s : State)
  (r : sqlConn * error) (w' : W) :
  DB_Conn session ctx (world s) = (Returns r, w') ->
  exists controller err,
    NewConsistencyController ctx conf session s
    = Done (controller, err) (mkState w' (trace s))
    /\ (controller = None <-> err <> None).
Proof.
  intros Hconn. unfold NewConsistencyController. unfold_effects.
  rewrite Hconn. destruct r as [conn [e|]]; cbn beta iota.
  - do 2 eexists. split; [reflexivity|]. split; [discriminate | reflexivity].
  - repeat match goal with
           | |- context [if ?b then _ else _] => destruct b
           end;
      do 2 eexists; (split; [reflexivity|]);
      split; intros H; try discriminate; try reflexivity;
      exfalso; apply H; reflexivity.
Qed.

(** The option "lock" in the sample world. *)
Lemma NewConsistencyController_controller_or_error_witness :
  exists controller err,
    @NewConsistencyController Sample.declarations Sample.collaborators
      0%N (Sample.config "lock" 1%nat 0 0) 0%N Sample.start
    = Done (controller, err) Sample.start
    /\ (controller = None <-> err <> None).
Proof.
  apply (@NewConsistencyController_controller_or_error
           Sample.declarations Sample.collaborators
           0%N (Sample.config "lock" 1%nat 0 0) 0%N Sample.start
           (Some 1%N, None) O).
  reflexivity.
Defined.

(** ** Callbacks, counters *)

Section HandlingFacts.
Context {D : Declarations} {C : Collaborators}.

Lemma tableCallBacks_none (evs : list Event) :
  Forall (fun e => isFinishTableCallBack e = false) evs -> tableCallBacks evs = O.
Proof.
  induction 1 as [|e evs He _ IH]; [reflexivity|].
  unfold tableCallBacks in *. simpl. now rewrite He.
Qed.

Lemma handleTask_other_events fuel w task :
  isTableData task = false ->
  emitsOnly (fun e => isFinishTableCallBack e = false)
    (Writer.handleTask fuel w task).
Proof.
  destruct task as [t|t|t|t|typeName]; cbn [Writer.handleTask isTableData];
    intros Ht; try discriminate.
  - eapply emitsOnly_weaken; [|apply WriteDatabaseMeta_silent]. contradiction.
  - eapply emitsOnly_weaken; [|apply WriteTableMeta_silent]. contradiction.
  - eapply emitsOnly_weaken; [|apply WriteViewMeta_silent]. contradiction.
  - apply emitsOnly_bind; [apply emitsOnly_emit; reflexivity|].
    intros _. apply emitsOnly_ret.
Qed.

Lemma wrap_add_l (a b : Z) : GoInt.wrap (GoInt.wrap a + b) = GoInt.wrap (a + b).
Proof.
  unfold GoInt.wrap. f_equal.
  replace ((a + 2 ^ 63) mod 2 ^ 64 - 2 ^ 63 + b + 2 ^ 63)
    with ((a + 2 ^ 63) mod 2 ^ 64 + b) by lia.
  rewrite Zplus_mod_idemp_l. f_equal. lia.
Qed.

Lemma countTotalTask_from (writers : list Writer.t) (a : Z) :
  fold_left (fun sum w => GoInt.add sum (Writer.receivedTaskCount w)) writers
    (GoInt.wrap a)
  = GoInt.wrap (a + sumReceived writers).
Proof.
  revert a. induction writers as [|w writers IH]; intros a; simpl.
  - now rewrite Z.add_0_r.
  - unfold GoInt.add at 2. rewrite wrap_add_l, IH. f_equal. lia.
Qed.

End HandlingFacts.

(** X8. [handleTask] itself never calls the task-completion callback,
    whatever the task and however the handling ends: it is the same
    computation whatever that callback is. For a task that is not a
    table-data task (database, table or view metadata, or an unknown
    variant) it does not call the table-completion callback either: there
    it is the same computation whatever the two callbacks are. In the
    trace, accordingly, the handling leaves no event of the task loop
    and, for such a task, no table completion. *)
Theorem handleTask_callbacks {D : Declarations} {C : Collaborators}
  (fuel : nat) (w : Writer.t) (task : Task)
  (fn : Task -> W -> Outcome unit * W) :
  Writer.handleTask fuel (Writer.setFinishTaskCallBack w fn) task
  = Writer.handleTask fuel w task
  /\ (isTableData task = false ->
      Writer.handleTask fuel (assignFinishTableCallBack w fn) task
      = Writer.handleTask fuel w task)
  /\ (forall s s' : State,
        ended (Writer.handleTask fuel w task s) = Some s' ->
        exists evs,
          trace s' = (trace s ++ evs)%list
          /\ loopEvents evs = []
          /\ (isTableData task = false -> tableCallBacks evs = O)).
Proof.
  split; [|split].
  - destruct task as [t|t|t|t|typeName]; try (destruct w; reflexivity).
    unfold Writer.handleTask, Writer.WriteTableData, Writer.attempt,
      Writer.writeTableData.
    rewrite (writeTableDataLoop_fields fuel (Writer.setFinishTaskCallBack w fn) w
               eq_refl eq_refl eq_refl).
    destruct w. reflexivity.
  - destruct task as [t|t|t|t|typeName]; cbn [isTableData]; intros Ht;
      try discriminate; destruct w; reflexivity.
  - intros s s' H.
    destruct (handleTask_events fuel w task s s' H) as (evs & E & F).
    exists evs. split; [exact E|]. split; [now apply loopEvents_handling|].
    intros Ht.
    destruct (handleTask_other_events fuel w task Ht s s' H) as (evs' & E' & F').
    rewrite E in E'. apply app_inv_head in E'. subst evs'.
    now apply tableCallBacks_none.
Qed.

(** A view task in the sample world, handled by the sample writer and by
    the writer whose table-completion callback adds 100 to the world. *)
Lemma handleTask_callbacks_witness :
  let task :=
    PtrTaskViewMeta (TaskViewMeta.mk "db" "v" "CREATE TABLE v" "CREATE VIEW v") in
  Writer.handleTask 1 notifyingWriter task = Writer.handleTask 1 Sample.writer task
  /\ exists evs,
       [] = ([] ++ evs)%list /\ loopEvents evs = []
       /\ (isTableData task = false -> tableCallBacks evs = O).
Proof.
  intros task. split.
  - exact (proj1 (proj2
             (@handleTask_callbacks Sample.declarations Sample.collaborators
                1%nat Sample.writer task
                (fun _ world => (Returns tt, (world + 100)%nat))))
             eq_refl).
  - apply (proj2 (proj2
             (@handleTask_callbacks Sample.declarations Sample.collaborators
                1%nat Sample.writer task
                (fun _ world => (Returns tt, (world + 100)%nat))))
             Sample.start Sample.start).
    eval_lhs. reflexivity.
Defined.

(** X9. The writer that [run] returns is the writer it was given with
    [receivedTaskCount] incremented once for each task received, the
    failing one included, and every other field as it was: in particular
    its connection is the one it had, whatever was rebuilt on the way.
    The choices consumed are these tasks and, when the return is nil, the
    cancellation or the close that stopped the loop. *)
Theorem run_counts_received {D : Declarations} {C : Collaborators}
  (fuel : nat) (taskStream : list Writer.selected) :
  forall (w : Writer.t) (s : State) (err : error) (w' : Writer.t)
         (rest : list Writer.selected) (s' : State),
  Writer.run fuel w taskStream s = Done (err, w', rest) s' ->
  exists k,
    Writer.receivedTaskCount w' = incremented k (Writer.receivedTaskCount w)
    /\ Writer.id w' = Writer.id w
    /\ Writer.ctx w' = Writer.ctx w
    /\ Writer.conf w' = Writer.conf w
    /\ Writer.conn w' = Writer.conn w
    /\ Writer.extStorage w' = Writer.extStorage w
    /\ Writer.fileFmt w' = Writer.fileFmt w
    /\ Writer.rebuildConnFn w' = Writer.rebuildConnFn w
    /\ Writer.finishTaskCallBack w' = Writer.finishTaskCallBack w
    /\ Writer.finishTableCallBack w' = Writer.finishTableCallBack w
    /\ List.length taskStream
       = (k + List.length rest + match err with Some _ => 0 | None => 1 end)%nat.
Proof.
  induction taskStream as [|[|task|] stream IH]; intros w s err w' rest s' H.
  - discriminate.
  - cbn [Writer.run] in H. unfold_effects. injection H as <- <- <- <-.
    exists O. repeat split. simpl; lia.
  - rewrite run_Received in H. cbv zeta in H.
    destruct (Writer.handleTask fuel _ task _) as [[e|] s1|v s1|];
      try discriminate.
    + injection H as <- <- <- <-. exists 1%nat. repeat split. simpl; lia.
    + destruct (Writer.finishTaskCallBack _ task (world s1)) as [[u|p] w2];
        try discriminate.
      destruct (IH _ _ _ _ _ _ H)
        as (k & Hn & Hid & Hctx & Hconf & Hconn & Hstore & Hfmt & Hfn
            & Htask & Htable & Hlen).
      exists (S k). cbn [Writer.incReceivedTaskCount Writer.id Writer.ctx
                         Writer.conf Writer.conn Writer.extStorage
                         Writer.fileFmt Writer.receivedTaskCount
                         Writer.rebuildConnFn Writer.finishTaskCallBack
                         Writer.finishTableCallBack] in *.
      repeat split; try assumption.
      * rewrite Hn. unfold incremented. now rewrite Nat.iter_succ_r.
      * simpl. lia.
  - cbn [Writer.run] in H. unfold_effects. injection H as <- <- <- <-.
    exists O. repeat split. simpl; lia.
Qed.

(** Three tasks and a closed channel in the sample world: the counter
    goes from 0 to 3. *)
Lemma run_counts_received_witness :
  exists k,
    3 = incremented k 0
    /\ 7 = 7
    /\ 0%N = 0%N
    /\ Sample.config "none" 1%nat 0 0 = Sample.config "none" 1%nat 0 0
    /\ Some 1%N = Some 1%N
    /\ 0%N = 0%N
    /\ 1%nat = 1%nat
    /\ Writer.rebuildConnFn Sample.writer = Writer.rebuildConnFn Sample.writer
    /\ Writer.finishTaskCallBack Sample.writer
       = Writer.finishTaskCallBack Sample.writer
    /\ Writer.finishTableCallBack Sample.writer
       = Writer.finishTableCallBack Sample.writer
    /\ 5%nat = (k + 1 + 1)%nat.
Proof.
  assert (Hrun : exists s',
             Writer.run 5 Sample.writer
               [Writer.Received (PtrTaskDatabaseMeta
                                   (TaskDatabaseMeta.mk "db" "CREATE DATABASE db"));
                Writer.Received (OtherTask "*export.TaskFuture");
                Writer.Received (Sample.dataTask 0%N 0 1);
                Writer.Closed; Writer.Received (Sample.dataTask 0%N 0 1)]
               Sample.start
             = Done (None,
                     withReceivedTaskCount Sample.writer 3,
                     [Writer.Received (Sample.dataTask 0%N 0 1)]) s')
    by (eexists; eval_lhs; reflexivity).
  destruct Hrun as [s' Hrun].
  exact (@run_counts_received Sample.declarations Sample.collaborators
           5%nat _ _ _ _ _ _ _ Hrun).
Defined.

(** X10. [countTotalTask] is the sum of the task counters of the writers
    reduced once to Go's [int], however the partial sums overflowed on the
    way; when the sum fits in an [int] it is the sum. *)
Theorem countTotalTask_sum {D : Declarations} {C : Collaborators}
  (writers : list Writer.t) :
  countTotalTask writers = GoInt.wrap (sumReceived writers)
  /\ (GoInt.in_range (sumReceived writers) ->
      countTotalTask writers = sumReceived writers).
Proof.
  assert (H : countTotalTask writers = GoInt.wrap (sumReceived writers)).
  { unfold countTotalTask. change 0 with (GoInt.wrap 0) at 1.
    now rewrite countTotalTask_from. }
  split; [exact H|]. intros Hr. rewrite H. now apply wrap_in_range.
Qed.

(** Two writers of the sample world, after one and two tasks. *)
Lemma countTotalTask_sum_witness :
  countTotalTask
    [Writer.incReceivedTaskCount Sample.writer;
     Writer.incReceivedTaskCount (Writer.incReceivedTaskCount Sample.writer)]
  = 3.
Proof.
  apply (proj2 (@countTotalTask_sum Sample.declarations Sample.collaborators
                  [Writer.incReceivedTaskCount Sample.writer;
                   Writer.incReceivedTaskCount
                     (Writer.incReceivedTaskCount Sample.writer)])).
  unfold GoInt.in_range, GoInt.min_int, GoInt.max_int. simpl. lia.
Defined.

(** ** Metadata files *)

(** X11. [writeMetaToFile]: when the file writer cannot be built, its
    error is returned and nothing else is called. When it is built, the
    statement goes to [WriteMeta] after the one preamble comment of the
    source, and the writer is torn down afterwards whether [WriteMeta]
    returns nil, returns an error or panics; the result is the one of
    [WriteMeta]. *)
Theorem writeMetaToFile_releases {D : Declarations} {C : Collaborators}
  (ctx : Context) (target metaSQL : string) (st : ExternalStorage)
  (path : string) (compressType : CompressType) (s : State)
  (fileWriter : FileWriter) (built : error) (w1 : W) :
  buildFileWriter ctx st path compressType (world s)
  = (Returns (fileWriter, built), w1) ->
  match built with
  | Some e =>
      Writer.writeMetaToFile ctx target metaSQL st path compressType s
      = Done (Some e) (mkState w1 (trace s))
  | None =>
      forall (written : Outcome error) (w2 w3 : W),
        WriteMeta ctx
          (metaData.mk target metaSQL ["/*!40101 SET NAMES binary*/;"])
          fileWriter w1 = (written, w2) ->
        tearDown fileWriter ctx w2 = (Returns tt, w3) ->
        Writer.writeMetaToFile ctx target metaSQL st path compressType s
        = match written with
          | Returns err => Done err (mkState w3 (trace s))
          | Panics v => Panicking v (mkState w3 (trace s))
          end
  end.
Proof.
  intros Hb. unfold Writer.writeMetaToFile. unfold_effects. rewrite Hb.
  destruct built as [e|]; [reflexivity|].
  intros written w2 w3 Hw Ht. cbn [world trace]. rewrite Hw.
  destruct written as [err|v]; cbn [world trace]; rewrite Ht; reflexivity.
Qed.

(** A statement written in the sample world. *)
Lemma writeMetaToFile_releases_witness :
  @Writer.writeMetaToFile Sample.declarations Sample.collaborators
    0%N "db" "CREATE DATABASE db" 0%N "db-schema-create.sql" O Sample.start
  = Done None Sample.start.
Proof.
  apply (@writeMetaToFile_releases Sample.declarations Sample.collaborators
           0%N "db" "CREATE DATABASE db" 0%N "db-schema-create.sql" O
           Sample.start 0%N None O eq_refl (Returns None) O O);
    reflexivity.
Defined.

(** X12. [WriteViewMeta] stops at its first failure. Both file names are
    rendered before anything is written: when either rendering fails, its
    error is returned and no call leaves the package, so not even the
    table file exists. When the table file fails to be written, the view
    file is not attempted. Otherwise the result is the one of writing the
    view file. *)
Theorem WriteViewMeta_first_failure {D : Declarations} {C : Collaborators}
  (w : Writer.t) (db view createTableSQL createViewSQL : string) (s : State) :
  let conf := Writer.conf w in
  let namer := outputFileNamer.mk 0 0 db view "" in
  let tableName :=
    outputFileNamer.render namer (Config.OutputFileTemplate conf)
      outputFileNamer.outputFileTemplateTable in
  let viewName :=
    outputFileNamer.render namer (Config.OutputFileTemplate conf)
      outputFileNamer.outputFileTemplateView in
  let write sql name :=
    Writer.writeMetaToFile (Writer.ctx w) db sql (Writer.extStorage w)
      (name ++ ".sql") (Config.CompressType conf) in
  (forall e, snd tableName = Some e ->
     Writer.WriteViewMeta w db view createTableSQL createViewSQL s
     = Done (Some e) s)
  /\ (forall e, snd tableName = None -> snd viewName = Some e ->
        Writer.WriteViewMeta w db view createTableSQL createViewSQL s
        = Done (Some e) s)
  /\ (forall e s1, snd tableName = None -> snd viewName = None ->
        write createTableSQL (fst tableName) s = Done (Some e) s1 ->
        Writer.WriteViewMeta w db view createTableSQL createViewSQL s
        = Done (Some e) s1)
  /\ (forall s1, snd tableName = None -> snd viewName = None ->
        write createTableSQL (fst tableName) s = Done None s1 ->
        Writer.WriteViewMeta w db view createTableSQL createViewSQL s
        = write createViewSQL (fst viewName) s1).
Proof.
  intros conf namer tableName viewName write.
  subst conf namer tableName viewName write.
  unfold Writer.WriteViewMeta. cbv zeta.
  destruct (outputFileNamer.render _ _ outputFileNamer.outputFileTemplateTable)
    as [tn te].
  destruct (outputFileNamer.render _ _ outputFileNamer.outputFileTemplateView)
    as [vn ve].
  cbn [fst snd]. repeat split.
  - intros e ->. reflexivity.
  - intros e -> ->. reflexivity.
  - intros e s1 -> -> H. unfold bind. now rewrite H.
  - intros s1 -> -> H. unfold bind. now rewrite H.
Qed.

(** A view of the sample world: the table file, then the view file. *)
Lemma WriteViewMeta_first_failure_witness :
  Writer.WriteViewMeta Sample.writer "db" "v" "CREATE TABLE v" "CREATE VIEW v"
    Sample.start
  = @Writer.writeMetaToFile Sample.declarations Sample.collaborators
      0%N "db" "CREATE VIEW v" 0%N "db.v-schema-view.sql" O Sample.start.
Proof.
  apply (proj2 (proj2 (proj2
           (@WriteViewMeta_first_failure Sample.declarations Sample.collaborators
              Sample.writer "db" "v" "CREATE TABLE v" "CREATE VIEW v"
              Sample.start))));
    reflexivity.
Defined.

(** ** The files of one chunk *)

Section ChunkFiles.
Context {D : Declarations} {C : Collaborators}.

Lemma writeTableDataLoop_one_file fuel w ctx meta ir namer fileName s :
  Config.FileSize (Writer.conf w) = UnspecifiedSize ->
  Writer.writeTableDataLoop (S fuel) w ctx meta ir namer fileName s
  = Writer.writeTableDataLoop 1 w ctx meta ir namer fileName s
  /\ Writer.writeTableDataLoop 1 w ctx meta ir namer fileName s <> NoReturn.
Proof.
  intros H. cbn [Writer.writeTableDataLoop]. rewrite H, Z.eqb_refl.
  unfold_effects.
  repeat match goal with
         | |- context [match ?x with (_, _) => _ end] =>
             destruct x as [[[?|]|?] ?]
         | |- context [match ?x with (_, _) => _ end] =>
             destruct x as [[?|?] ?]
         | |- context [match ?x with Some _ => _ | None => _ end] => destruct x
         | |- context [if ?b then _ else _] => destruct b
         end; cbn [world trace];
    split; (reflexivity || discriminate).
Qed.

End ChunkFiles.

(** X13. Without a file-size limit ([conf.FileSize == UnspecifiedSize]) a
    chunk is one file: [writeTableData] never goes round its loop a second
    time, so it always ends (as the calls it makes do), whatever the
    encoder wrote. *)
Theorem writeTableData_one_file {D : Declarations} {C : Collaborators}
  (fuel : nat) (w : Writer.t) (ctx : Context) (meta : TableMeta.t)
  (ir : TableDataIR) (curChkIdx : Z) (s : State) :
  Config.FileSize (Writer.conf w) = UnspecifiedSize ->
  Writer.writeTableData (S fuel) w ctx meta ir curChkIdx s
  = Writer.writeTableData 1 w ctx meta ir curChkIdx s
  /\ Writer.writeTableData 1 w ctx meta ir curChkIdx s <> NoReturn.
Proof.
  intros H. unfold Writer.writeTableData. cbv zeta.
  destruct (outputFileNamer.NextName _ _ _) as [[fileName [e|]] namer].
  - split; [reflexivity | discriminate].
  - now apply writeTableDataLoop_one_file.
Qed.

(** The sample configuration has no size limit. *)
Lemma writeTableData_one_file_witness :
  Writer.writeTableData 9 Sample.writer 0%N Sample.meta 0%N 0 Sample.start
  = Writer.writeTableData 1 Sample.writer 0%N Sample.meta 0%N 0 Sample.start.
Proof.
  apply (@writeTableData_one_file Sample.declarations Sample.collaborators
           8%nat Sample.writer 0%N Sample.meta 0%N 0 Sample.start).
  reflexivity.
Defined.

(** X14. One turn of the splitting loop of [writeTableData], once the file
    writer is built, the encoder has returned and the writer is torn down:
    an error of the encoder is returned and no further file is started;
    when nothing was written to the file, the loop returns nil, size limit
    or not; when something was written and there is a size limit, the
    loop asks the same namer for the next name, returns the error of the
    template if that fails, and otherwise goes on with that name and the
    advanced namer. *)
Theorem writeTableDataLoop_turn {D : Declarations} {C : Collaborators}
  (fuel : nat) (w : Writer.t) (ctx : Context) (meta : TableMeta.t)
  (ir : TableDataIR) (namer : outputFileNamer.t) (fileName : string)
  (s : State) (fileWriter : FileWriter) (err : error) (w1 w2 w3 : W) :
  let conf := Writer.conf w in
  let next :=
    outputFileNamer.NextName namer (Config.OutputFileTemplate conf)
      (Extension (Writer.fileFmt w)) in
  let s3 := mkState w3 (trace s) in
  buildInterceptFileWriter (Writer.extStorage w) fileName
    (Config.CompressType conf) (world s) = (Returns fileWriter, w1) ->
  WriteInsert (Writer.fileFmt w) ctx conf meta ir fileWriter w1
  = (Returns err, w2) ->
  tearDown fileWriter ctx w2 = (Returns tt, w3) ->
  Writer.writeTableDataLoop (S fuel) w ctx meta ir namer fileName s
  = match err with
    | Some e => Done (Some e) s3
    | None =>
        match asInterceptFileWriter fileWriter w3 with
        | Some false => Done None s3
        | _ =>
            if Config.FileSize conf =? UnspecifiedSize then Done None s3
            else
              match snd (fst next) with
              | Some e => Done (Some e) s3
              | None =>
                  Writer.writeTableDataLoop fuel w ctx meta ir (snd next)
                    (fst (fst next)) s3
              end
        end
    end.
Proof.
  intros conf next s3 Hb Hi Ht. subst conf next s3.
  cbn [Writer.writeTableDataLoop]. unfold_effects.
  rewrite Hb. cbn [world trace]. rewrite Hi. cbn [world trace]. rewrite Ht.
  cbn [world trace].
  destruct err as [e|]; [reflexivity|]. cbn [world trace].
  destruct (outputFileNamer.NextName namer
              (Config.OutputFileTemplate (Writer.conf w))
              (Extension (Writer.fileFmt w))) as [[n [e|]] namer'];
    destruct (asInterceptFileWriter fileWriter w3) as [[|]|];
    destruct (Config.FileSize (Writer.conf w) =? UnspecifiedSize);
    reflexivity.
Qed.

(** The row source whose rows fail to encode, in the sample world. *)
Lemma writeTableDataLoop_turn_witness :
  Writer.writeTableDataLoop 1 Sample.writer 0%N Sample.meta 3%N
    (newOutputFileNamer Sample.meta 0 false false) "db.tbl.000000000.sql"
    Sample.start
  = Done (Some Sample.encodeFailed) Sample.start.
Proof.
  apply (@writeTableDataLoop_turn Sample.declarations Sample.collaborators
           O Sample.writer 0%N Sample.meta 3%N
           (newOutputFileNamer Sample.meta 0 false false)
           "db.tbl.000000000.sql" Sample.start 0%N
           (Some Sample.encodeFailed) O O O);
    reflexivity.
Defined.

(** ** The attempts of a chunk, one by one *)

(** Case analysis along an attempt, down to its ways out. *)
Ltac attempt_cases :=
  repeat
    (match goal with
     | |- context [Writer.writeTableData ?f ?w0 ?c ?m ?i ?k ?st] =>
         let H := fresh "Hsilent" in
         pose proof (writeTableData_trace f w0 c m i k st) as H;
         destruct (Writer.writeTableData f w0 c m i k st) as [[?|] ?|? ?|]
     | |- context [match ?x with (_, _) => _ end] =>
         destruct x as [[[? [?|]]|?] ?]
     | |- context [match ?x with (_, _) => _ end] =>
         destruct x as [[[?|]|?] ?]
     | |- context [match ?x with (_, _) => _ end] =>
         destruct x as [[?|?] ?]
     | |- context [match ?x with Some _ => _ | None => _ end] => destruct x
     | |- context [if ?b then _ else _] => destruct b
     end; cbn [world trace ended]).

Section AttemptFacts.
Context {D : Declarations} {C : Collaborators}.

Lemma rebuild_test_later (retryTime : Z) :
  1 <= retryTime < GoInt.max_int ->
  GoInt.add retryTime 1 = retryTime + 1
  /\ (1 <? GoInt.add retryTime 1) = true.
Proof.
  intros H.
  assert (E : GoInt.add retryTime 1 = retryTime + 1).
  { unfold GoInt.add. apply wrap_in_range.
    unfold GoInt.in_range, GoInt.min_int, GoInt.max_int in *. lia. }
  split; [exact E|]. rewrite E. apply Z.ltb_lt. lia.
Qed.

End AttemptFacts.

(** X15. An attempt whose [retryTime] was 0, as is the first attempt of
    every [WriteTableData], does not rebuild the connection: when it ends,
    it has logged, started the row source on the connection it was given,
    and closed the row source or not; nothing else. *)
Theorem attempt_first {D : Declarations} {C : Collaborators}
  (fuel : nat) (w : Writer.t) (meta : TableMeta.t) (ir : TableDataIR)
  (currentChunk : Z) (v : Writer.attemptVars) (s s' : State) :
  Writer.retryTime v = 0 ->
  ended (Writer.attempt fuel w meta ir currentChunk v s) = Some s' ->
  exists started,
    trace s'
    = (trace s ++ [EvLog "debug" "trying to dump table chunk";
                   EvStart ir (Writer.connVar v) started])%list
    \/ trace s'
       = (trace s ++ [EvLog "debug" "trying to dump table chunk";
                      EvStart ir (Writer.connVar v) started;
                      EvClose ir])%list.
Proof.
  intros Hrt. unfold Writer.attempt, Writer.closeIR, Writer.countError.
  cbv zeta. rewrite Hrt.
  change (1 <? GoInt.add 0 1) with false. cbn iota.
  unfold_effects. cbn [world trace].
  attempt_cases.
  all: intros H; try discriminate; injection H as <-; cbn [trace];
    repeat match goal with
           | Hs : trace _ = _ |- _ => cbn [trace] in Hs; rewrite Hs; clear Hs
           end;
    rewrite <- ?app_assoc;
    eexists; solve [left; reflexivity | right; reflexivity].
Qed.

(** The first attempt on the row source that fails to start. *)
Lemma attempt_first_witness :
  exists started,
    [EvLog "debug" "trying to dump table chunk";
     EvStart 1%N (Some 1%N) (Returns (Some Sample.startFailed))]
    = ([] ++ [EvLog "debug" "trying to dump table chunk";
              EvStart 1%N (Some 1%N) started])%list
    \/ [EvLog "debug" "trying to dump table chunk";
        EvStart 1%N (Some 1%N) (Returns (Some Sample.startFailed))]
       = ([] ++ [EvLog "debug" "trying to dump table chunk";
                 EvStart 1%N (Some 1%N) started;
                 EvClose 1%N])%list.
Proof.
  apply (@attempt_first Sample.declarations Sample.collaborators
           5%nat Sample.writer Sample.meta 1%N 0
           (Writer.mkVars 0 None (Some 1%N)) Sample.start
           (@mkState Sample.declarations Sample.collaborators O
              [EvLog "debug" "trying to dump table chunk";
               EvStart 1%N (Some 1%N) (Returns (Some Sample.startFailed))])).
  - reflexivity.
  - eval_lhs. reflexivity.
Defined.

(** X16. A later attempt ([retryTime] from 1 on) first hands the
    connection of the previous attempt to [rebuildConnFn]. When that
    returns an error, the attempt counts it, returns it without starting
    the row source, and keeps whatever connection came back with the
    error for the next attempt. When it returns a connection and no
    error, the row source is started on that connection. *)
Theorem attempt_rebuilds {D : Declarations} {C : Collaborators}
  (fuel : nat) (w : Writer.t) (meta : TableMeta.t) (ir : TableDataIR)
  (currentChunk : Z) (v : Writer.attemptVars) (s : State)
  (fn : sqlConn -> W -> Outcome (sqlConn * error) * W)
  (conn' : sqlConn) (rebuilt : error) (w1 : W) :
  1 <= Writer.retryTime v < GoInt.max_int ->
  Writer.rebuildConnFn w = Some fn ->
  fn (Writer.connVar v) (world s) = (Returns (conn', rebuilt), w1) ->
  let prologue :=
    [EvLog "debug" "trying to dump table chunk";
     EvRebuildConn (Writer.connVar v)] in
  match rebuilt with
  | Some e =>
      forall w2,
        errorCount_Inc (Config.Labels (Writer.conf w)) w1 = (Returns tt, w2) ->
        Writer.attempt fuel w meta ir currentChunk v s
        = Done (Some e, Writer.mkVars (Writer.retryTime v + 1) (Some e) conn')
               (mkState w2 (trace s ++ prologue))
  | None =>
      forall s',
        ended (Writer.attempt fuel w meta ir currentChunk v s) = Some s' ->
        exists started rest,
          trace s'
          = (trace s ++ prologue ++ EvStart ir conn' started :: rest)%list
  end.
Proof.
  intros Hrt Hfn Hcall prologue. subst prologue.
  destruct (rebuild_test_later _ Hrt) as [Eadd Etest].
  unfold Writer.attempt, Writer.closeIR, Writer.countError. cbv zeta.
  rewrite Etest, Eadd, Hfn. unfold_effects. cbn [world trace].
  rewrite Hcall. cbn [world trace].
  destruct rebuilt as [e|].
  - intros w2 Hinc. cbn [world trace]. rewrite Hinc. cbn [world trace].
    now rewrite <- app_assoc.
  - attempt_cases.
    all: intros s' H; try discriminate; injection H as <-; cbn [trace];
      repeat match goal with
             | Hs : trace _ = _ |- _ => cbn [trace] in Hs; rewrite Hs; clear Hs
             end;
      rewrite <- ?app_assoc; do 2 eexists; reflexivity.
Qed.

(** A second attempt in the sample world, on the rebuilt connection 2. *)
Lemma attempt_rebuilds_witness :
  exists started rest,
    [EvLog "debug" "trying to dump table chunk"; EvRebuildConn (Some 1%N);
     EvStart 0%N (Some 2%N) (Returns None); EvClose 0%N]
    = ([] ++ [EvLog "debug" "trying to dump table chunk";
              EvRebuildConn (Some 1%N)]
          ++ EvStart 0%N (Some 2%N) started :: rest)%list.
Proof.
  apply (@attempt_rebuilds Sample.declarations Sample.collaborators
           5%nat Sample.writer Sample.meta 0%N 0
           (Writer.mkVars 1 (Some Sample.encodeFailed) (Some 1%N)) Sample.start
           (fun _ world => (Returns (Some 2%N, None), world))
           (Some 2%N) None O
           ltac:(unfold GoInt.max_int; simpl; lia) eq_refl eq_refl
           (@mkState Sample.declarations Sample.collaborators O
              [EvLog "debug" "trying to dump table chunk";
               EvRebuildConn (Some 1%N);
               EvStart 0%N (Some 2%N) (Returns None); EvClose 0%N])).
  eval_lhs. reflexivity.
Defined.

(** X17. [NewWriter] leaves [rebuildConnFn] nil, and no method of the
    writer sets it; with a nil [rebuildConnFn] every attempt after the
    first panics on the call of the nil function, before the row source
    is started. *)
Theorem attempt_without_rebuildConnFn {D : Declarations} {C : Collaborators} :
  (forall id ctx config conn externalStore,
     Writer.rebuildConnFn (Writer.NewWriter id ctx config conn externalStore)
     = None)
  /\ (forall fn w,
        Writer.rebuildConnFn (Writer.setFinishTaskCallBack w fn)
        = Writer.rebuildConnFn w
        /\ Writer.rebuildConnFn (Writer.setFinishTableCallBack w fn)
           = Writer.rebuildConnFn w)
  /\ (forall fuel w meta ir currentChunk v s,
        Writer.rebuildConnFn w = None ->
        1 <= Writer.retryTime v < GoInt.max_int ->
        Writer.attempt fuel w meta ir currentChunk v s
        = Panicking "runtime error: invalid memory address or nil pointer dereference"
            (mkState (world s)
               (trace s ++ [EvLog "debug" "trying to dump table chunk";
                            EvRebuildConn (Writer.connVar v)]))).
Proof.
  split; [|split].
  - intros id ctx config conn externalStore. unfold Writer.NewWriter. cbv zeta.
    destruct (String.eqb _ _); [reflexivity|].
    destruct (String.eqb _ _); reflexivity.
  - intros fn w. split; reflexivity.
  - intros fuel w meta ir currentChunk v s Hfn Hrt.
    destruct (rebuild_test_later _ Hrt) as [Eadd Etest].
    unfold Writer.attempt. cbv zeta. rewrite Etest, Hfn.
    unfold_effects. cbn [world trace]. now rewrite <- app_assoc.
Qed.

(** A second attempt of a writer fresh from [NewWriter]. *)
Lemma attempt_without_rebuildConnFn_witness :
  Writer.attempt 5
    (@Writer.NewWriter Sample.declarations Sample.collaborators
       7 0%N (Sample.config "none" 1%nat 0 0) (Some 1%N) 0%N)
    Sample.meta 0%N 0 (Writer.mkVars 1 (Some Sample.encodeFailed) (Some 1%N))
    Sample.start
  = Panicking "runtime error: invalid memory address or nil pointer dereference"
      (@mkState Sample.declarations Sample.collaborators O
         [EvLog "debug" "trying to dump table chunk"; EvRebuildConn (Some 1%N)]).
Proof.
  apply (proj2 (proj2 (@attempt_without_rebuildConnFn
                         Sample.declarations Sample.collaborators))).
  - reflexivity.
  - unfold GoInt.max_int; simpl; lia.
Defined.

(** X18. Whenever an attempt returns, the variables it leaves to the next
    attempt hold [retryTime] advanced by one and, as [lastErr], the very
    error it returned. *)
Theorem attempt_bookkeeping {D : Declarations} {C : Collaborators}
  (fuel : nat) (w : Writer.t) (meta : TableMeta.t) (ir : TableDataIR)
  (currentChunk : Z) (v v' : Writer.attemptVars) (s s' : State) (err : error) :
  Writer.attempt fuel w meta ir currentChunk v s = Done (err, v') s' ->
  Writer.retryTime v' = GoInt.add (Writer.retryTime v) 1
  /\ Writer.lastErr v' = err.
Proof.
  unfold Writer.attempt, Writer.closeIR, Writer.countError. cbv zeta.
  unfold_effects. cbn [world trace].
  repeat
    (match goal with
     | |- context [Writer.writeTableData ?f ?w0 ?c ?m ?i ?k ?st] =>
         destruct (Writer.writeTableData f w0 c m i k st) as [[?|] ?|? ?|]
     | |- context [match ?x with (_, _) => _ end] =>
         destruct x as [[[? [?|]]|?] ?]
     | |- context [match ?x with (_, _) => _ end] =>
         destruct x as [[[?|]|?] ?]
     | |- context [match ?x with (_, _) => _ end] =>
         destruct x as [[?|?] ?]
     | |- context [match ?x with Some _ => _ | None => _ end] => destruct x
     | |- context [if ?b then _ else _] => destruct b
     end; cbn [world trace]).
  all: intros H; try discriminate; injection H as <- <- _; split; reflexivity.
Qed.

(** The attempt on the row source that fails to start. *)
Lemma attempt_bookkeeping_witness :
  1 = GoInt.add 0 1 /\ Some Sample.startFailed = Some Sample.startFailed.
Proof.
  apply (@attempt_bookkeeping Sample.declarations Sample.collaborators
           5%nat Sample.writer Sample.meta 1%N 0
           (Writer.mkVars 0 None (Some 1%N))
           (Writer.mkVars 1 (Some Sample.startFailed) (Some 1%N))
           Sample.start
           (@mkState Sample.declarations Sample.collaborators O
              [EvLog "debug" "trying to dump table chunk";
               EvStart 1%N (Some 1%N) (Returns (Some Sample.startFailed))])
           (Some Sample.startFailed)).
  eval_lhs. reflexivity.
Defined.

(** X19. An error returned by [ir.Close()] is dropped: a first attempt in
    which the row source started and the chunk was written returns nil
    whatever [Close] returns, with nothing counted as an error. *)
Theorem attempt_Close_error_dropped {D : Declarations} {C : Collaborators}
  (fuel : nat) (w : Writer.t) (meta : TableMeta.t) (ir : TableDataIR)
  (currentChunk : Z) (v : Writer.attemptVars) (s s2 : State)
  (closed : error) (w1 w3 : W) :
  Writer.retryTime v = 0 ->
  IR_Start ir (Writer.ctx w) (Writer.connVar v) (world s)
  = (Returns None, w1) ->
  Writer.writeTableData fuel w (Writer.ctx w) meta ir currentChunk
    (mkState w1
       ((trace s ++ [EvLog "debug" "trying to dump table chunk"])
        ++ [EvStart ir (Writer.connVar v) (Returns None)]))
  = Done None s2 ->
  IR_Close ir (world s2) = (Returns closed, w3) ->
  Writer.attempt fuel w meta ir currentChunk v s
  = Done (None, Writer.mkVars 1 None (Writer.connVar v))
         (mkState w3 (trace s2 ++ [EvClose ir])).
Proof.
  intros Hrt Hstart Hwrite Hclose.
  unfold Writer.attempt, Writer.closeIR, Writer.countError. cbv zeta.
  rewrite Hrt. change (1 <? GoInt.add 0 1) with false.
  change (GoInt.add 0 1) with 1. cbn iota.
  unfold_effects. cbn [world trace]. rewrite Hstart. cbn [world trace].
  rewrite Hwrite. cbn [world trace]. rewrite Hclose. reflexivity.
Qed.

(** A first attempt in the sample world. *)
Lemma attempt_Close_error_dropped_witness :
  Writer.attempt 5 Sample.writer Sample.meta 0%N 0
    (Writer.mkVars 0 None (Some 1%N)) Sample.start
  = Done (None, Writer.mkVars 1 None (Some 1%N))
      (@mkState Sample.declarations Sample.collaborators O
         [EvLog "debug" "trying to dump table chunk";
          EvStart 0%N (Some 1%N) (Returns None); EvClose 0%N]).
Proof.
  apply (@attempt_Close_error_dropped Sample.declarations Sample.collaborators
           5%nat Sample.writer Sample.meta 0%N 0
           (Writer.mkVars 0 None (Some 1%N)) Sample.start
           (@mkState Sample.declarations Sample.collaborators O
              [EvLog "debug" "trying to dump table chunk";
               EvStart 0%N (Some 1%N) (Returns None)])
           None O O).
  - reflexivity.
  - reflexivity.
  - eval_lhs. reflexivity.
  - reflexivity.
Defined.

(** ** Starts and closes over a whole chunk *)

Section Balance.
Context {D : Declarations} {C : Collaborators}.

Lemma balanced_app (a b : list Event) :
  balanced a -> balanced b -> balanced (a ++ b).
Proof.
  unfold balanced. intros Ha Hb. rewrite !filter_app, !length_app. lia.
Qed.

Lemma addsBalanced_silent {A} (m : M A) :
  emitsOnly (fun _ => False) m -> addsBalanced m.
Proof.
  intros Hm s s' H. exists []. split; [|reflexivity].
  rewrite app_nil_r. eapply emitsOnly_nothing; eauto.
Qed.

Lemma addsBalanced_bind {A B} (m : M A) (k : A -> M B) :
  addsBalanced m -> (forall a, addsBalanced (k a)) -> addsBalanced (bind m k).
Proof.
  intros Hm Hk s s'. unfold bind.
  destruct (m s) as [a s1|v s1|] eqn:Em; intros Hend.
  - destruct (Hm s s1) as (evs1 & E1 & F1); [now rewrite Em|].
    destruct (Hk a s1 s' Hend) as (evs2 & E2 & F2).
    exists (evs1 ++ evs2)%list. split.
    + now rewrite E2, E1, app_assoc.
    + now apply balanced_app.
  - injection Hend as <-. apply (Hm s s1). now rewrite Em.
  - discriminate.
Qed.

Lemma attempt_balanced fuel w meta ir currentChunk v :
  addsBalanced (Writer.attempt fuel w meta ir currentChunk v).
Proof.
  intros s s'.
  unfold Writer.attempt, Writer.closeIR, Writer.countError. cbv zeta.
  unfold_effects. cbn [world trace].
  attempt_cases.
  all: intros H; try discriminate; injection H as <-; cbn [trace];
    repeat match goal with
           | Hs : trace _ = _ |- _ => cbn [trace] in Hs; rewrite Hs; clear Hs
           end;
    rewrite <- ?app_assoc;
    eexists; split; reflexivity.
Qed.

Lemma WithRetryFrom_balanced {S : Type} fuel ctx
  (retryableFunc : S -> M (error * S)) backoffer st lastErr :
  (forall st, addsBalanced (retryableFunc st)) ->
  addsBalanced (utils.WithRetryFrom fuel ctx retryableFunc backoffer st lastErr).
Proof.
  intros Hf. revert st lastErr.
  induction fuel as [|fuel IH]; intros st lastErr.
  - intros s s' H. discriminate.
  - cbn [utils.WithRetryFrom].
    apply addsBalanced_bind;
      [apply addsBalanced_silent, emitsOnly_call|intros n].
    destruct (n <=? 0); [apply addsBalanced_silent, emitsOnly_ret|].
    apply addsBalanced_bind; [apply Hf|intros [[e|] st']].
    + apply addsBalanced_bind;
        [apply addsBalanced_silent, emitsOnly_call|intros d].
      apply addsBalanced_bind;
        [apply addsBalanced_silent, emitsOnly_call|intros [|]].
      * apply addsBalanced_silent, emitsOnly_call.
      * apply IH.
    + apply addsBalanced_silent, emitsOnly_ret.
Qed.

End Balance.

(** ** Counted calls *)

Section CountingFacts.
Context {D : Declarations} (C : @Collaborators D).

Lemma keepsCalls_ret {A} (a : A) : keepsCalls (@ret D (Counting C) A a).
Proof. intros s s' [= <-]. reflexivity. Qed.

Lemma keepsCalls_noReturn {A} : keepsCalls (@noReturn D (Counting C) A).
Proof. intros s s' H. discriminate. Qed.

Lemma keepsCalls_inspect {R} (f : @W D (Counting C) -> R) :
  keepsCalls (inspect f).
Proof. intros s s' [= <-]. reflexivity. Qed.

Lemma keepsCalls_uncounted {R} (op : @W D C -> Outcome R * @W D C) :
  keepsCalls (@call D (Counting C) R (uncounted C op)).
Proof.
  intros s s'. unfold call, uncounted, calls.
  destruct (op (fst (world s))) as [[r|p] w']; intros [= <-]; reflexivity.
Qed.

Lemma keepsCalls_bind {A B} (m : @M D (Counting C) A)
  (k : A -> @M D (Counting C) B) :
  keepsCalls m -> (forall a, keepsCalls (k a)) -> keepsCalls (bind m k).
Proof.
  intros Hm Hk s s'. unfold bind.
  destruct (m s) as [a s1|v s1|] eqn:Em; intros Hend.
  - rewrite (Hk a s1 s' Hend). apply Hm. now rewrite Em.
  - injection Hend as <-. apply Hm. now rewrite Em.
  - discriminate.
Qed.

Lemma writeTableDataLoop_keepsCalls fuel (w : @Writer.t D C) ctx meta ir namer
  fileName :
  keepsCalls
    (Writer.writeTableDataLoop fuel (countingWriter C w) ctx meta ir namer fileName).
Proof.
  revert namer fileName. induction fuel as [|fuel IH]; intros namer fileName.
  - apply keepsCalls_noReturn.
  - cbn [Writer.writeTableDataLoop].
    repeat first
      [ apply keepsCalls_ret
      | apply keepsCalls_inspect
      | apply keepsCalls_uncounted
      | apply IH
      | apply keepsCalls_bind; [| intros ?]
      | match goal with
        | |- keepsCalls (match ?x with _ => _ end) => destruct x
        end ].
Qed.

Lemma writeTableData_keepsCalls fuel (w : @Writer.t D C) ctx meta ir curChkIdx :
  keepsCalls (Writer.writeTableData fuel (countingWriter C w) ctx meta ir curChkIdx).
Proof.
  unfold Writer.writeTableData. cbv zeta.
  repeat first
    [ apply keepsCalls_ret
    | apply writeTableDataLoop_keepsCalls
    | match goal with
      | |- keepsCalls (match ?x with _ => _ end) => destruct x
      end ].
Qed.

Lemma closesWhatItStarts_keepsCalls {A} (m : @M D (Counting C) A) :
  keepsCalls m -> closesWhatItStarts m.
Proof. intros Hm s s' H. rewrite (Hm s s' H). lia. Qed.

Lemma closesWhatItStarts_bind {A B} (m : @M D (Counting C) A)
  (k : A -> @M D (Counting C) B) :
  closesWhatItStarts m -> (forall a, closesWhatItStarts (k a)) ->
  closesWhatItStarts (bind m k).
Proof.
  intros Hm Hk s s'. unfold bind.
  destruct (m s) as [a s1|v s1|] eqn:Em; intros Hend.
  - pose proof (Hk a s1 s' Hend) as H2.
    pose proof (Hm s s1 ltac:(now rewrite Em)) as H1. lia.
  - injection Hend as <-. apply Hm. now rewrite Em.
  - discriminate.
Qed.

Lemma writeTableData_calls fuel (w : @Writer.t D C) ctx meta ir curChkIdx
  (s : @State D (Counting C)) :
  match Writer.writeTableData fuel (countingWriter C w) ctx meta ir curChkIdx s with
  | Done _ s' => snd (world s') = snd (world s)
  | Panicking _ s' => snd (world s') = snd (world s)
  | NoReturn => True
  end.
Proof.
  pose proof (writeTableData_keepsCalls fuel w ctx meta ir curChkIdx s) as H.
  unfold calls in H.
  destruct (Writer.writeTableData _ _ _ _ _ _ s); auto.
Qed.

Lemma attempt_closesWhatItStarts fuel (w : @Writer.t D C) meta ir currentChunk v :
  closesWhatItStarts
    (Writer.attempt fuel (countingWriter C w) meta ir currentChunk v).
Proof.
  intros s s'.
  unfold Writer.attempt, Writer.closeIR, Writer.countError. cbv zeta.
  unfold_effects. cbn [world trace].
  cbn [countingWriter Writer.rebuildConnFn Writer.ctx Writer.conf
       IR_Start IR_Close errorCount_Inc Counting].
  unfold uncounted, countedStart, countedClose.
  destruct (Writer.rebuildConnFn w) as [fn|]; cbn [option_map].
  all:
    repeat
      (match goal with
       | |- context [Writer.writeTableData ?f ?w0 ?c ?m ?i ?k ?st] =>
           let H := fresh "Hkeeps" in
           pose proof (writeTableData_calls f w c m i k st) as H;
           change (Writer.writeTableData f (countingWriter C w) c m i k st)
             with (Writer.writeTableData f w0 c m i k st) in H;
           destruct (Writer.writeTableData f w0 c m i k st) as [[?|] ?|? ?|]
       | |- context [match ?f (fst ?x) with (_, _) => _ end] =>
           first [ destruct (f (fst x)) as [[[? [?|]]|?] ?]
                 | destruct (f (fst x)) as [[[?|]|?] ?]
                 | destruct (f (fst x)) as [[?|?] ?] ]
       | |- context [match ?x with Some _ => _ | None => _ end] => destruct x
       | |- context [if ?b then _ else _] => destruct b
       end; cbn beta iota; cbn [world trace ended]).
  all: intros H; try discriminate; injection H as <-; unfold calls;
    cbn [world fst snd startsOk closes] in *;
    repeat match goal with
           | Hs : snd _ = _ |- _ => rewrite Hs; clear Hs
           end;
    cbn [world fst snd startsOk closes]; lia.
Qed.

Lemma WithRetryFrom_closesWhatItStarts {S : Type} fuel ctx
  (retryableFunc : S -> @M D (Counting C) (error * S)) backoffer st lastErr :
  (forall st, closesWhatItStarts (retryableFunc st)) ->
  closesWhatItStarts
    (utils.WithRetryFrom fuel ctx retryableFunc backoffer st lastErr).
Proof.
  intros Hf. revert st lastErr.
  induction fuel as [|fuel IH]; intros st lastErr.
  - intros s s' H. discriminate.
  - cbn [utils.WithRetryFrom].
    apply closesWhatItStarts_bind;
      [apply closesWhatItStarts_keepsCalls, keepsCalls_uncounted|intros n].
    destruct (n <=? 0); [apply closesWhatItStarts_keepsCalls, keepsCalls_ret|].
    apply closesWhatItStarts_bind; [apply Hf|intros [[e|] st']].
    + apply closesWhatItStarts_bind;
        [apply closesWhatItStarts_keepsCalls, keepsCalls_uncounted|intros d].
      apply closesWhatItStarts_bind;
        [apply closesWhatItStarts_keepsCalls, keepsCalls_uncounted|intros [|]].
      * apply closesWhatItStarts_keepsCalls, keepsCalls_uncounted.
      * apply IH.
    + apply closesWhatItStarts_keepsCalls, keepsCalls_ret.
Qed.

Lemma WriteTableData_closesWhatItStarts fuel (w : @Writer.t D C) meta ir
  currentChunk :
  closesWhatItStarts
    (Writer.WriteTableData fuel (countingWriter C w) meta ir currentChunk).
Proof.
  unfold Writer.WriteTableData, utils.WithRetry. cbv zeta.
  apply closesWhatItStarts_bind;
    [apply closesWhatItStarts_keepsCalls, keepsCalls_uncounted|intros backoffer].
  apply WithRetryFrom_closesWhatItStarts. intros st.
  apply attempt_closesWhatItStarts.
Qed.

End CountingFacts.

(** X21. Over a whole [WriteTableData], retries included and whatever the
    backoff strategy allows, the row source is closed exactly as many
    times as its [Start] returned nil, when the call ends by a return or
    by a panic: in the world that counts them, the calls of [Close] made
    in between are as many as the calls of [Start] that returned nil,
    whatever the collaborators do; and the trace shows as many. *)
Theorem WriteTableData_closes_what_it_starts
  {D : Declarations} (C : @Collaborators D)
  (fuel : nat) (w : @Writer.t D C) (meta : TableMeta.t) (ir : TableDataIR)
  (currentChunk : Z) (s s' : @State D (Counting C)) :
  ended (Writer.WriteTableData fuel (countingWriter C w) meta ir currentChunk s)
  = Some s' ->
  (startsOk (calls s') + closes (calls s)
   = startsOk (calls s) + closes (calls s'))%nat
  /\ exists evs,
       trace s' = (trace s ++ evs)%list
       /\ List.length (filter isStarted evs) = List.length (filter isClosed evs).
Proof.
  intros H. split.
  - exact (WriteTableData_closesWhatItStarts C fuel w meta ir currentChunk s s' H).
  - revert s s' H.
    change (addsBalanced
              (Writer.WriteTableData fuel (countingWriter C w) meta ir currentChunk)).
    unfold Writer.WriteTableData, utils.WithRetry. cbv zeta.
    apply addsBalanced_bind;
      [apply addsBalanced_silent, emitsOnly_call|intros backoffer].
    apply WithRetryFrom_balanced. intros st. apply attempt_balanced.
Qed.

(** The row source whose rows fail to encode, in the counting sample
    world: three attempts, three starts, three closes. *)
Lemma WriteTableData_closes_what_it_starts_witness :
  let s' :=
    @mkState Sample.declarations (Counting Sample.collaborators)
      (3%nat, mkCalls 3 3)
      [EvLog "debug" "trying to dump table chunk";
       EvStart 3%N (Some 1%N) (Returns None); EvClose 3%N;
       EvLog "debug" "trying to dump table chunk"; EvRebuildConn (Some 1%N);
       EvStart 3%N (Some 2%N) (Returns None); EvClose 3%N;
       EvLog "debug" "trying to dump table chunk"; EvRebuildConn (Some 2%N);
       EvStart 3%N (Some 2%N) (Returns None); EvClose 3%N] in
  (startsOk (calls s') + closes (calls countingStart)
   = startsOk (calls countingStart) + closes (calls s'))%nat
  /\ exists evs,
       trace s' = (trace countingStart ++ evs)%list
       /\ List.length (filter isStarted evs) = List.length (filter isClosed evs).
Proof.
  intros s'.
  apply (@WriteTableData_closes_what_it_starts
           Sample.declarations Sample.collaborators
           5%nat Sample.writer Sample.meta 3%N 0 countingStart s').
  eval_lhs. reflexivity.
Defined.
